(** * gobench: benchmark lines to Elasticsearch bulk documents

    A shallow embedding of [main.go]: the extra-metrics extractor
    ([parseExtraMetrics]), the document assembler and encoder
    ([encodeIndexOp]), the version check ([getEsVersion]), the schema
    bootstrap ([createMapping]) and the stream driver ([main]).

    Go strings are byte strings ([string], one [ascii] per byte); Go maps
    are [gmap]s; a nil map is [None].  Everything the program reaches
    outside of its own source (HTTP, JSON decoding, [strconv], the
    benchmark-line parser, the host) is a field of the environment record
    [Env]; the theorems hold for every environment. *)

From Stdlib Require Import ZArith List String Ascii Lia Floats.SpecFloat.
From stdpp Require Import base option list fin_maps gmap strings pretty.

Set Default Proof Using "Type".
Local Open Scope string_scope.
Local Open Scope Z_scope.
Local Open Scope list_scope.

(* ===================================================================== *)
(** ** Package [strings] of the Go library, as far as [main.go] calls it *)
(* ===================================================================== *)

Module strings.

(** [strings.HasPrefix(s, prefix)]. *)
Fixpoint HasPrefix (s prefix : string) : bool :=
  match prefix, s with
  | EmptyString, _ => true
  | String p ps, String c cs => Ascii.eqb c p && HasPrefix cs ps
  | String _ _, EmptyString => false
  end.

(** The slice expressions [s[n:]] and [s[:n]], for [n <= len(s)]. *)
Fixpoint sliceFrom (n : nat) (s : string) : string :=
  match n, s with
  | O, _ => s
  | S k, String _ cs => sliceFrom k cs
  | S _, EmptyString => EmptyString
  end.

Fixpoint sliceTo (n : nat) (s : string) : string :=
  match n, s with
  | S k, String c cs => String c (sliceTo k cs)
  | _, _ => EmptyString
  end.

(** The runes [unicode.IsSpace] accepts, in their UTF-8 encoding: the six
    ASCII ones, U+0085, U+00A0, U+1680, U+2000..U+200A, U+2028, U+2029,
    U+202F, U+205F and U+3000. *)
Definition bytes (l : list nat) : string :=
  string_of_list_ascii (map ascii_of_nat l).

Definition spaceRunes : list string :=
  map bytes
    [ [9]; [10]; [11]; [12]; [13]; [32];
      [194; 133]; [194; 160]; [225; 154; 128];
      [226; 128; 128]; [226; 128; 129]; [226; 128; 130]; [226; 128; 131];
      [226; 128; 132]; [226; 128; 133]; [226; 128; 134]; [226; 128; 135];
      [226; 128; 136]; [226; 128; 137]; [226; 128; 138];
      [226; 128; 168]; [226; 128; 169]; [226; 128; 175];
      [226; 129; 159]; [227; 128; 128] ]%nat.

(** Drops one leading space rune, if there is one. *)
Fixpoint stripOne (runes : list string) (s : string) : option string :=
  match runes with
  | [] => None
  | r :: rs =>
      if HasPrefix s r then Some (sliceFrom (String.length r) s)
      else stripOne rs s
  end.

Fixpoint trimLeft (runes : list string) (fuel : nat) (s : string) : string :=
  match fuel with
  | O => s
  | S k =>
      match stripOne runes s with
      | Some s' => trimLeft runes k s'
      | None => s
      end
  end.

Definition reverse (s : string) : string :=
  string_of_list_ascii (rev (list_ascii_of_string s)).

(** [strings.TrimSpace(s)]: all leading and trailing white space removed.
    The right end is trimmed on the reversed string, against the reversed
    encodings. *)
Definition TrimSpace (s : string) : string :=
  let l := trimLeft spaceRunes (String.length s) s in
  reverse (trimLeft (map reverse spaceRunes) (String.length l) (reverse l)).

(** [strings.Split(s, sep)] for a non-empty [sep] (the program passes
    constants): the pieces between the leftmost non-overlapping
    occurrences of [sep].  [skip] counts the bytes of a separator that
    has been recognised and is still to be passed over; [cur] is the
    piece being read, reversed. *)
Fixpoint splitGo (sep : string) (skip : nat) (cur : list ascii) (s : string)
  : list string :=
  match s with
  | EmptyString => [string_of_list_ascii (rev cur)]
  | String c cs =>
      match skip with
      | S k => splitGo sep k cur cs
      | O =>
          if HasPrefix s sep
          then string_of_list_ascii (rev cur)
                 :: splitGo sep (String.length sep - 1) [] cs
          else splitGo sep O (c :: cur) cs
      end
  end.

Definition Split (s sep : string) : list string := splitGo sep O [] s.

(** [strings.SplitN(s, sep, n)] for a non-empty [sep] and [n > 0]: at most
    [n] pieces, the last one the unsplit rest. *)
Fixpoint splitNGo (sep : string) (n : nat) (skip : nat) (cur : list ascii)
    (s : string) : list string :=
  match s with
  | EmptyString => [string_of_list_ascii (rev cur)]
  | String c cs =>
      match skip with
      | S k => splitNGo sep n k cur cs
      | O =>
          match n with
          | O | 1%nat => [string_of_list_ascii (rev cur) +:+ s]
          | S m =>
              if HasPrefix s sep
              then string_of_list_ascii (rev cur)
                     :: splitNGo sep m (String.length sep - 1) [] cs
              else splitNGo sep n O (c :: cur) cs
          end
      end
  end.

Definition SplitN (s sep : string) (n : nat) : list string :=
  match n with
  | O => []
  | _ => splitNGo sep n O [] s
  end.

(** [strings.ReplaceAll(s, old, new)] for a non-empty [old]. *)
Fixpoint replaceGo (old new : string) (skip : nat) (s : string) : string :=
  match s with
  | EmptyString => EmptyString
  | String c cs =>
      match skip with
      | S k => replaceGo old new k cs
      | O =>
          if HasPrefix s old
          then new +:+ replaceGo old new (String.length old - 1) cs
          else String c (replaceGo old new O cs)
      end
  end.

Definition ReplaceAll (s old new : string) : string := replaceGo old new O s.

(** [strings.IndexRune(s, r)] for an ASCII rune: [None] is Go's [-1]. *)
Fixpoint IndexRune (s : string) (r : ascii) : option nat :=
  match s with
  | EmptyString => None
  | String c cs =>
      if Ascii.eqb c r then Some O else S <$> IndexRune cs r
  end.

End strings.

(* ===================================================================== *)
(** ** Package [github.com/blang/semver]: versions and their precedence  *)
(* ===================================================================== *)

Module semver.

(** One dot-separated pre-release identifier: numeric or alphanumeric. *)
Record PRVersion := mkPR {
  VersionStr : string;
  VersionNum : Z;
  IsNum : bool
}.

Record Version := mkVersion {
  Major : Z;
  Minor : Z;
  Patch : Z;
  Pre : list PRVersion;
  Build : list string
}.

(** Go compares strings byte-wise. *)
Definition strCompare (a b : string) : comparison := String.compare a b.

Definition intOf (c : comparison) : Z :=
  match c with Lt => -1 | Eq => 0 | Gt => 1 end.

(** [PRVersion.Compare]: a numeric identifier is below an alphanumeric
    one. *)
Definition prCompare (v o : PRVersion) : Z :=
  if IsNum v && negb (IsNum o) then -1
  else if negb (IsNum v) && IsNum o then 1
  else if IsNum v && IsNum o then intOf (VersionNum v ?= VersionNum o)
  else intOf (strCompare (VersionStr v) (VersionStr o)).

(** The loop of [Version.Compare] over both pre-release lists. *)
Fixpoint preCompare (v o : list PRVersion) : Z :=
  match v, o with
  | [], [] => 0
  | [], _ :: _ => -1
  | _ :: _, [] => 1
  | x :: v', y :: o' =>
      let comp := prCompare x y in
      if comp =? 0 then preCompare v' o'
      else if comp =? 1 then 1 else -1
  end.

(** [Version.Compare]: -1, 0 or 1.  Build metadata takes no part. *)
Definition Compare (v o : Version) : Z :=
  if negb (Major v =? Major o) then (if Major v >? Major o then 1 else -1)
  else if negb (Minor v =? Minor o) then (if Minor v >? Minor o then 1 else -1)
  else if negb (Patch v =? Patch o) then (if Patch v >? Patch o then 1 else -1)
  else match Pre v, Pre o with
       | [], [] => 0
       | [], _ :: _ => 1
       | _ :: _, [] => -1
       | pv, po => preCompare pv po
       end.

Definition LT (v o : Version) : bool := Compare v o =? -1.
Definition GTE (v o : Version) : bool := Compare v o >=? 0.

(** [semver.MustParse("7.0.0")] and [semver.MustParse("8.0.0")]. *)
Definition v7_0_0 : Version := mkVersion 7 0 0 [] [].
Definition v8_0_0 : Version := mkVersion 8 0 0 [] [].

End semver.

(* ===================================================================== *)
(** ** Values                                                            *)
(* ===================================================================== *)

(** [float64]: an IEEE 754 binary64 number. *)
Definition float64 : Type := spec_float.

Definition float64_of_Z (z : Z) : float64 := binary_normalize 53 1024 z 0 false.

Definition isFinite (f : float64) : bool :=
  match f with
  | S754_infinity _ | S754_nan => false
  | _ => true
  end.

(** What an [interface{}] of the program holds, and what one call of
    [Encoder.Encode] writes: a string, a number, a time stamp, a list, or a
    map with string keys. *)
#[warnings="-register-all"]
Inductive value :=
  | VNull
  | VBool (b : bool)
  | VInt (n : Z)
  | VFloat (f : float64)
  | VString (s : string)
  | VTime (unixSeconds : Z)
  | VList (l : list value)
  | VMap (m : gmap string value).

(** Go's [error]: a message, or the program's own [*esError]. *)
Inductive error :=
  | Err (msg : string)
  | EsError (Type_ Reason : string).

(** [err.Error()]. *)
Definition errorString (e : error) : string :=
  match e with
  | Err msg => msg
  | EsError _ reason => reason
  end.

(** [time.Time.MarshalJSON] writes a year from 0 to 9999 and refuses every
    other one.  The times of the program are in UTC: these are the seconds
    since 1970 from 0000-01-01T00:00:00Z up to 9999-12-31T23:59:59Z. *)
Definition marshalsYear (unixSeconds : Z) : bool :=
  (-62167219200 <=? unixSeconds) && (unixSeconds <? 253402300800).

(** The error of [json.UnsupportedValueError] for a float64 that is no
    number: [strconv.FormatFloat] names it. *)
Definition floatError (f : float64) : option error :=
  match f with
  | S754_nan => Some (Err "json: unsupported value: NaN")
  | S754_infinity false => Some (Err "json: unsupported value: +Inf")
  | S754_infinity true => Some (Err "json: unsupported value: -Inf")
  | _ => None
  end.

(** The error of [json.MarshalerError] for a time without a four-digit
    year. *)
Definition timeError : error :=
  Err ("json: error calling MarshalJSON for type time.Time: "
         +:+ "Time.MarshalJSON: year outside of range [0,9999]").

(** The error of [encoding/json] for a value it refuses, [None] for a
    value it encodes.  It refuses NaN and the infinities, and a time whose
    year is not in [0, 9999]; it stops at the first refusal: in a list at
    the first refused element, in a map at the refused value with the least
    key, for it writes the keys of a map in their order as strings. *)
Fixpoint marshalError (v : value) : option error :=
  match v with
  | VFloat f => floatError f
  | VTime unixSeconds =>
      if marshalsYear unixSeconds then None else Some timeError
  | VList l =>
      fold_right
        (fun x later =>
           match marshalError x with
           | Some err => Some err
           | None => later
           end)
        None l
  | VMap m =>
      snd <$>
        map_fold
          (fun key x first =>
             match marshalError x with
             | None => first
             | Some err =>
                 match first with
                 | Some (key', _) =>
                     if String.ltb key key' then Some (key, err) else first
                 | None => Some (key, err)
                 end
             end)
          None m
  | _ => None
  end.

(* ===================================================================== *)
(** ** Package [golang.org/x/tools/benchmark/parse]                      *)
(* ===================================================================== *)

Module parse.

(** The flags of [Benchmark.Measured]: [1 << iota]. *)
Definition NsPerOp : Z := 1.
Definition MBPerS : Z := 2.
Definition AllocedBytesPerOp : Z := 4.
Definition AllocsPerOp : Z := 8.

Record Benchmark := mkBenchmark {
  Name : string;
  N : Z;
  NsPerOp_ : float64;
  AllocedBytesPerOp_ : Z;
  AllocsPerOp_ : Z;
  MBPerS_ : float64;
  Measured : Z;
  Ord : Z
}.

End parse.

(** [type benchmark struct { parse.Benchmark; extra map[string]float64 }] *)
Record benchmark := mkbenchmark {
  Benchmark : parse.Benchmark;
  extra : option (gmap string float64)
}.

Record elasticsearchConfig := mkConfig {
  host : string;
  user : string;
  pass : string;
  index : string;
  shouldSkipTlsVerify : bool;
  httpTimeoutSeconds : Z
}.

(* ===================================================================== *)
(** ** The world outside the program                                     *)
(* ===================================================================== *)

Record Request := mkRequest {
  Method : string;
  URL : string;
  BasicAuth : option (string * string);
  ContentType : option string;
  Body : list value;                 (* the encoded units of the body *)
  clientSkipVerify : bool;           (* the client of [getHttpClient] *)
  clientTimeout : Z
}.

Record Response := mkResponse {
  StatusCode : Z;
  Status : string;
  ContentLength : Z;
  RespBody : string                  (* what is still unread of the body *)
}.

(** [url.URL], as far as the program looks into it. *)
Record url := mkUrl {
  Path : string;
  origin : string                    (* scheme, host and the rest *)
}.

Record Env := mkEnv {
  (* strconv *)
  ParseFloat : string -> option float64;
  ParseInt : string -> option Z;
  (* golang.org/x/tools/benchmark/parse *)
  ParseLine : string -> option parse.Benchmark;
  (* github.com/blang/semver *)
  semver_New : string -> error + semver.Version;
  (* encoding/json, decoding: the version number of the body of [GET /],
     and one object from a stream together with what stays unread *)
  decodeEsVersion : string -> error + string;
  decodeObject : string -> error + (gmap string value * string);
  (* net/url and net/http; the [nat] counts the requests already made *)
  url_Parse : string -> error + url;
  url_String : url -> string;
  http_NewRequest : string -> string -> option error;
  http_Do : nat -> Request -> error + Response;
  (* os, runtime, os/exec, go/build and go/vcs *)
  os_Hostname : option string;
  runtime_GOOS : string;
  runtime_Version : string;
  exec_uname_r : option string;
  vcs_FromDir : string -> option string;
  exec_git_log : string -> option string;
  time_Now : Z
}.

(** What the run has done so far. *)
Inductive printed :=
  | Encoded (v : value)              (* one unit of [Encoder.Encode] *)
  | Pretty (v : value).              (* one [pretty.Println] *)

Record world := mkWorld {
  requests : list Request;           (* handed to the HTTP client, in order *)
  stdout : list printed;
  buf : list value;                  (* the [bytes.Buffer] of [main] *)
  logged : list string               (* [log.Printf] *)
}.

Definition world0 : world := mkWorld [] [] [] [].

(** How a computation ends: it returns, [log.Fatal] stops the process with
    a message, [os.Exit(2)] stops it after a message on standard error, or
    the run time panics (a nil pointer, a failed type assertion). *)
Inductive outcome (A : Type) :=
  | Done (a : A)
  | Fatal (msg : string)
  | Exit2 (msg : string)
  | Panic.
Arguments Done {A} a.
Arguments Fatal {A} msg.
Arguments Exit2 {A} msg.
Arguments Panic {A}.

Definition M (A : Type) : Type := world -> outcome A * world.

Definition ret {A} (a : A) : M A := fun w => (Done a, w).

Definition bind {A B} (m : M A) (k : A -> M B) : M B :=
  fun w =>
    match m w with
    | (Done a, w') => k a w'
    | (Fatal msg, w') => (Fatal msg, w')
    | (Exit2 msg, w') => (Exit2 msg, w')
    | (Panic, w') => (Panic, w')
    end.

Notation "x <- c1 ;; c2" := (bind c1 (fun x => c2))
  (at level 100, c1 at next level, right associativity).
Notation "c1 ;;; c2" := (bind c1 (fun _ => c2))
  (at level 100, right associativity).

Definition log_Fatal {A} (msg : string) : M A := fun w => (Fatal msg, w).
Definition os_Exit2 {A} (msg : string) : M A := fun w => (Exit2 msg, w).
Definition panic {A} : M A := fun w => (Panic, w).

Definition log_Printf (msg : string) : M unit :=
  fun w => (Done tt, mkWorld (requests w) (stdout w) (buf w) (logged w ++ [msg])).

Definition pretty_Println (v : value) : M unit :=
  fun w => (Done tt, mkWorld (requests w) (stdout w ++ [Pretty v]) (buf w) (logged w)).

(** Where the encoder of [main] writes: standard output, the buffer, or
    both ([io.MultiWriter]). *)
Inductive writer := ToStdout | ToBuf | ToBoth.

Definition write (out : writer) (v : value) : M unit :=
  fun w =>
    let so := stdout w ++ [Encoded v] in
    let bf := buf w ++ [v] in
    (Done tt,
     match out with
     | ToStdout => mkWorld (requests w) so (buf w) (logged w)
     | ToBuf => mkWorld (requests w) (stdout w) bf (logged w)
     | ToBoth => mkWorld (requests w) so bf (logged w)
     end).

(** The units [out] has received. *)
Definition written (out : writer) (w : world) : list value :=
  match out with
  | ToStdout => omap (fun p => match p with Encoded v => Some v | Pretty _ => None end)
                     (stdout w)
  | ToBuf | ToBoth => buf w
  end.

(** [encoder.Encode(v)]: one unit, or the error of a value without a JSON
    form, and then nothing is written. *)
Definition Encode (out : writer) (v : value) : M (option error) :=
  match marshalError v with
  | None => write out v ;;; ret None
  | Some err => ret (Some err)
  end.

(** [client.Do(req)]. *)
Definition Do (E : Env) (req : Request) : M (error + Response) :=
  fun w =>
    (Done (http_Do E (length (requests w)) req),
     mkWorld (requests w ++ [req]) (stdout w) (buf w) (logged w)).

(* ===================================================================== *)
(** ** [main.go]                                                         *)
(* ===================================================================== *)

Definition exceptionResourceAlreadyExists : string :=
  "resource_already_exists_exception".

Definition fieldExecutedAt : string := "executed_at".
Definition fieldName : string := "name".
Definition fieldIterations : string := "iterations".
Definition fieldPkg : string := "pkg".
Definition fieldHostname : string := "hostname".
Definition fieldGoVersion : string := "go_version".
Definition fieldOSVersion : string := "os_version".
Definition fieldGOOS : string := "goos".
Definition fieldGOARCH : string := "goarch".
Definition fieldNSPerOp : string := "ns_per_op".
Definition fieldMBPerS : string := "mb_per_s".
Definition fieldAllocedBytesPerOp : string := "alloced_bytes_per_op".
Definition fieldAllocsPerOp : string := "allocs_per_op".
Definition fieldGit : string := "git".
Definition fieldGitCommit : string := "commit".
Definition fieldGitSubject : string := "subject".
Definition fieldGitCommitter : string := "committer".
Definition fieldGitCommitterDate : string := "date".
Definition fieldExtraMetrics : string := "extra_metrics".

Definition typeOf (t : string) : value := VMap {[ "type" := VString t ]}.

Definition esFieldProperties : gmap string value :=
  list_to_map
    [ (fieldExecutedAt, typeOf "date");
      (fieldName, typeOf "keyword");
      (fieldIterations, typeOf "long");
      (fieldPkg, typeOf "keyword");
      (fieldHostname, typeOf "keyword");
      (fieldGoVersion, typeOf "keyword");
      (fieldOSVersion, typeOf "keyword");
      (fieldGOOS, typeOf "keyword");
      (fieldGOARCH, typeOf "keyword");
      (fieldNSPerOp, typeOf "double");
      (fieldMBPerS, typeOf "double");
      (fieldAllocedBytesPerOp, typeOf "long");
      (fieldAllocsPerOp, typeOf "long");
      (fieldGit,
       VMap {[ "properties" :=
         VMap (list_to_map
           [ (fieldGitCommit, typeOf "text");
             (fieldGitSubject, typeOf "text");
             (fieldGitCommitter,
              VMap {[ "properties" :=
                VMap {[ fieldGitCommitterDate := typeOf "date" ]} ]}) ]) ]}) ].

Definition esExtraMetricsDynamicTemplate : gmap string value :=
  {[ fieldExtraMetrics :=
       VMap (list_to_map
         [ ("path_match", VString "extra_metrics.*");
           ("mapping", VMap {[ "type" := VString "float" ]}) ]) ]}.

(** The one-byte string of a tab. *)
Definition tab : string := String (ascii_of_nat 9) EmptyString.

(** The string [encodeIndexOp] encodes last: a line feed. *)
Definition newline : string := String (ascii_of_nat 10) EmptyString.

(** [cfg.user != "" && cfg.pass != ""] and [cfg.user != "" || cfg.pass != ""] *)
Definition nonEmpty (s : string) : bool := negb (String.eqb s "").

(** [type Index struct] of [encodeIndexOp] with its JSON tags, and the
    anonymous struct around it. *)
Record Index := mkIndex {
  Index_ : string;                   (* `json:"_index"` *)
  Type_of : string                   (* `json:"_type,omitempty"` *)
}.

Record indexAction := mkIndexAction {
  IndexOf : Index                    (* `json:"index"` *)
}.

(** What [encoding/json] makes of them: [omitempty] leaves an empty string
    out. *)
Definition jsonOfIndex (i : Index) : value :=
  VMap (<["_index" := VString (Index_ i)]>
          (if String.eqb (Type_of i) "" then ∅
           else {[ "_type" := VString (Type_of i) ]})).

Definition jsonOfIndexAction (a : indexAction) : value :=
  VMap {[ "index" := jsonOfIndex (IndexOf a) ]}.

(** The variables [pkg], [goos] and [goarch] of [main]. *)
Record context := mkContext {
  pkg : string;
  goos : string;
  goarch : string
}.

Section Program.

Context (E : Env).

(** The four labels [parseExtraMetrics] leaves to [parse.ParseLine]. *)
Definition isNative (key : string) : bool :=
  String.eqb key "ns/op" || String.eqb key "MB/s"
  || String.eqb key "B/op" || String.eqb key "allocs/op".

(** The body of the loop of [parseExtraMetrics], for one [entry]. *)
Definition extraEntry (result : gmap string float64) (entry : string)
  : gmap string float64 :=
  let parts := strings.Split (strings.TrimSpace entry) " " in
  if (length parts <? 2)%nat then result
  else
    let key := strings.TrimSpace (default "" (parts !! 1%nat)) in
    match ParseFloat E (strings.TrimSpace (default "" (parts !! 0%nat))) with
    | None => result
    | Some value =>
        if isNative key then result
        else <[strings.ReplaceAll key "/" "_" := value]> result
    end.

Definition parseExtraMetrics (line : string) : option (gmap string float64) :=
  let entries := strings.Split line tab in
  if (length entries <? 3)%nat then None
  else
    let result := fold_left extraEntry (drop 3 entries) ∅ in
    if (0 <? size result)%nat then Some result else None.

Definition addHost (doc : gmap string value) : gmap string value :=
  let doc :=
    match os_Hostname E with
    | Some hostname => <[fieldHostname := VString hostname]> doc
    | None => doc
    end in
  if String.eqb (runtime_GOOS E) "linux" then
    match exec_uname_r E with
    | Some output => <[fieldOSVersion := VString (strings.TrimSpace output)]> doc
    | None => doc
    end
  else doc.

Definition addVCS (pkgpath : string) (doc : gmap string value)
  : gmap string value :=
  match vcs_FromDir E pkgpath with
  | None => doc
  | Some cmd =>
      if String.eqb cmd "git" then
        match exec_git_log E pkgpath with
        | None => doc
        | Some output =>
            match strings.SplitN (strings.TrimSpace output) " " 3 with
            | [f0; f1; f2] =>
                let gitFields : gmap string value :=
                  <[fieldGitCommit := VString f0]>
                    {[ fieldGitSubject := VString f2 ]} in
                let gitFields :=
                  match ParseInt E f1 with
                  | Some unixSec =>
                      <[fieldGitCommitter :=
                          VMap {[ fieldGitCommitterDate := VTime unixSec ]}]>
                        gitFields
                  | None => gitFields
                  end in
                <[fieldGit := VMap gitFields]> doc
            | _ => doc
            end
        end
      else doc
  end.

(** [for key, value := range tags { doc[key] = value }] *)
Definition addTags (tags : gmap string string) (doc : gmap string value)
  : gmap string value :=
  map_fold (fun key value d => <[key := VString value]> d) doc tags.

(** The map [doc] of [encodeIndexOp], as it stands when it is encoded. *)
Definition docOf (b : benchmark) (pkg goos goarch : string)
    (tags : gmap string string) (timestamp : Z) : gmap string value :=
  let B := Benchmark b in
  let doc : gmap string value :=
    list_to_map
      [ (fieldExecutedAt, VTime timestamp);
        (fieldName, VString (parse.Name B));
        (fieldIterations, VInt (parse.N B));
        (fieldPkg, VString pkg);
        (fieldGoVersion, VString (runtime_Version E));
        (fieldGOOS, VString goos);
        (fieldGOARCH, VString goarch) ] in
  let doc :=
    if negb (Z.land (parse.Measured B) parse.NsPerOp =? 0)
    then <[fieldNSPerOp := VFloat (parse.NsPerOp_ B)]> doc else doc in
  let doc :=
    if negb (Z.land (parse.Measured B) parse.MBPerS =? 0)
    then <[fieldMBPerS := VFloat (parse.MBPerS_ B)]> doc else doc in
  let doc :=
    if negb (Z.land (parse.Measured B) parse.AllocedBytesPerOp =? 0)
    then <[fieldAllocedBytesPerOp := VInt (parse.AllocedBytesPerOp_ B)]> doc
    else doc in
  let doc :=
    if negb (Z.land (parse.Measured B) parse.AllocsPerOp =? 0)
    then <[fieldAllocsPerOp := VInt (parse.AllocsPerOp_ B)]> doc else doc in
  let doc :=
    match extra b with
    | Some apmbench =>
        if (0 <? size apmbench)%nat
        then <[fieldExtraMetrics := VMap (VFloat <$> apmbench)]> doc
        else doc
    | None => doc
    end in
  addTags tags (addVCS pkg (addHost doc)).

Definition getEsVersion (cfg : elasticsearchConfig)
  : M (error + semver.Version) :=
  match http_NewRequest E "GET" (host cfg) with
  | Some err => ret (inl err)
  | None =>
      let req :=
        mkRequest "GET" (host cfg)
          (if nonEmpty (user cfg) || nonEmpty (pass cfg)
           then Some (user cfg, pass cfg) else None)
          None []
          (shouldSkipTlsVerify cfg) (httpTimeoutSeconds cfg) in
      r <- Do E req ;;
      match r with
      | inl err => ret (inl err)
      | inr resp =>
          if negb (StatusCode resp =? 200) then
            ret (inl (Err ("received unexpected " +:+ pretty (StatusCode resp)
                             +:+ " status code")))
          else
            match decodeEsVersion E (RespBody resp) with
            | inl err => ret (inl err)
            | inr number => ret (semver_New E number)
            end
      end
  end.

Definition encodeIndexOp (encoder : writer) (b : benchmark)
    (pkg goos goarch : string) (tags : gmap string string) (timestamp : Z)
    (cfg : elasticsearchConfig) : M unit :=
  let doc := docOf b pkg goos goarch tags timestamp in
  v <- getEsVersion cfg ;;
  match v with
  | inl err => log_Fatal (errorString err)
  | inr esVersion =>
      let includeTypDoc := semver.LT esVersion semver.v8_0_0 in
      let action :=
        mkIndexAction
          (mkIndex (index cfg) (if includeTypDoc then "_doc" else "")) in
      e1 <- Encode encoder (jsonOfIndexAction action) ;;
      match e1 with
      | Some err => log_Fatal (errorString err)
      | None =>
          e2 <- Encode encoder (VMap doc) ;;
          match e2 with
          | Some err => log_Fatal (errorString err)
          | None =>
              e3 <- Encode encoder (VString newline) ;;
              match e3 with
              | Some newLineErr => log_Fatal (errorString newLineErr)
              | None => ret tt
              end
          end
      end
  end.

Definition handleResponse (verboseFlag : bool) (resp : Response)
  : M (option error) :=
  if negb verboseFlag && (StatusCode resp =? 200) then ret None
  else
    match decodeObject E (RespBody resp) with
    | inl err => log_Fatal (errorString err)
    | inr (result, _) =>
        if StatusCode resp =? 200 then
          pretty_Println (VMap result) ;;; ret None
        else
          match result !! "error" with
          | Some (VMap errorObj) =>
              match errorObj !! "type", errorObj !! "reason" with
              | Some (VString t), Some (VString r) => ret (Some (EsError t r))
              | _, _ => panic
              end
          | _ => ret (Some (Err (Status resp)))
          end
    end.

(** The body [createMapping] sends, for the version the store reports. *)
Definition mappingBody (esVersion : semver.Version) : value :=
  let includeTypeName := semver.LT esVersion semver.v7_0_0 in
  let properties : gmap string value :=
    <["properties" := VMap esFieldProperties]>
      {[ "dynamic_templates" := VList [VMap esExtraMetricsDynamicTemplate] ]} in
  let properties : gmap string value :=
    if includeTypeName then {[ "_doc" := VMap properties ]} else properties in
  VMap {[ "mappings" := VMap properties ]}.

Definition createMapping (verboseFlag : bool) (cfg : elasticsearchConfig)
  : M (option error) :=
  v <- getEsVersion cfg ;;
  match v with
  | inl err => ret (Some err)
  | inr esVersion =>
      let body := mappingBody esVersion in
      match marshalError body with
      | Some err => ret (Some err)
      | None =>
        let mappingURL := host cfg +:+ "/" +:+ index cfg in
        match http_NewRequest E "PUT" mappingURL with
        | Some err => ret (Some err)
        | None =>
            let req :=
              mkRequest "PUT" mappingURL
                (if nonEmpty (user cfg) && nonEmpty (pass cfg)
                 then Some (user cfg, pass cfg) else None)
                (Some "application/json") [body]
                (shouldSkipTlsVerify cfg) (httpTimeoutSeconds cfg) in
            r <- Do E req ;;
            match r with
            | inl err => ret (Some err)
            | inr resp =>
                hr <- handleResponse verboseFlag resp ;;
                match hr with
                | Some (EsError t reason) =>
                    if String.eqb t exceptionResourceAlreadyExists then
                      (if verboseFlag
                       then log_Printf ("index " +:+ index cfg +:+ " already exists")
                       else ret tt) ;;;
                      ret None
                    else ret (Some (EsError t reason))
                | Some err => ret (Some err)
                | None => ret None
                end
            end
        end
      end
  end.

(** The loop of [main] over the fields of the [-tag] flag: the tags, or
    the field that has no ['=']. *)
Fixpoint parseTags (fields : list string) (tags : gmap string string)
  : string + gmap string string :=
  match fields with
  | [] => inr tags
  | field :: rest =>
      let field := strings.TrimSpace field in
      if String.eqb field "" then parseTags rest tags
      else
        match strings.IndexRune field "="%char with
        | None => inl field
        | Some i =>
            let key := strings.sliceTo i field in
            let value := strings.sliceFrom (S i) field in
            parseTags rest
              (<[strings.TrimSpace key := strings.TrimSpace value]> tags)
        end
  end.

(** The body of the scanner loop of [main], for one [line]. *)
Definition scanLine (encoder : writer) (tags : gmap string string)
    (timestamp : Z) (esConfig : elasticsearchConfig)
    (ctx : context) (line : string) : M context :=
  if strings.HasPrefix line "pkg:" then
    ret (mkContext
           (strings.TrimSpace (strings.sliceFrom (String.length "pkg:") line))
           (goos ctx) (goarch ctx))
  else if strings.HasPrefix line "goos:" then
    ret (mkContext (pkg ctx)
           (strings.TrimSpace (strings.sliceFrom (String.length "goos:") line))
           (goarch ctx))
  else if strings.HasPrefix line "goarch:" then
    ret (mkContext (pkg ctx) (goos ctx)
           (strings.TrimSpace (strings.sliceFrom (String.length "goarch:") line)))
  else
    match ParseLine E line with
    | Some b =>
        let result := mkbenchmark b (parseExtraMetrics line) in
        encodeIndexOp encoder result (pkg ctx) (goos ctx) (goarch ctx)
          tags timestamp esConfig ;;;
        ret ctx
    | None => ret ctx
    end.

Fixpoint scanLines (encoder : writer) (tags : gmap string string)
    (timestamp : Z) (esConfig : elasticsearchConfig)
    (ctx : context) (lines : list string) : M context :=
  match lines with
  | [] => ret ctx
  | line :: rest =>
      ctx' <- scanLine encoder tags timestamp esConfig ctx line ;;
      scanLines encoder tags timestamp esConfig ctx' rest
  end.

(** [json.NewDecoder(resp.Body).Decode(&m)] on the response of the bulk
    request: the object, and the response with what stays unread. *)
Definition decodeBody (resp : Response)
  : error + (gmap string value * Response) :=
  match decodeObject E (RespBody resp) with
  | inl err => inl err
  | inr (m, unread) =>
      inr (m, mkResponse (StatusCode resp) (Status resp) (ContentLength resp)
                 unread)
  end.

(** The end of [main] in direct-send mode: the bulk request.  The error
    of [http.NewRequest] is not looked at, and that of [Do] only after the
    response has been read: a nil [req] or [resp] is used, and the run
    time panics.  The body of the response is decoded twice before
    [handleResponse] sees it; the first failure prints [respbod], a map
    with nothing in it. *)
Definition sendBulk (verboseFlag : bool) (esConfig : elasticsearchConfig)
    (esURL : url) : M unit :=
  let bulkURL := mkUrl (Path esURL +:+ "/_bulk") (origin esURL) in
  fun w =>
    match http_NewRequest E "POST" (url_String E bulkURL) with
    | Some _ => (Panic, w)           (* [req] is nil *)
    | None =>
        let req :=
          mkRequest "POST" (url_String E bulkURL)
            (if nonEmpty (user esConfig) && nonEmpty (pass esConfig)
             then Some (user esConfig, pass esConfig) else None)
            (Some "application/x-ndjson") (buf w)
            (shouldSkipTlsVerify esConfig) (httpTimeoutSeconds esConfig) in
        (r <- Do E req ;;
         match r with
         | inl _ => panic            (* [resp] is nil *)
         | inr resp =>
             match decodeBody resp with
             | inl _ => log_Fatal "error jsoninfs: map[]"
             | inr (respbod, resp) =>
                 pretty_Println (VMap respbod) ;;;
                 pretty_Println (VInt (ContentLength resp)) ;;;
                 pretty_Println (VInt (StatusCode resp)) ;;;
                 match decodeBody resp with
                 | inl jsonErr =>
                     log_Fatal ("error jsoninfs: " +:+ errorString jsonErr)
                 | inr (result, resp) =>
                     pretty_Println (VMap result) ;;;
                     hr <- handleResponse verboseFlag resp ;;
                     match hr with
                     | Some err =>
                         log_Fatal ("error executing bulk updates: "
                                      +:+ errorString err)
                     | None => ret tt
                     end
                 end
             end
         end) w
    end.

(** [main], on the flags, the lines the scanner delivers and the error it
    ends with, if any. *)
Definition main (esConfig : elasticsearchConfig) (tagsFlag : string)
    (verboseFlag : bool) (stdin : list string) (scannerErr : option error)
  : M unit :=
  match parseTags (strings.Split tagsFlag ",") ∅ with
  | inl field =>
      os_Exit2 ("invalid key-value pair " +:+ field
                  +:+ " in -tags: missing '='")
  | inr tags =>
      let mode : outcome (option url * writer) :=
        if nonEmpty (host esConfig) then
          match url_Parse E (host esConfig) with
          | inl err =>
              Exit2 ("invalid Elasticsearch URL " +:+ host esConfig +:+ ": "
                       +:+ errorString err)
          | inr u => Done (Some u, if verboseFlag then ToBoth else ToBuf)
          end
        else Done (None, ToStdout) in
      match mode with
      | Done (esURL, encoder) =>
          (match esURL with
           | Some _ =>
               r <- createMapping verboseFlag esConfig ;;
               match r with
               | Some err =>
                   log_Fatal ("error creating/updating mapping: "
                                +:+ errorString err)
               | None => ret tt
               end
           | None => ret tt
           end) ;;;
          let timestamp := time_Now E in
          scanLines encoder tags timestamp esConfig (mkContext "" "" "") stdin ;;;
          match scannerErr with
          | Some err => log_Fatal (errorString err)
          | None =>
              match esURL with
              | None => ret tt
              | Some u => sendBulk verboseFlag esConfig u
              end
          end
      | Exit2 msg => os_Exit2 msg
      | Fatal msg => log_Fatal msg
      | Panic => panic
      end
  end.

End Program.

(* ===================================================================== *)
(** ** Vocabulary of the statements                                      *)
(* ===================================================================== *)

Section Vocabulary.

Context (E : Env).

(** The tokens of a column: the column trimmed and split at every blank. *)
Definition tokens (entry : string) : list string :=
  strings.Split (strings.TrimSpace entry) " ".

(** The numeric token and the label token of a column, as
    [parseExtraMetrics] reads them. *)
Definition numberOf (entry : string) : string :=
  strings.TrimSpace (default "" (tokens entry !! 0%nat)).

Definition labelOf (entry : string) : string :=
  strings.TrimSpace (default "" (tokens entry !! 1%nat)).

(** A column is usable when it passes the three [continue]s of the loop:
    it has two tokens, the first one is a number, and the label is none
    of the native ones. *)
Definition usable (entry : string) : bool :=
  (2 <=? length (tokens entry))%nat
  && bool_decide (is_Some (ParseFloat E (numberOf entry)))
  && negb (isNative (labelOf entry)).

(** A string, byte by byte. *)
Fixpoint mapBytes (f : ascii -> ascii) (s : string) : string :=
  match s with
  | EmptyString => EmptyString
  | String c cs => String (f c) (mapBytes f cs)
  end.

Definition slashToUnderscore (c : ascii) : ascii :=
  if Ascii.eqb c "/" then "_"%char else c.

(** [b.Measured&flag != 0] *)
Definition measured (B : parse.Benchmark) (flag : Z) : bool :=
  negb (Z.land (parse.Measured B) flag =? 0).

(** The index action [encodeIndexOp] builds for the version of the
    store. *)
Definition actionFor (cfg : elasticsearchConfig) (esVersion : semver.Version)
  : value :=
  jsonOfIndexAction
    (mkIndexAction
       (mkIndex (index cfg)
          (if semver.LT esVersion semver.v8_0_0 then "_doc" else ""))).

(** The world after [units] have gone to the encoder, one by one. *)
Definition emit (encoder : writer) (units : list value) (w : world) : world :=
  fold_left (fun w v => snd (write encoder v w)) units w.

(** From [w] to [w'] the run has made requests of these methods only. *)
Definition onlyAdds (methods : list string) (w w' : world) : Prop :=
  exists rs,
    requests w' = requests w ++ rs
    /\ Forall (fun r => Method r ∈ methods) rs.

(** The last two steps of [parseExtraMetrics]: an empty result is nil. *)
Definition nilIfEmpty (result : gmap string float64)
  : option (gmap string float64) :=
  if (0 <? size result)%nat then Some result else None.

(** The payload of the last line of [lines] that starts with [prefix],
    trimmed; the empty string when there is none. *)
Definition lastPayload (prefix : string) (lines : list string) : string :=
  match find (fun l => strings.HasPrefix l prefix) (rev lines) with
  | Some l => strings.TrimSpace (strings.sliceFrom (String.length prefix) l)
  | None => ""
  end.

(** A line [main] hands to [encodeIndexOp]: no context line, and
    [parse.ParseLine] accepts it. *)
Definition benchmarkLine (line : string) : option parse.Benchmark :=
  if strings.HasPrefix line "pkg:" || strings.HasPrefix line "goos:"
     || strings.HasPrefix line "goarch:"
  then None else ParseLine E line.

Definition contextLine (line : string) : bool :=
  strings.HasPrefix line "pkg:" || strings.HasPrefix line "goos:"
  || strings.HasPrefix line "goarch:".

(** The variables of [main] after one more line: the [switch] of the
    scanner loop without its [default]. *)
Definition nextContext (ctx : context) (line : string) : context :=
  if strings.HasPrefix line "pkg:" then
    mkContext
      (strings.TrimSpace (strings.sliceFrom (String.length "pkg:") line))
      (goos ctx) (goarch ctx)
  else if strings.HasPrefix line "goos:" then
    mkContext (pkg ctx)
      (strings.TrimSpace (strings.sliceFrom (String.length "goos:") line))
      (goarch ctx)
  else if strings.HasPrefix line "goarch:" then
    mkContext (pkg ctx) (goos ctx)
      (strings.TrimSpace (strings.sliceFrom (String.length "goarch:") line))
  else ctx.

(** [var pkg, goos, goarch string] *)
Definition context0 : context := mkContext "" "" "".

(** The seven fields [encodeIndexOp] starts the document with. *)
Definition baseFields : list string :=
  [fieldExecutedAt; fieldName; fieldIterations; fieldPkg; fieldGoVersion;
   fieldGOOS; fieldGOARCH].

End Vocabulary.

(* ===================================================================== *)
(** ** A reference environment                                           *)
(* ===================================================================== *)

(** One environment to run the program in: numbers are unsigned decimal
    integers, fields are separated by blanks and tabs, and the store
    answers with status 200 and the version it is told to report.  It stands in for the libraries and the network where a
    statement is instantiated; no theorem depends on it. *)
Module Ref.

Definition digit (c : ascii) : option Z :=
  let n := Z.of_nat (nat_of_ascii c) in
  if (48 <=? n) && (n <=? 57) then Some (n - 48) else None.

Fixpoint digitsGo (acc : Z) (s : string) : option Z :=
  match s with
  | EmptyString => Some acc
  | String c cs =>
      match digit c with
      | Some d => digitsGo (10 * acc + d) cs
      | None => None
      end
  end.

Definition atoi (s : string) : option Z :=
  match s with
  | EmptyString => None
  | _ => digitsGo 0 s
  end.

Definition atof (s : string) : option float64 := float64_of_Z <$> atoi s.

(** The non-empty pieces between blanks and tabs. *)
Definition fields (s : string) : list string :=
  filter (fun f => f <> "")
    (concat (map (fun p => strings.Split p " ") (strings.Split s tab))).

Definition parseMeasurement (b : parse.Benchmark) (quant unit_ : string)
  : parse.Benchmark :=
  let '(parse.mkBenchmark name n ns bytes allocs mbs measured ord) := b in
  if String.eqb unit_ "ns/op" then
    match atof quant with
    | Some f => parse.mkBenchmark name n f bytes allocs mbs
                  (Z.lor measured parse.NsPerOp) ord
    | None => b
    end
  else if String.eqb unit_ "MB/s" then
    match atof quant with
    | Some f => parse.mkBenchmark name n ns bytes allocs f
                  (Z.lor measured parse.MBPerS) ord
    | None => b
    end
  else if String.eqb unit_ "B/op" then
    match atoi quant with
    | Some i => parse.mkBenchmark name n ns i allocs mbs
                  (Z.lor measured parse.AllocedBytesPerOp) ord
    | None => b
    end
  else if String.eqb unit_ "allocs/op" then
    match atoi quant with
    | Some i => parse.mkBenchmark name n ns bytes i mbs
                  (Z.lor measured parse.AllocsPerOp) ord
    | None => b
    end
  else b.

Fixpoint measurements (b : parse.Benchmark) (fs : list string)
  : parse.Benchmark :=
  match fs with
  | quant :: unit_ :: rest => measurements (parseMeasurement b quant unit_) rest
  | _ => b
  end.

Definition parseLine (line : string) : option parse.Benchmark :=
  match fields line with
  | name :: iterations :: rest =>
      if strings.HasPrefix name "Benchmark" then
        n ← atoi iterations;
        Some (measurements
                (parse.mkBenchmark name n (S754_zero false) 0 0 (S754_zero false) 0 0)
                rest)
      else None
  | _ => None
  end.

(** [major.minor.patch], all three decimal. *)
Definition newVersion (s : string) : error + semver.Version :=
  match strings.Split s "." with
  | [a; b; c] =>
      match atoi a, atoi b, atoi c with
      | Some major, Some minor, Some patch =>
          inr (semver.mkVersion major minor patch [] [])
      | _, _, _ => inl (Err "Invalid character(s) found in version")
      end
  | _ => inl (Err "No Major.Minor.Patch elements found")
  end.

(** The store answers the request number [i] of the run (from 0) with the
    version [report i]; where there is none, it cannot be reached. *)
Definition env (report : nat -> option string) : Env :=
  mkEnv atof atoi parseLine newVersion
    (fun body => inr body)
    (fun body => inr (∅, ""))
    (fun raw => inr (mkUrl "" raw))
    (fun u => origin u +:+ Path u)
    (fun _ _ => None)
    (fun i req =>
       match report i with
       | Some n => inr (mkResponse 200 "200 OK" 0 n)
       | None => inl (Err "unsupported protocol scheme")
       end)
    (Some "bench-host") "linux" "go1.23.0" (Some "6.1.0")
    (fun _ => None) (fun _ => None) 1700000000.

Definition always (number : string) : nat -> option string :=
  fun _ => Some number.

Definition never : nat -> option string := fun _ => None.

Definition cfg (host : string) : elasticsearchConfig :=
  mkConfig host "" "" "gobench" false 600.

(** A benchmark line with its three fixed columns and one extra one. *)
Definition line1 : string :=
  "BenchmarkFoo-8" +:+ tab +:+ "1000" +:+ tab +:+ "1234 ns/op"
    +:+ tab +:+ "4386 txs/sec".

(** A benchmark line whose extra column has two blanks in the middle. *)
Definition line2 : string :=
  "BenchmarkFoo-8" +:+ tab +:+ "1000" +:+ tab +:+ "1234 ns/op"
    +:+ tab +:+ "5  x".

(** A benchmark line without any measurement. *)
Definition line0 : string := "BenchmarkBar 100".

(** Sample inputs. *)

(** What [Ref.parseLine] makes of [line1] and of [line0]. *)
Definition bench1 : parse.Benchmark :=
  parse.mkBenchmark "BenchmarkFoo-8" 1000 (float64_of_Z 1234) 0 0
    (S754_zero false) 1 0.

Definition bench0 : parse.Benchmark :=
  parse.mkBenchmark "BenchmarkBar" 100 (S754_zero false) 0 0
    (S754_zero false) 0 0.

(** A store in direct-send mode. *)
Definition direct : elasticsearchConfig := cfg "http://es:9200".

(** The one request of a version check without a host. *)
Definition getNowhere : Request := mkRequest "GET" "" None None [] false 600.

End Ref.

(* ===================================================================== *)
(** ** More vocabulary                                                   *)
(* ===================================================================== *)

Section MoreVocabulary.

Context (E : Env).

(** The key [parseExtraMetrics] files a column under. *)
Definition keyOf (entry : string) : string :=
  strings.ReplaceAll (labelOf entry) "/" "_".

(** A field of the [-tag] flag that [main] refuses: not blank, and without
    ['=']. *)
Definition badTag (field : string) : bool :=
  negb (String.eqb (strings.TrimSpace field) "")
  && bool_decide (strings.IndexRune (strings.TrimSpace field) "="%char = None).

(** The request of [getEsVersion]. *)
Definition versionRequest (cfg : elasticsearchConfig) : Request :=
  mkRequest "GET" (host cfg)
    (if nonEmpty (user cfg) || nonEmpty (pass cfg)
     then Some (user cfg, pass cfg) else None)
    None []
    (shouldSkipTlsVerify cfg) (httpTimeoutSeconds cfg).

(** The request of [createMapping], for the version the store reports. *)
Definition mappingRequest (cfg : elasticsearchConfig) (v : semver.Version)
  : Request :=
  mkRequest "PUT" (host cfg +:+ "/" +:+ index cfg)
    (if nonEmpty (user cfg) && nonEmpty (pass cfg)
     then Some (user cfg, pass cfg) else None)
    (Some "application/json") [mappingBody v]
    (shouldSkipTlsVerify cfg) (httpTimeoutSeconds cfg).

(** The bulk request of [main], with the buffer as its body. *)
Definition bulkRequest (cfg : elasticsearchConfig) (esURL : url)
    (body : list value) : Request :=
  mkRequest "POST" (url_String E (mkUrl (Path esURL +:+ "/_bulk") (origin esURL)))
    (if nonEmpty (user cfg) && nonEmpty (pass cfg)
     then Some (user cfg, pass cfg) else None)
    (Some "application/x-ndjson") body
    (shouldSkipTlsVerify cfg) (httpTimeoutSeconds cfg).

(** The lines [main] does something with. *)
Definition relevant (line : string) : bool :=
  contextLine line || bool_decide (is_Some (ParseLine E line)).

(** How many of the lines go to [encodeIndexOp]. *)
Definition records (lines : list string) : nat :=
  length (List.filter (fun l => bool_decide (is_Some (benchmarkLine E l))) lines).

(** The floats of a record that reach its document are finite. *)
Definition finiteRecord (b : benchmark) : Prop :=
  (measured (Benchmark b) parse.NsPerOp = true ->
     isFinite (parse.NsPerOp_ (Benchmark b)) = true)
  /\ (measured (Benchmark b) parse.MBPerS = true ->
     isFinite (parse.MBPerS_ (Benchmark b)) = true)
  /\ (forall m, extra b = Some m ->
     map_Forall (fun _ f => isFinite f = true) m).

(** The versions [encodeIndexOp] gives a [_type] to, by their numbers:
    those before 8, and the pre-releases of 8.0.0. *)
Definition before8 (v : semver.Version) : bool :=
  (semver.Major v <? 8)
  || ((semver.Major v =? 8) && (semver.Minor v =? 0) && (semver.Patch v =? 0)
      && negb (bool_decide (semver.Pre v = []))).

(** The map [gitFields] of [addVCS]. *)
Definition gitFieldsOf (commit subject : string) (unixSec : option Z)
  : gmap string value :=
  let gitFields : gmap string value :=
    <[fieldGitCommit := VString commit]>
      {[ fieldGitSubject := VString subject ]} in
  match unixSec with
  | Some n =>
      <[fieldGitCommitter := VMap {[ fieldGitCommitterDate := VTime n ]}]>
        gitFields
  | None => gitFields
  end.

(** The ways [getEsVersion] has of returning an error, when its request
    is the request number [n] of the run (from 0): [http.NewRequest]
    refuses the request, the client cannot make it, the status of the
    response is not 200, its body does not decode, or the number in it is
    no version. *)
Inductive versionUnknown (cfg : elasticsearchConfig) (n : nat)
  : error -> Prop :=
  | RequestRefused err :
      http_NewRequest E "GET" (host cfg) = Some err ->
      versionUnknown cfg n err
  | StoreUnreachable err :
      http_NewRequest E "GET" (host cfg) = None ->
      http_Do E n (versionRequest cfg) = inl err ->
      versionUnknown cfg n err
  | StatusNot200 resp :
      http_NewRequest E "GET" (host cfg) = None ->
      http_Do E n (versionRequest cfg) = inr resp ->
      StatusCode resp <> 200 ->
      versionUnknown cfg n
        (Err ("received unexpected " +:+ pretty (StatusCode resp)
                +:+ " status code"))
  | BodyUndecodable resp err :
      http_NewRequest E "GET" (host cfg) = None ->
      http_Do E n (versionRequest cfg) = inr resp ->
      StatusCode resp = 200 ->
      decodeEsVersion E (RespBody resp) = inl err ->
      versionUnknown cfg n err
  | NumberUnparsable resp number err :
      http_NewRequest E "GET" (host cfg) = None ->
      http_Do E n (versionRequest cfg) = inr resp ->
      StatusCode resp = 200 ->
      decodeEsVersion E (RespBody resp) = inr number ->
      semver_New E number = inl err ->
      versionUnknown cfg n err.

(** The committer date [addVCS] puts into the documents of a package, if
    it puts one. *)
Definition committerDate (pkgpath : string) : option Z :=
  match addVCS E pkgpath ∅ !! fieldGit with
  | Some (VMap gitFields) =>
      match gitFields !! fieldGitCommitter with
      | Some (VMap committer) =>
          match committer !! fieldGitCommitterDate with
          | Some (VTime unixSec) => Some unixSec
          | _ => None
          end
      | _ => None
      end
  | _ => None
  end.

(** The times of the documents of a package have a year that
    [encoding/json] writes: the time of the run, and the committer date
    when there is one. *)
Definition datedRecord (pkgpath : string) (timestamp : Z) : Prop :=
  marshalsYear timestamp = true
  /\ forall unixSec,
       committerDate pkgpath = Some unixSec -> marshalsYear unixSec = true.

End MoreVocabulary.

(** A second reference environment: the store answers as [respond] says,
    bodies decode as [decode] says, and the package is in a git work tree
    whose last commit [git log] prints as [gitlog]. *)
Module Store.

Definition env (respond : nat -> Request -> error + Response)
    (decode : string -> error + (gmap string value * string))
    (gitlog : option string) : Env :=
  mkEnv Ref.atof Ref.atoi Ref.parseLine Ref.newVersion
    (fun body => inr body)
    decode
    (fun raw => inr (mkUrl "" raw))
    (fun u => origin u +:+ Path u)
    (fun _ _ => None)
    respond
    (Some "bench-host") "linux" "go1.23.0" (Some "6.1.0")
    (fun _ => match gitlog with Some _ => Some "git" | None => None end)
    (fun _ => gitlog)
    1700000000.

(** The object of an error response of the store. *)
Definition errorObject (type reason : string) : gmap string value :=
  {[ "error" := VMap (<["type" := VString type]>
                        {[ "reason" := VString reason ]}) ]}.

(** A store of version 7.11.1 that answers every PUT with the status 400
    and an error of the given type. *)
Definition refusing (type : string) : Env :=
  env (fun _ req =>
         if String.eqb (Method req) "GET"
         then inr (mkResponse 200 "200 OK" 0 "7.11.1")
         else inr (mkResponse 400 "400 Bad Request" 0 type))
      (fun body => inr (errorObject body "index [gobench] already exists", ""))
      None.

(** A store that answers every request with the status 401. *)
Definition unauthorized : Env :=
  env (fun _ _ => inr (mkResponse 401 "401 Unauthorized" 0 "{}"))
      (fun _ => inr (∅, ""))
      None.

(** A store of version 7.11.1 that answers 200 with an empty object. *)
Definition plain (gitlog : option string) : Env :=
  env (fun _ _ => inr (mkResponse 200 "200 OK" 0 "7.11.1"))
      (fun _ => inr (∅, ""))
      gitlog.

(** A store that reports the version [v], whatever number it sends. *)
Definition reporting (v : semver.Version) : Env :=
  mkEnv Ref.atof Ref.atoi Ref.parseLine (fun _ => inr v)
    (fun body => inr body)
    (fun _ => inr (∅, ""))
    (fun raw => inr (mkUrl "" raw))
    (fun u => origin u +:+ Path u)
    (fun _ _ => None)
    (fun _ _ => inr (mkResponse 200 "200 OK" 0 "8.0.0-rc1"))
    (Some "bench-host") "linux" "go1.23.0" (Some "6.1.0")
    (fun _ => None) (fun _ => None) 1700000000.

(** The first release candidate of 8.0.0. *)
Definition rc1 : semver.Version :=
  semver.mkVersion 8 0 0 [semver.mkPR "rc1" 0 false] [].

(** A store whose error responses carry an object without a type. *)
Definition vague : Env :=
  env (fun _ _ => inr (mkResponse 500 "500 Internal Server Error" 0 "{}"))
      (fun _ => inr ({[ "error" := VMap {[ "reason" := VString "boom" ]} ]}, ""))
      None.

(** A store of version 7.11.1 that answers every request with the status
    200 and a body of one object; what is left of a body once its object
    is read does not decode. *)
Definition serving : Env :=
  env (fun _ req =>
         if String.eqb (Method req) "GET"
         then inr (mkResponse 200 "200 OK" 6 "7.11.1")
         else inr (mkResponse 200 "200 OK" 2 "{}"))
      (fun body =>
         if String.eqb body "" then inl (Err "EOF") else inr (∅, ""))
      None.

(** A store of version 7.11.1 that answers the first [n] requests of the
    run as [serving] does, and is gone after them. *)
Definition leaving (n : nat) : Env :=
  env (fun i req =>
         if (i <? n)%nat then
           if String.eqb (Method req) "GET"
           then inr (mkResponse 200 "200 OK" 6 "7.11.1")
           else inr (mkResponse 200 "200 OK" 2 "{}")
         else inl (Err "dial tcp 10.0.0.7:9200: connect: connection refused"))
      (fun body =>
         if String.eqb body "" then inl (Err "EOF") else inr (∅, ""))
      None.

(** A record whose extra metric is not a number. *)
Definition undefined : benchmark :=
  mkbenchmark Ref.bench1 (Some {[ "ratio" := S754_nan ]}).

End Store.

(* ===================================================================== *)
(** ** Tactics                                                           *)
(* ===================================================================== *)

Ltac fields :=
  unfold fieldExecutedAt, fieldName, fieldIterations, fieldPkg, fieldHostname,
    fieldGoVersion, fieldOSVersion, fieldGOOS, fieldGOARCH, fieldNSPerOp,
    fieldMBPerS, fieldAllocedBytesPerOp, fieldAllocsPerOp, fieldGit,
    fieldExtraMetrics in *.

Ltac lookups :=
  repeat first
    [ rewrite lookup_insert_ne by discriminate
    | rewrite lookup_insert_eq ].

(** The document at one of the keys [encodeIndexOp] writes itself, given
    the lemmas on what the tags, the host and the version control add. *)
Ltac own_key tagsLemma ownLemma vcsLemma hostLemma :=
  intros Ht; rewrite ownLemma by (fields; done || discriminate);
  unfold docOf, measured;
  rewrite tagsLemma, lookup_empty;
  rewrite vcsLemma, hostLemma by (fields; discriminate);
  fields;
  repeat match goal with
    | |- context [match extra ?b with _ => _ end] => destruct (extra b)
    | |- context [if ?c then _ else _] => destruct c
    end;
  lookups; reflexivity.

(** A map all of whose values are as required, insertion by insertion. *)
Ltac map_values :=
  repeat match goal with
    | |- map_Forall _ (<[_ := _]> _) => apply map_Forall_insert_2
    | |- map_Forall _ {[ _ := _ ]} => apply map_Forall_singleton
    | |- map_Forall _ ∅ => apply map_Forall_empty
    end.

(* ===================================================================== *)
(** ** The extra-metrics extractor                                       *)
(* ===================================================================== *)

Section ExtraMetrics.

Context (E : Env).

(** One step of the loop, by the case the column falls in. *)
Lemma extraEntry_usable result entry :
  usable E entry = true ->
  exists v, ParseFloat E (numberOf entry) = Some v /\
    extraEntry E result entry
    = <[strings.ReplaceAll (labelOf entry) "/" "_" := v]> result.
Proof.
  unfold usable, extraEntry, numberOf, labelOf, tokens.
  intros H. apply andb_prop in H as [H Hn]. apply andb_prop in H as [Hl Hp].
  apply bool_decide_eq_true_1 in Hp as [v Hv].
  exists v. split; [exact Hv|].
  apply Nat.leb_le in Hl.
  destruct (Nat.ltb_spec (length (strings.Split (strings.TrimSpace entry) " ")) 2);
    [lia|].
  rewrite Hv. apply negb_true_iff in Hn. now rewrite Hn.
Qed.

Lemma extraEntry_unusable result entry :
  usable E entry = false -> extraEntry E result entry = result.
Proof.
  unfold usable, extraEntry, numberOf, labelOf, tokens.
  destruct (Nat.ltb_spec (length (strings.Split (strings.TrimSpace entry) " ")) 2)
    as [Hlt|Hge]; [reflexivity|].
  intros H.
  destruct (ParseFloat E _) as [v|] eqn:Hv; [|reflexivity].
  destruct (isNative _) eqn:Hn; [reflexivity|].
  exfalso. apply Nat.leb_le in Hge. rewrite Hge in H.
  rewrite bool_decide_eq_true_2 in H by eauto. discriminate.
Qed.

Lemma extraEntry_native result entry :
  isNative (labelOf entry) = true -> extraEntry E result entry = result.
Proof.
  intros Hn. apply extraEntry_unusable. unfold usable.
  rewrite Hn. now rewrite andb_false_r.
Qed.

Lemma fold_unusable entries result :
  Forall (fun e => usable E e = false) entries ->
  fold_left (extraEntry E) entries result = result.
Proof.
  intros H. revert result.
  induction H as [|e es He _ IH]; intros result; [reflexivity|].
  cbn. rewrite extraEntry_unusable by exact He. apply IH.
Qed.

Lemma unusable_forallb entries :
  forallb (fun e => negb (usable E e)) entries = true ->
  Forall (fun e => usable E e = false) entries.
Proof.
  intros H. apply Forall_forall. intros e He.
  rewrite forallb_forall in H. apply negb_true_iff, H.
  now apply list_elem_of_In.
Qed.

Lemma fold_skip_native entries result :
  fold_left (extraEntry E) entries result
  = fold_left (extraEntry E)
      (List.filter (fun e => negb (isNative (labelOf e))) entries) result.
Proof.
  revert result. induction entries as [|e es IH]; intros result; [reflexivity|].
  cbn. destruct (isNative (labelOf e)) eqn:Hn; cbn.
  - rewrite extraEntry_native by exact Hn. apply IH.
  - apply IH.
Qed.

Lemma isNative_spec key :
  isNative key = true <->
  key = "ns/op" \/ key = "MB/s" \/ key = "B/op" \/ key = "allocs/op".
Proof.
  unfold isNative. rewrite !orb_true_iff, !String.eqb_eq. tauto.
Qed.

(** C5: a line of fewer than three tab-separated columns, and a line
    whose trailing columns are all unusable, give nil; and no line at all
    gives an empty map. *)
Theorem parseExtraMetrics_nil_not_empty (line : string) :
  ((length (strings.Split line tab) < 3)%nat ->
     parseExtraMetrics E line = None)
  /\ (Forall (fun e => usable E e = false) (drop 3 (strings.Split line tab)) ->
     parseExtraMetrics E line = None)
  /\ parseExtraMetrics E line <> Some ∅.
Proof.
  unfold parseExtraMetrics. split; [|split].
  - intros H. apply Nat.ltb_lt in H. now rewrite H.
  - intros H. destruct (_ <? 3)%nat; [reflexivity|].
    rewrite fold_unusable by exact H. reflexivity.
  - destruct (_ <? 3)%nat; [discriminate|].
    destruct (Nat.ltb_spec 0 (size (fold_left (extraEntry E)
                (drop 3 (strings.Split line tab)) ∅))) as [Hpos|Hz];
      [|discriminate].
    intros [= Heq]. rewrite Heq, map_size_empty in Hpos. lia.
Qed.

(** C6: a column whose label token is one of the four native labels
    leaves the mapping as it is, wherever it stands; the result of a line
    is the result of its trailing columns without those columns. *)
Theorem native_labels_excluded :
  (forall result entry,
      labelOf entry ∈ ["ns/op"; "MB/s"; "B/op"; "allocs/op"] ->
      extraEntry E result entry = result)
  /\ (forall line,
      parseExtraMetrics E line
      = if (length (strings.Split line tab) <? 3)%nat then None
        else nilIfEmpty
               (fold_left (extraEntry E)
                  (List.filter
                     (fun e => negb (bool_decide
                        (labelOf e ∈ ["ns/op"; "MB/s"; "B/op"; "allocs/op"])))
                     (drop 3 (strings.Split line tab))) ∅)).
Proof.
  assert (Hdec : forall e,
    bool_decide (labelOf e ∈ ["ns/op"; "MB/s"; "B/op"; "allocs/op"])
    = isNative (labelOf e)).
  { intros e. apply eq_true_iff_eq. rewrite bool_decide_eq_true, isNative_spec.
    rewrite !elem_of_cons, elem_of_nil. tauto. }
  split.
  - intros result entry H. apply extraEntry_native.
    rewrite <- Hdec. now apply bool_decide_eq_true_2.
  - intros line. unfold parseExtraMetrics, nilIfEmpty.
    destruct (_ <? 3)%nat; [reflexivity|].
    rewrite fold_skip_native.
    rewrite (List.filter_ext
               (fun e => negb (bool_decide
                  (labelOf e ∈ ["ns/op"; "MB/s"; "B/op"; "allocs/op"])))
               (fun e => negb (isNative (labelOf e))));
      [reflexivity|].
    intros e. now rewrite Hdec.
Qed.

Lemma extraEntry_unfold result entry :
  extraEntry E result entry
  = if (length (tokens entry) <? 2)%nat then result
    else match ParseFloat E (numberOf entry) with
         | None => result
         | Some v =>
             if isNative (labelOf entry) then result
             else <[strings.ReplaceAll (labelOf entry) "/" "_" := v]> result
         end.
Proof. reflexivity. Qed.

Lemma HasPrefix_empty s : strings.HasPrefix s "" = true.
Proof. now destruct s. Qed.

(** Replacing a one-byte string by a one-byte string is a map over the
    bytes. *)
Lemma ReplaceAll_slash key :
  strings.ReplaceAll key "/" "_" = mapBytes slashToUnderscore key.
Proof.
  unfold strings.ReplaceAll.
  induction key as [|c cs IH]; [reflexivity|].
  cbn [strings.replaceGo strings.HasPrefix mapBytes].
  unfold slashToUnderscore at 1. rewrite HasPrefix_empty, andb_true_r.
  destruct (Ascii.eqb c "/"); cbn; now rewrite IH.
Qed.

(** C7: a usable column enters the mapping under its label with every
    ['/'] turned into ['_'], all other bytes as they are; the column
    [4386 txs/sec] enters as [txs_sec], with the value 4386. *)
Theorem slash_to_underscore :
  (forall result entry,
      usable E entry = true ->
      exists v,
        ParseFloat E (numberOf entry) = Some v /\
        extraEntry E result entry
        = <[mapBytes slashToUnderscore (labelOf entry) := v]> result)
  /\ (ParseFloat E "4386" = Some (float64_of_Z 4386) ->
      forall result,
        extraEntry E result "4386 txs/sec"
        = <["txs_sec" := float64_of_Z 4386]> result).
Proof.
  split.
  - intros result entry H.
    destruct (extraEntry_usable result entry H) as (v & Hv & Heq).
    exists v. split; [exact Hv|]. now rewrite <- ReplaceAll_slash.
  - intros Hp result. rewrite extraEntry_unfold.
    replace (numberOf "4386 txs/sec") with "4386" by (vm_compute; reflexivity).
    replace (labelOf "4386 txs/sec") with "txs/sec" by (vm_compute; reflexivity).
    rewrite Hp. reflexivity.
Qed.

(** Splitting at blanks: up to the first blank. *)
Lemma splitGo_blank cur num rest :
  strings.IndexRune num " "%char = None ->
  strings.splitGo " " O cur (num +:+ " " +:+ rest)
  = string_of_list_ascii (rev cur ++ list_ascii_of_string num)
      :: strings.splitGo " " O [] rest.
Proof.
  revert cur. induction num as [|c cs IH]; intros cur Hnum.
  - change ("" +:+ " " +:+ rest) with (String " " rest).
    cbn [strings.splitGo strings.HasPrefix list_ascii_of_string].
    rewrite HasPrefix_empty, app_nil_r. reflexivity.
  - cbn in Hnum. destruct (Ascii.eqb c " ") eqn:Hc; [discriminate|].
    destruct (strings.IndexRune cs " ") eqn:Hcs; [discriminate|].
    change (String c cs +:+ " " +:+ rest) with (String c (cs +:+ " " +:+ rest)).
    cbn [strings.splitGo strings.HasPrefix].
    rewrite Hc. cbn [andb]. rewrite IH by reflexivity.
    cbn [rev list_ascii_of_string]. now rewrite <- app_assoc.
Qed.

Lemma tokens_two_blanks entry num rest :
  strings.TrimSpace entry = num +:+ "  " +:+ rest ->
  strings.IndexRune num " "%char = None ->
  tokens entry = num :: "" :: strings.Split rest " ".
Proof.
  intros Ht Hnum. unfold tokens, strings.Split. rewrite Ht.
  change (num +:+ "  " +:+ rest) with (num +:+ " " +:+ (" " +:+ rest)).
  rewrite splitGo_blank by exact Hnum.
  cbn [rev app]. rewrite string_of_list_ascii_of_string.
  f_equal.
  apply (splitGo_blank [] "" rest). reflexivity.
Qed.

(** C9: when two blanks follow the numeric token, the second token is the
    empty string, and the value is recorded under the empty key; so it is
    for the column [5  x]. *)
Theorem double_blank_empty_key :
  (forall result entry num rest v,
      strings.TrimSpace entry = num +:+ "  " +:+ rest ->
      strings.IndexRune num " "%char = None ->
      ParseFloat E (strings.TrimSpace num) = Some v ->
      tokens entry !! 1%nat = Some ""
      /\ extraEntry E result entry = <["" := v]> result)
  /\ (forall result v,
      ParseFloat E "5" = Some v ->
      tokens "5  x" = ["5"; ""; "x"]
      /\ extraEntry E result "5  x" = <["" := v]> result).
Proof.
  assert (Hgen : forall result entry num rest v,
      strings.TrimSpace entry = num +:+ "  " +:+ rest ->
      strings.IndexRune num " "%char = None ->
      ParseFloat E (strings.TrimSpace num) = Some v ->
      tokens entry !! 1%nat = Some ""
      /\ extraEntry E result entry = <["" := v]> result).
  { intros result entry num rest v Ht Hnum Hv.
    pose proof (tokens_two_blanks entry num rest Ht Hnum) as Htok.
    split; [now rewrite Htok|].
    rewrite extraEntry_unfold. unfold numberOf, labelOf. rewrite Htok.
    change (default "" ((num :: "" :: strings.Split rest " ") !! 0%nat))
      with num.
    change (default "" ((num :: "" :: strings.Split rest " ") !! 1%nat))
      with "".
    rewrite Hv. reflexivity. }
  split; [exact Hgen|].
  intros result v Hv. split; [vm_compute; reflexivity|].
  apply (Hgen result "5  x" "5" "x" v); [vm_compute; reflexivity .. | exact Hv].
Qed.

End ExtraMetrics.

(* ===================================================================== *)
(** ** The document                                                      *)
(* ===================================================================== *)

Section Document.

Context (E : Env).

(** The tags come last: a tag decides its key, every other key stays. *)
Lemma addTags_lookup tags (doc : gmap string value) key :
  addTags tags doc !! key
  = match tags !! key with
    | Some v => Some (VString v)
    | None => doc !! key
    end.
Proof.
  unfold addTags.
  apply (map_fold_weak_ind
           (fun (r : gmap string value) (m : gmap string string) =>
              r !! key = match m !! key with
                         | Some v => Some (VString v)
                         | None => doc !! key
                         end)).
  - now rewrite lookup_empty.
  - intros i x m r Hi IH.
    destruct (decide (i = key)) as [->|Hne].
    + now rewrite !lookup_insert_eq.
    + now rewrite !lookup_insert_ne by exact Hne.
Qed.

Lemma addHost_lookup (doc : gmap string value) key :
  key <> fieldHostname -> key <> fieldOSVersion ->
  addHost E doc !! key = doc !! key.
Proof.
  intros H1 H2. unfold addHost.
  destruct (String.eqb (runtime_GOOS E) "linux"), (exec_uname_r E),
    (os_Hostname E);
    rewrite ?lookup_insert_ne by congruence; reflexivity.
Qed.

Lemma addVCS_lookup pkgpath (doc : gmap string value) key :
  key <> fieldGit -> addVCS E pkgpath doc !! key = doc !! key.
Proof.
  intros H. unfold addVCS.
  destruct (vcs_FromDir E pkgpath) as [cmd|]; [|reflexivity].
  destruct (String.eqb cmd "git"); [|reflexivity].
  destruct (exec_git_log E pkgpath) as [output|]; [|reflexivity].
  destruct (strings.SplitN _ " " 3) as [|f0 [|f1 [|f2 [|f3 l]]]];
    try reflexivity.
  now rewrite lookup_insert_ne by congruence.
Qed.

(** A key of the document that is neither a tag nor one of the host and
    version-control fields is as [encodeIndexOp] first writes it. *)
Lemma docOf_lookup b pkg goos goarch tags timestamp key :
  tags !! key = None ->
  key <> fieldHostname -> key <> fieldOSVersion -> key <> fieldGit ->
  docOf E b pkg goos goarch tags timestamp !! key
  = docOf E b pkg goos goarch ∅ timestamp !! key.
Proof.
  intros Ht H1 H2 H3. unfold docOf.
  rewrite !addTags_lookup, Ht, lookup_empty. reflexivity.
Qed.

Lemma docOf_tag b pkg goos goarch tags timestamp key v :
  tags !! key = Some v ->
  docOf E b pkg goos goarch tags timestamp !! key = Some (VString v).
Proof. intros Ht. unfold docOf. now rewrite addTags_lookup, Ht. Qed.

(** C3, as the program has it: one of the four standard measurement
    fields that no tag is named like is in the document exactly when its
    flag is set in [Measured], with the measured value; a tag decides the
    key it is named like. *)
Theorem measured_fields_follow_flags b pkg goos goarch tags timestamp :
  let B := Benchmark b in
  let doc := docOf E b pkg goos goarch tags timestamp in
  (tags !! fieldNSPerOp = None ->
     doc !! fieldNSPerOp
     = if measured B parse.NsPerOp
       then Some (VFloat (parse.NsPerOp_ B)) else None)
  /\ (tags !! fieldMBPerS = None ->
     doc !! fieldMBPerS
     = if measured B parse.MBPerS
       then Some (VFloat (parse.MBPerS_ B)) else None)
  /\ (tags !! fieldAllocedBytesPerOp = None ->
     doc !! fieldAllocedBytesPerOp
     = if measured B parse.AllocedBytesPerOp
       then Some (VInt (parse.AllocedBytesPerOp_ B)) else None)
  /\ (tags !! fieldAllocsPerOp = None ->
     doc !! fieldAllocsPerOp
     = if measured B parse.AllocsPerOp
       then Some (VInt (parse.AllocsPerOp_ B)) else None)
  /\ (forall key v, tags !! key = Some v -> doc !! key = Some (VString v)).
Proof.
  cbv zeta.
  repeat split;
    try own_key addTags_lookup docOf_lookup addVCS_lookup addHost_lookup.
  intros key v Ht. now apply docOf_tag.
Qed.

Lemma docOf_base b pkg goos goarch tags timestamp :
  let doc := docOf E b pkg goos goarch tags timestamp in
  (tags !! fieldPkg = None -> doc !! fieldPkg = Some (VString pkg))
  /\ (tags !! fieldGOOS = None -> doc !! fieldGOOS = Some (VString goos))
  /\ (tags !! fieldGOARCH = None -> doc !! fieldGOARCH = Some (VString goarch))
  /\ (tags !! fieldExecutedAt = None ->
      doc !! fieldExecutedAt = Some (VTime timestamp))
  /\ (tags !! fieldName = None ->
      doc !! fieldName = Some (VString (parse.Name (Benchmark b))))
  /\ (tags !! fieldIterations = None ->
      doc !! fieldIterations = Some (VInt (parse.N (Benchmark b))))
  /\ (tags !! fieldGoVersion = None ->
      doc !! fieldGoVersion = Some (VString (runtime_Version E))).
Proof.
  cbv zeta.
  repeat split;
    own_key addTags_lookup docOf_lookup addVCS_lookup addHost_lookup.
Qed.

(** Whatever the tags are, the seven base fields are there. *)
Lemma docOf_base_present b pkg goos goarch tags timestamp key :
  key ∈ baseFields ->
  is_Some (docOf E b pkg goos goarch tags timestamp !! key).
Proof.
  intros Hk.
  destruct (tags !! key) as [v|] eqn:Ht.
  { rewrite (docOf_tag b pkg goos goarch tags timestamp key v Ht). eauto. }
  destruct (docOf_base b pkg goos goarch tags timestamp)
    as (H1 & H2 & H3 & H4 & H5 & H6 & H7).
  unfold baseFields in Hk. rewrite !elem_of_cons, elem_of_nil in Hk.
  destruct Hk as [->|[->|[->|[->|[->|[->|[->|[]]]]]]]];
    [rewrite H4|rewrite H5|rewrite H6|rewrite H1|rewrite H7|rewrite H2|rewrite H3];
    eauto.
Qed.

End Document.

(* ===================================================================== *)
(** ** The version check and the encoder                                 *)
(* ===================================================================== *)

Section Encoding.

Context (E : Env).

Lemma written_write encoder v w :
  written encoder (snd (write encoder v w)) = written encoder w ++ [v].
Proof.
  destruct encoder; cbn; try reflexivity.
  now rewrite omap_app.
Qed.

Lemma emit_cons encoder v units w :
  emit encoder (v :: units) w = emit encoder units (snd (write encoder v w)).
Proof. reflexivity. Qed.

Lemma written_emit encoder units w :
  written encoder (emit encoder units w) = written encoder w ++ units.
Proof.
  revert w. induction units as [|v vs IH]; intros w.
  - cbn. now rewrite app_nil_r.
  - rewrite emit_cons, IH, written_write, <- app_assoc. reflexivity.
Qed.

Lemma requests_emit encoder units w :
  requests (emit encoder units w) = requests w.
Proof.
  revert w. induction units as [|v vs IH]; intros w; [reflexivity|].
  rewrite emit_cons, IH. now destruct encoder.
Qed.

(** [getEsVersion] returns: a version or an error.  It prints nothing
    and leaves the buffer alone; it makes at most one request, a GET. *)
Lemma getEsVersion_returns cfg w :
  exists r w1,
    getEsVersion E cfg w = (Done r, w1)
    /\ stdout w1 = stdout w /\ buf w1 = buf w /\ logged w1 = logged w
    /\ (requests w1 = requests w
        \/ exists req, requests w1 = requests w ++ [req] /\ Method req = "GET").
Proof.
  unfold getEsVersion.
  destruct (http_NewRequest E "GET" (host cfg)) as [err|].
  { exists (inl err), w. cbn. tauto. }
  unfold bind, Do.
  destruct (http_Do E _ _) as [err|resp]; cbn.
  { eexists _, _. split; [reflexivity|]. cbn. eauto 10. }
  destruct (negb (StatusCode resp =? 200)).
  { eexists _, _. split; [reflexivity|]. cbn. eauto 10. }
  destruct (decodeEsVersion E (RespBody resp)) as [err|number];
    eexists _, _; (split; [reflexivity|]); cbn; eauto 10.
Qed.

Lemma written_getEsVersion encoder cfg w r w1 :
  getEsVersion E cfg w = (r, w1) -> written encoder w1 = written encoder w.
Proof.
  intros H.
  destruct (getEsVersion_returns cfg w) as (r' & w1' & Hrun & Hs & Hb & _).
  rewrite Hrun in H. injection H as _ <-.
  destruct encoder; cbn; congruence.
Qed.

Lemma marshalError_action cfg v : marshalError (actionFor cfg v) = None.
Proof.
  unfold actionFor, jsonOfIndexAction, jsonOfIndex. cbn [IndexOf Index_ Type_of].
  destruct (semver.LT v semver.v8_0_0); vm_compute; reflexivity.
Qed.

(** [encodeIndexOp], run: nothing after a failed version check; the
    action alone when the document has no JSON form; otherwise the
    action, the document and the string of a line feed. *)
Lemma encodeIndexOp_run encoder b pkg goos goarch tags timestamp cfg w :
  encodeIndexOp E encoder b pkg goos goarch tags timestamp cfg w
  = match getEsVersion E cfg w with
    | (Done (inl err), w1) => (Fatal (errorString err), w1)
    | (Done (inr v), w1) =>
        let doc := VMap (docOf E b pkg goos goarch tags timestamp) in
        match marshalError doc with
        | None =>
            (Done tt, emit encoder [actionFor cfg v; doc; VString newline] w1)
        | Some err =>
            (Fatal (errorString err), emit encoder [actionFor cfg v] w1)
        end
    | (Fatal msg, w1) => (Fatal msg, w1)
    | (Exit2 msg, w1) => (Exit2 msg, w1)
    | (Panic, w1) => (Panic, w1)
    end.
Proof.
  unfold encodeIndexOp, bind.
  destruct (getEsVersion E cfg w) as [[[err|v]|msg|msg|] w1]; try reflexivity.
  unfold Encode at 1. fold (actionFor cfg v).
  rewrite marshalError_action. unfold bind, ret.
  cbn [write fst snd]. unfold Encode.
  destruct (marshalError (VMap (docOf E b pkg goos goarch tags timestamp)));
    reflexivity.
Qed.

(** [Compare] answers -1, 0 or 1, so [GTE] is the negation of [LT]. *)
Lemma preCompare_range v o :
  semver.preCompare v o = -1 \/ semver.preCompare v o = 0
  \/ semver.preCompare v o = 1.
Proof.
  revert o. induction v as [|x v IH]; intros [|y o]; cbn; auto.
  destruct (semver.prCompare x y =? 0); [apply IH|].
  destruct (semver.prCompare x y =? 1); auto.
Qed.

Lemma Compare_range v o :
  semver.Compare v o = -1 \/ semver.Compare v o = 0 \/ semver.Compare v o = 1.
Proof.
  unfold semver.Compare.
  destruct (negb (semver.Major v =? semver.Major o));
    [destruct (semver.Major v >? semver.Major o); auto|].
  destruct (negb (semver.Minor v =? semver.Minor o));
    [destruct (semver.Minor v >? semver.Minor o); auto|].
  destruct (negb (semver.Patch v =? semver.Patch o));
    [destruct (semver.Patch v >? semver.Patch o); auto|].
  destruct (semver.Pre v) as [|x pv], (semver.Pre o) as [|y po]; auto.
  apply preCompare_range.
Qed.

Lemma GTE_not_LT v o : semver.GTE v o = negb (semver.LT v o).
Proof.
  unfold semver.GTE, semver.LT.
  destruct (Compare_range v o) as [-> | [-> | ->]]; reflexivity.
Qed.

Lemma marshalError_mappingBody v : marshalError (mappingBody v) = None.
Proof.
  unfold mappingBody. destruct (semver.LT v semver.v7_0_0);
    vm_compute; reflexivity.
Qed.

Lemma requests_handleResponse verboseFlag resp w :
  requests (snd (handleResponse E verboseFlag resp w)) = requests w.
Proof.
  unfold handleResponse.
  destruct (negb verboseFlag && (StatusCode resp =? 200)); [reflexivity|].
  destruct (decodeObject E (RespBody resp)) as [err|[result unread]];
    [reflexivity|].
  destruct (StatusCode resp =? 200); [reflexivity|].
  destruct (result !! "error") as [[| | | | | | |errorObj]|]; try reflexivity.
  destruct (errorObj !! "type") as [[]|], (errorObj !! "reason") as [[]|];
    reflexivity.
Qed.

(** The request [createMapping] makes once the version is known. *)
Lemma createMapping_request verboseFlag cfg w v w1 :
  getEsVersion E cfg w = (Done (inr v), w1) ->
  http_NewRequest E "PUT" (host cfg +:+ "/" +:+ index cfg) = None ->
  exists req,
    requests (snd (createMapping E verboseFlag cfg w)) = requests w1 ++ [req]
    /\ Method req = "PUT"
    /\ URL req = host cfg +:+ "/" +:+ index cfg
    /\ Body req = [mappingBody v].
Proof.
  intros Hget Hnew. unfold createMapping, bind at 1. rewrite Hget.
  rewrite marshalError_mappingBody, Hnew.
  exists (mkRequest "PUT" (host cfg +:+ "/" +:+ index cfg)
            (if nonEmpty (user cfg) && nonEmpty (pass cfg)
             then Some (user cfg, pass cfg) else None)
            (Some "application/json") [mappingBody v]
            (shouldSkipTlsVerify cfg) (httpTimeoutSeconds cfg)).
  split; [|split; [|split]; reflexivity].
  unfold bind at 1. unfold Do at 1.
  destruct (http_Do E _ _) as [err|resp]; [reflexivity|].
  unfold bind at 1.
  match goal with
  | |- context [handleResponse E verboseFlag resp ?w'] =>
      pose proof (requests_handleResponse verboseFlag resp w') as Hh;
      destruct (handleResponse E verboseFlag resp w') as [[[[msg|t reason]|]|?|?|] w2]
  end; cbn [snd requests] in Hh; unfold ret; cbn [snd];
    try exact Hh.
  destruct (String.eqb t exceptionResourceAlreadyExists); [|exact Hh].
  destruct verboseFlag; cbn; exact Hh.
Qed.

Lemma createMapping_version_error verboseFlag cfg w err w1 :
  getEsVersion E cfg w = (Done (inl err), w1) ->
  createMapping E verboseFlag cfg w = (Done (Some err), w1).
Proof. intros H. unfold createMapping, bind. now rewrite H. Qed.

(** C2: the store reports [v].  Below 7.0.0 the body of the PUT of
    [createMapping] has the properties under the key [_doc]; from 8.0.0
    on the index action of a record has no [_type]; from 7.0.0 up to
    8.0.0 it has [_type] with the value [_doc]. *)
Theorem version_thresholds verboseFlag cfg encoder b pkg goos goarch tags
    timestamp w v w1 :
  getEsVersion E cfg w = (Done (inr v), w1) ->
  (semver.LT v semver.v7_0_0 = true ->
   http_NewRequest E "PUT" (host cfg +:+ "/" +:+ index cfg) = None ->
   exists req,
     requests (snd (createMapping E verboseFlag cfg w)) = requests w1 ++ [req]
     /\ Method req = "PUT"
     /\ Body req
        = [VMap {[ "mappings" := VMap {[ "_doc" := VMap
             (<["properties" := VMap esFieldProperties]>
                {[ "dynamic_templates" :=
                     VList [VMap esExtraMetricsDynamicTemplate] ]}) ]} ]}])
  /\ (semver.GTE v semver.v8_0_0 = true ->
      exists rest,
        written encoder
          (snd (encodeIndexOp E encoder b pkg goos goarch tags timestamp cfg w))
        = written encoder w
            ++ VMap {[ "index" := VMap {[ "_index" := VString (index cfg) ]} ]}
            :: rest)
  /\ (semver.GTE v semver.v7_0_0 = true -> semver.LT v semver.v8_0_0 = true ->
      exists rest,
        written encoder
          (snd (encodeIndexOp E encoder b pkg goos goarch tags timestamp cfg w))
        = written encoder w
            ++ VMap {[ "index" :=
                 VMap (<["_index" := VString (index cfg)]>
                         {[ "_type" := VString "_doc" ]}) ]}
            :: rest).
Proof.
  intros Hget.
  assert (Hact : exists rest,
    written encoder
      (snd (encodeIndexOp E encoder b pkg goos goarch tags timestamp cfg w))
    = written encoder w ++ actionFor cfg v :: rest).
  { rewrite encodeIndexOp_run, Hget. cbv zeta.
    rewrite <- (written_getEsVersion encoder cfg w _ _ Hget).
    destruct (marshalError _); cbn [snd]; rewrite written_emit; eauto. }
  split; [|split].
  - intros Hlt Hnew.
    destruct (createMapping_request verboseFlag cfg w v w1 Hget Hnew)
      as (req & Hreq & Hm & _ & Hb).
    exists req. repeat split; try assumption.
    rewrite Hb. unfold mappingBody. now rewrite Hlt.
  - intros Hge. rewrite GTE_not_LT in Hge. apply negb_true_iff in Hge.
    destruct Hact as [rest Hact]. exists rest. rewrite Hact.
    unfold actionFor. rewrite Hge. reflexivity.
  - intros _ Hlt.
    destruct Hact as [rest Hact]. exists rest. rewrite Hact.
    unfold actionFor. rewrite Hlt. reflexivity.
Qed.

End Encoding.

(* ===================================================================== *)
(** ** The stream driver                                                 *)
(* ===================================================================== *)

Section Driver.

Context (E : Env).
Context (encoder : writer) (tags : gmap string string) (timestamp : Z)
        (cfg : elasticsearchConfig).

Local Abbreviation scanLine' := (scanLine E encoder tags timestamp cfg).
Local Abbreviation scanLines' := (scanLines E encoder tags timestamp cfg).

(** A context line changes the variables and nothing else. *)
Lemma scanLine_context ctx line w :
  contextLine line = true ->
  scanLine' ctx line w = (Done (nextContext ctx line), w).
Proof.
  unfold contextLine, scanLine, nextContext.
  destruct (strings.HasPrefix line "pkg:"); [reflexivity|].
  destruct (strings.HasPrefix line "goos:"); [reflexivity|].
  destruct (strings.HasPrefix line "goarch:"); [reflexivity|discriminate].
Qed.

(** A benchmark line goes to [encodeIndexOp], with the variables as they
    are. *)
Lemma scanLine_benchmark ctx line b w :
  benchmarkLine E line = Some b ->
  scanLine' ctx line w
  = (encodeIndexOp E encoder (mkbenchmark b (parseExtraMetrics E line))
       (pkg ctx) (goos ctx) (goarch ctx) tags timestamp cfg ;;; ret ctx) w
  /\ nextContext ctx line = ctx.
Proof.
  unfold benchmarkLine, scanLine, nextContext.
  destruct (strings.HasPrefix line "pkg:"); [discriminate|].
  destruct (strings.HasPrefix line "goos:"); [discriminate|].
  destruct (strings.HasPrefix line "goarch:"); [discriminate|].
  cbn [orb]. intros ->. split; reflexivity.
Qed.

(** Any other line is dropped. *)
Lemma scanLine_other ctx line w :
  contextLine line = false -> ParseLine E line = None ->
  scanLine' ctx line w = (Done ctx, w) /\ nextContext ctx line = ctx.
Proof.
  unfold contextLine, scanLine, nextContext.
  destruct (strings.HasPrefix line "pkg:"); [discriminate|].
  destruct (strings.HasPrefix line "goos:"); [discriminate|].
  destruct (strings.HasPrefix line "goarch:"); [discriminate|].
  intros _ ->. split; reflexivity.
Qed.

Lemma scanLine_Done ctx line w ctx' w' :
  scanLine' ctx line w = (Done ctx', w') -> ctx' = nextContext ctx line.
Proof.
  destruct (contextLine line) eqn:Hc.
  - rewrite scanLine_context by exact Hc. congruence.
  - destruct (ParseLine E line) as [b|] eqn:Hp.
    + assert (Hb : benchmarkLine E line = Some b).
      { unfold benchmarkLine. unfold contextLine in Hc. now rewrite Hc. }
      destruct (scanLine_benchmark ctx line b w Hb) as [-> ->].
      unfold bind, ret.
      destruct (encodeIndexOp E _ _ _ _ _ _ _ _ w) as [[[]| | |] w2];
        congruence.
    + destruct (scanLine_other ctx line w Hc Hp) as [-> ->]. congruence.
Qed.

Lemma scanLines_app pre post ctx w :
  scanLines' ctx (pre ++ post) w
  = (ctx' <- scanLines' ctx pre ;; scanLines' ctx' post) w.
Proof.
  revert ctx w. induction pre as [|l pre IH]; intros ctx w; [reflexivity|].
  cbn [app scanLines]. unfold bind.
  destruct (scanLine' ctx l w) as [[ctx1| | |] w1]; try reflexivity.
  rewrite IH. reflexivity.
Qed.

Lemma scanLines_Done pre ctx w ctx' w' :
  scanLines' ctx pre w = (Done ctx', w') ->
  ctx' = fold_left nextContext pre ctx.
Proof.
  revert ctx w. induction pre as [|l pre IH]; intros ctx w; cbn.
  - unfold ret. congruence.
  - unfold bind.
    destruct (scanLine' ctx l w) as [[ctx1| | |] w1] eqn:Hl; try discriminate.
    apply scanLine_Done in Hl as ->. apply IH.
Qed.

(** The three prefixes exclude each other. *)
Lemma prefixes_exclusive line :
  (strings.HasPrefix line "pkg:" = true ->
     strings.HasPrefix line "goos:" = false
     /\ strings.HasPrefix line "goarch:" = false)
  /\ (strings.HasPrefix line "goos:" = true ->
     strings.HasPrefix line "goarch:" = false).
Proof.
  destruct line as [|c1 line]; [split; discriminate|].
  cbn [strings.HasPrefix].
  destruct (Ascii.eqb_spec c1 "p") as [->|_].
  { split; [now split|discriminate]. }
  split; [discriminate|].
  destruct (Ascii.eqb_spec c1 "g") as [->|_]; [|discriminate].
  destruct line as [|c2 line]; [discriminate|].
  cbn [strings.HasPrefix andb].
  destruct (Ascii.eqb_spec c2 "o") as [->|_]; [|discriminate].
  destruct line as [|c3 line]; [discriminate|].
  cbn [strings.HasPrefix andb].
  destruct (Ascii.eqb_spec c3 "o") as [->|_]; [|discriminate].
  reflexivity.
Qed.

Lemma lastPayload_snoc prefix pre line :
  lastPayload prefix (pre ++ [line])
  = if strings.HasPrefix line prefix
    then strings.TrimSpace (strings.sliceFrom (String.length prefix) line)
    else lastPayload prefix pre.
Proof.
  unfold lastPayload. rewrite rev_app_distr. cbn [rev app find].
  now destruct (strings.HasPrefix line prefix).
Qed.

(** The variables hold the payloads of the last context lines. *)
Lemma context_lastPayload pre :
  fold_left nextContext pre context0
  = mkContext (lastPayload "pkg:" pre) (lastPayload "goos:" pre)
      (lastPayload "goarch:" pre).
Proof.
  induction pre as [|line pre IH] using rev_ind; [reflexivity|].
  rewrite fold_left_app, IH. cbn [fold_left].
  rewrite !lastPayload_snoc. unfold nextContext. cbn [pkg goos goarch].
  destruct (prefixes_exclusive line) as [H1 H2].
  destruct (strings.HasPrefix line "pkg:").
  { destruct H1 as [-> ->]; reflexivity. }
  destruct (strings.HasPrefix line "goos:").
  { rewrite H2 by reflexivity. reflexivity. }
  destruct (strings.HasPrefix line "goarch:"); reflexivity.
Qed.

(** The units a benchmark line adds to the output, by how
    [encodeIndexOp] ends. *)
Lemma scanLine_benchmark_units ctx line b w :
  benchmarkLine E line = Some b ->
  let doc :=
    VMap (docOf E (mkbenchmark b (parseExtraMetrics E line))
            (pkg ctx) (goos ctx) (goarch ctx) tags timestamp) in
  exists out w' units,
    scanLine' ctx line w = (out, w')
    /\ written encoder w' = written encoder w ++ units
    /\ ((out = Done ctx
         /\ exists action, units = [action; doc; VString newline])
        \/ (exists msg, out = Fatal msg
            /\ (units = [] \/ exists action, units = [action]))).
Proof.
  intros Hb doc.
  destruct (scanLine_benchmark ctx line b w Hb) as [-> _].
  unfold bind. rewrite encodeIndexOp_run.
  destruct (getEsVersion_returns E cfg w) as (r & w1 & Hget & _).
  pose proof (written_getEsVersion E encoder cfg w _ _ Hget) as Hw.
  rewrite Hget. destruct r as [err|v].
  - exists (Fatal (errorString err)), w1, [].
    rewrite app_nil_r. eauto 10.
  - cbv zeta. fold doc. destruct (marshalError doc) as [refused|].
    + eexists _, _, _. split; [reflexivity|].
      rewrite written_emit, Hw. split; [reflexivity|]. right. eauto 10.
    + eexists _, _, _. split; [reflexivity|].
      rewrite written_emit, Hw. split; [reflexivity|]. left. eauto.
Qed.

(** The document of a benchmark line that follows the lines [pre]. *)
Lemma scanLines_benchmark_doc pre line b w ctx' w' :
  benchmarkLine E line = Some b ->
  scanLines' context0 (pre ++ [line]) w = (Done ctx', w') ->
  exists w1 action,
    scanLines' context0 pre w = (Done ctx', w1)
    /\ ctx' = mkContext (lastPayload "pkg:" pre) (lastPayload "goos:" pre)
                (lastPayload "goarch:" pre)
    /\ written encoder w'
       = written encoder w1
           ++ [action;
               VMap (docOf E (mkbenchmark b (parseExtraMetrics E line))
                       (lastPayload "pkg:" pre) (lastPayload "goos:" pre)
                       (lastPayload "goarch:" pre) tags timestamp);
               VString newline].
Proof.
  intros Hb. rewrite scanLines_app. unfold bind at 1.
  destruct (scanLines' context0 pre w) as [[ctx1| | |] w1] eqn:Hpre;
    try discriminate.
  apply scanLines_Done in Hpre as Hctx. rewrite context_lastPayload in Hctx.
  cbn [scanLines]. unfold bind at 1.
  destruct (scanLine_benchmark_units ctx1 line b w1 Hb)
    as (out & w2 & units & Hrun & Hw & Hcase).
  rewrite Hrun.
  destruct Hcase as [[-> [action ->]] | [msg [-> _]]]; [|discriminate].
  unfold ret. intros [= <- <-].
  exists w1, action. rewrite Hw, Hctx. cbn [pkg goos goarch]. auto.
Qed.

Lemma lastPayload_none prefix pre :
  Forall (fun l => strings.HasPrefix l prefix = false) pre ->
  lastPayload prefix pre = "".
Proof.
  induction pre as [|line pre IH] using rev_ind; [reflexivity|].
  intros H. apply Forall_app in H as [Hpre Hline].
  rewrite lastPayload_snoc.
  apply Forall_inv in Hline. rewrite Hline. now apply IH.
Qed.

(** C4, as the program has it: a context line writes nothing; the document
    of a benchmark line has, under [pkg], [goos] and [goarch], the trimmed
    payload of the last context line of that kind before it (the empty
    string when there is none), unless a tag is named like the field: a tag
    decides the key it is named like. *)
Theorem context_reaches_documents :
  (forall ctx line w,
      contextLine line = true ->
      scanLine' ctx line w = (Done (nextContext ctx line), w))
  /\ (forall pre line b w ctx' w',
      benchmarkLine E line = Some b ->
      scanLines' context0 (pre ++ [line]) w = (Done ctx', w') ->
      exists w1 action doc,
        scanLines' context0 pre w = (Done ctx', w1)
        /\ written encoder w'
           = written encoder w1 ++ [action; VMap doc; VString newline]
        /\ (tags !! fieldPkg = None ->
            doc !! fieldPkg = Some (VString (lastPayload "pkg:" pre)))
        /\ (tags !! fieldGOOS = None ->
            doc !! fieldGOOS = Some (VString (lastPayload "goos:" pre)))
        /\ (tags !! fieldGOARCH = None ->
            doc !! fieldGOARCH = Some (VString (lastPayload "goarch:" pre)))
        /\ (forall key v,
              tags !! key = Some v -> doc !! key = Some (VString v))).
Proof.
  split; [exact scanLine_context|].
  intros pre line b w ctx' w' Hb Hrun.
  destruct (scanLines_benchmark_doc pre line b w ctx' w' Hb Hrun)
    as (w1 & action & Hpre & _ & Hw).
  eexists w1, action, _. split; [exact Hpre|]. split; [exact Hw|].
  destruct (docOf_base E (mkbenchmark b (parseExtraMetrics E line))
              (lastPayload "pkg:" pre) (lastPayload "goos:" pre)
              (lastPayload "goarch:" pre) tags timestamp)
    as (H1 & H2 & H3 & _).
  repeat split; try assumption.
  intros key v Ht. now apply docOf_tag.
Qed.

(** C10, as the program has it: the seven base fields are in every
    document; a benchmark line that no context line of a kind precedes has
    the empty string under that field, unless a tag is named like it.  A
    tag decides the key it is named like: a tag named [pkg], [goos] or
    [goarch] is in the document with the value of the tag. *)
Theorem base_fields_always_present :
  (forall b pkg goos goarch key,
      key ∈ baseFields ->
      is_Some (docOf E b pkg goos goarch tags timestamp !! key))
  /\ (forall b pkg goos goarch key v,
      tags !! key = Some v ->
      docOf E b pkg goos goarch tags timestamp !! key = Some (VString v))
  /\ (forall pre line b w ctx' w',
      benchmarkLine E line = Some b ->
      scanLines' context0 (pre ++ [line]) w = (Done ctx', w') ->
      exists w1 action doc,
        scanLines' context0 pre w = (Done ctx', w1)
        /\ written encoder w'
           = written encoder w1 ++ [action; VMap doc; VString newline]
        /\ (forall key, key ∈ baseFields -> is_Some (doc !! key))
        /\ (Forall (fun l => strings.HasPrefix l "pkg:" = false) pre ->
            tags !! fieldPkg = None -> doc !! fieldPkg = Some (VString ""))
        /\ (Forall (fun l => strings.HasPrefix l "goos:" = false) pre ->
            tags !! fieldGOOS = None -> doc !! fieldGOOS = Some (VString ""))
        /\ (Forall (fun l => strings.HasPrefix l "goarch:" = false) pre ->
            tags !! fieldGOARCH = None ->
            doc !! fieldGOARCH = Some (VString ""))
        /\ (forall key v,
              tags !! key = Some v -> doc !! key = Some (VString v))).
Proof.
  split; [|split].
  { intros b pkg goos goarch key. apply docOf_base_present. }
  { intros b pkg goos goarch key v. apply docOf_tag. }
  intros pre line b w ctx' w' Hb Hrun.
  destruct (scanLines_benchmark_doc pre line b w ctx' w' Hb Hrun)
    as (w1 & action & Hpre & _ & Hw).
  eexists w1, action, _. split; [exact Hpre|]. split; [exact Hw|].
  destruct (docOf_base E (mkbenchmark b (parseExtraMetrics E line))
              (lastPayload "pkg:" pre) (lastPayload "goos:" pre)
              (lastPayload "goarch:" pre) tags timestamp)
    as (H1 & H2 & H3 & _).
  split; [intros key; apply docOf_base_present|].
  split; [|split; [|split]].
  - intros Hnone Ht. rewrite H1 by exact Ht. now rewrite lastPayload_none.
  - intros Hnone Ht. rewrite H2 by exact Ht. now rewrite lastPayload_none.
  - intros Hnone Ht. rewrite H3 by exact Ht. now rewrite lastPayload_none.
  - intros key v. apply docOf_tag.
Qed.

End Driver.

(* ===================================================================== *)
(** ** The run as a whole                                                *)
(* ===================================================================== *)

Section Run.

Context (E : Env).

Lemma onlyAdds_refl methods w : onlyAdds methods w w.
Proof. exists []. now rewrite app_nil_r. Qed.

Lemma onlyAdds_trans methods w1 w2 w3 :
onlyAdds methods w1 w2 -> onlyAdds methods w2 w3 -> onlyAdds methods w1 w3.
Proof.
intros (rs1 & H1 & F1) (rs2 & H2 & F2). exists (rs1 ++ rs2).
rewrite H2, H1, <- app_assoc. split; [reflexivity|].
apply Forall_app. now split.
Qed.

Lemma onlyAdds_weaken methods methods' w w' :
methods ⊆ methods' -> onlyAdds methods w w' -> onlyAdds methods' w w'.
Proof.
intros Hsub (rs & H & F). exists rs. split; [exact H|].
eapply Forall_impl; [exact F|]. intros r Hr. now apply Hsub.
Qed.

Lemma onlyAdds_same methods w w' :
requests w' = requests w -> onlyAdds methods w w'.
Proof. intros H. exists []. now rewrite app_nil_r. Qed.

Lemma onlyAdds_getEsVersion cfg w r w1 :
getEsVersion E cfg w = (r, w1) -> onlyAdds ["GET"] w w1.
Proof.
intros H.
destruct (getEsVersion_returns E cfg w) as (r' & w1' & Hrun & _ & _ & _ & Hreq).
rewrite Hrun in H. injection H as _ <-.
destruct Hreq as [Hreq | (req & Hreq & Hm)].
- now apply onlyAdds_same.
- exists [req]. split; [exact Hreq|].
  constructor; [|constructor]. rewrite Hm. apply elem_of_cons. now left.
Qed.

Lemma onlyAdds_encodeIndexOp encoder b pkg goos goarch tags timestamp cfg w :
onlyAdds ["GET"] w
  (snd (encodeIndexOp E encoder b pkg goos goarch tags timestamp cfg w)).
Proof.
rewrite encodeIndexOp_run.
destruct (getEsVersion E cfg w) as [r w1] eqn:Hget.
apply onlyAdds_getEsVersion in Hget.
destruct r as [[err|v]|msg|msg|]; try exact Hget.
cbv zeta. destruct (marshalError _); cbn [snd];
  (eapply onlyAdds_trans; [exact Hget|]);
  apply onlyAdds_same, requests_emit.
Qed.

Lemma onlyAdds_scanLine encoder tags timestamp cfg ctx line w :
onlyAdds ["GET"] w (snd (scanLine E encoder tags timestamp cfg ctx line w)).
Proof.
unfold scanLine.
repeat match goal with
  | |- context [if ?c then _ else _] => destruct c; [apply onlyAdds_refl|]
  end.
destruct (ParseLine E line) as [b|]; [|apply onlyAdds_refl].
unfold bind.
pose proof (onlyAdds_encodeIndexOp encoder
              (mkbenchmark b (parseExtraMetrics E line))
              (pkg ctx) (goos ctx) (goarch ctx) tags timestamp cfg w) as H.
destruct (encodeIndexOp E _ _ _ _ _ _ _ _ w) as [[[]| | |] w2]; exact H.
Qed.

Lemma onlyAdds_scanLines encoder tags timestamp cfg ctx lines w :
onlyAdds ["GET"] w (snd (scanLines E encoder tags timestamp cfg ctx lines w)).
Proof.
revert ctx w. induction lines as [|line rest IH]; intros ctx w;
  [apply onlyAdds_refl|].
cbn [scanLines]. unfold bind.
pose proof (onlyAdds_scanLine encoder tags timestamp cfg ctx line w) as H.
destruct (scanLine E _ _ _ _ ctx line w) as [[ctx1| | |] w1]; try exact H.
eapply onlyAdds_trans; [exact H|apply IH].
Qed.

Lemma onlyAdds_createMapping verboseFlag cfg w :
  onlyAdds ["GET"; "PUT"] w (snd (createMapping E verboseFlag cfg w)).
Proof.
  assert (Hsub : ["GET"] ⊆ ["GET"; "PUT"]).
  { intros x Hx. rewrite !elem_of_cons in *. tauto. }
  unfold createMapping, bind at 1.
  destruct (getEsVersion E cfg w) as [r w1] eqn:Hget.
  apply onlyAdds_getEsVersion, (onlyAdds_weaken _ _ _ _ Hsub) in Hget.
  destruct r as [[err|v]|msg|msg|]; try exact Hget.
  destruct (marshalError (mappingBody v)); [exact Hget|].
  destruct (http_NewRequest E "PUT" _); [exact Hget|].
  eapply onlyAdds_trans; [exact Hget|].
  unfold bind at 1, Do at 1.
  match goal with
  | |- onlyAdds _ _ (snd (_ ?w')) =>
      assert (Hput : onlyAdds ["GET"; "PUT"] w1 w')
  end.
  { eexists [_]. split; [reflexivity|].
    constructor; [|constructor]. cbn. rewrite !elem_of_cons. tauto. }
  destruct (http_Do E _ _) as [err|resp]; [exact Hput|].
  eapply onlyAdds_trans; [exact Hput|].
  unfold bind at 1.
  match goal with
  | |- context [handleResponse E verboseFlag resp ?w'] =>
      pose proof (requests_handleResponse E verboseFlag resp w') as Hh;
      destruct (handleResponse E verboseFlag resp w')
        as [[[[msg|t reason]|]|?|?|] w2]
  end; cbn [snd] in Hh; unfold ret; cbn [snd];
    try (apply onlyAdds_same; exact Hh).
  destruct (String.eqb t exceptionResourceAlreadyExists);
    [|apply onlyAdds_same; exact Hh].
  destruct verboseFlag; cbn; apply onlyAdds_same; exact Hh.
Qed.

(** [main] in direct-send mode, once the flags are read. *)
Lemma main_direct cfg tagsFlag tags verboseFlag stdin scannerErr u w :
  nonEmpty (host cfg) = true ->
  parseTags (strings.Split tagsFlag ",") ∅ = inr tags ->
  url_Parse E (host cfg) = inr u ->
  main E cfg tagsFlag verboseFlag stdin scannerErr w
  = ((r <- createMapping E verboseFlag cfg ;;
      match r with
      | Some err =>
          log_Fatal ("error creating/updating mapping: " +:+ errorString err)
      | None => ret tt
      end) ;;;
     scanLines E (if verboseFlag then ToBoth else ToBuf) tags (time_Now E) cfg
       context0 stdin ;;;
     match scannerErr with
     | Some err => log_Fatal (errorString err)
     | None => sendBulk E verboseFlag cfg u
     end) w.
Proof.
  intros Hhost Htags Hurl. unfold main. now rewrite Htags, Hhost, Hurl.
Qed.

(** [main] in passthrough mode. *)
Lemma main_passthrough cfg tagsFlag tags verboseFlag stdin scannerErr w :
  host cfg = "" ->
  parseTags (strings.Split tagsFlag ",") ∅ = inr tags ->
  main E cfg tagsFlag verboseFlag stdin scannerErr w
  = (scanLines E ToStdout tags (time_Now E) cfg context0 stdin ;;;
     match scannerErr with
     | Some err => log_Fatal (errorString err)
     | None => ret tt
     end) w.
Proof.
  intros Hhost Htags. unfold main. rewrite Htags, Hhost. reflexivity.
Qed.

(** A version check that fails returns its error; it has printed
    nothing, left the buffer alone, and made its one GET at most. *)
Lemma getEsVersion_unknown cfg w err :
  versionUnknown E cfg (length (requests w)) err ->
  exists w1,
    getEsVersion E cfg w = (Done (inl err), w1)
    /\ stdout w1 = stdout w /\ buf w1 = buf w
    /\ onlyAdds ["GET"] w w1.
Proof.
  intros Hfail.
  assert (Hrun : exists w1, getEsVersion E cfg w = (Done (inl err), w1)).
  { unfold getEsVersion. fold (versionRequest cfg).
    destruct Hfail as [err Hnew | err Hnew Hdo | resp Hnew Hdo Hs
                      | resp err Hnew Hdo Hs Hbody
                      | resp number err Hnew Hdo Hs Hbody Hnum];
      rewrite Hnew; [eexists; reflexivity|..];
      unfold bind, Do; rewrite Hdo.
    - eexists; reflexivity.
    - apply Z.eqb_neq in Hs. rewrite Hs. eexists; reflexivity.
    - rewrite Hs, Hbody. eexists; reflexivity.
    - rewrite Hs, Hbody. unfold ret. rewrite Hnum. eexists; reflexivity. }
  destruct Hrun as [w1 Hrun]. exists w1. split; [exact Hrun|].
  destruct (getEsVersion_returns E cfg w) as (r & w1' & Hret & Hs & Hb & _).
  rewrite Hret in Hrun. injection Hrun as _ <-.
  repeat split; try assumption.
  now apply (onlyAdds_getEsVersion cfg w (Done r)).
Qed.

(** C8: in direct-send mode, when the version of the store cannot be
    retrieved (the request cannot be built or made, or the status is not
    200) or cannot be parsed (the body does not decode, or its number is no
    version), the run ends with [log.Fatal] and the error of the check, and
    no request other than the GETs of the checks and the PUT of the mapping
    has been made: the bulk request is never sent.  So it is for the check
    of [createMapping], before any line is read, and for the check of
    every record. *)
Theorem version_failure_is_fatal cfg tagsFlag tags verboseFlag stdin
    scannerErr u w :
  nonEmpty (host cfg) = true ->
  parseTags (strings.Split tagsFlag ",") ∅ = inr tags ->
  url_Parse E (host cfg) = inr u ->
  (forall err,
      versionUnknown E cfg (length (requests w)) err ->
      exists w1,
        main E cfg tagsFlag verboseFlag stdin scannerErr w
        = (Fatal ("error creating/updating mapping: " +:+ errorString err), w1)
        /\ buf w1 = buf w /\ stdout w1 = stdout w
        /\ onlyAdds ["GET"] w w1)
  /\ (forall pre line rest b w0 ctx1 w1 err,
      stdin = pre ++ line :: rest ->
      createMapping E verboseFlag cfg w = (Done None, w0) ->
      scanLines E (if verboseFlag then ToBoth else ToBuf) tags (time_Now E) cfg
        context0 pre w0 = (Done ctx1, w1) ->
      benchmarkLine E line = Some b ->
      versionUnknown E cfg (length (requests w1)) err ->
      exists w2,
        main E cfg tagsFlag verboseFlag stdin scannerErr w
        = (Fatal (errorString err), w2)
        /\ buf w2 = buf w1
        /\ onlyAdds ["GET"; "PUT"] w w2).
Proof.
  intros Hhost Htags Hurl.
  assert (Hsub : ["GET"] ⊆ ["GET"; "PUT"]).
  { intros x Hx. rewrite !elem_of_cons in *. tauto. }
  split.
  - intros err Hfail.
    destruct (getEsVersion_unknown cfg w err Hfail)
      as (w1 & Hget & Hs & Hb & Hreq).
    exists w1.
    rewrite (main_direct cfg tagsFlag tags verboseFlag stdin scannerErr u w)
      by assumption.
    unfold bind. rewrite (createMapping_version_error E _ _ _ _ _ Hget).
    repeat split; assumption || reflexivity.
  - intros pre line rest b w0 ctx1 w1 err -> Hmap Hpre Hb Hfail.
    destruct (getEsVersion_unknown cfg w1 err Hfail)
      as (w2 & Hget & _ & Hbuf & Hreq).
    exists w2.
    rewrite (main_direct cfg tagsFlag tags verboseFlag _ scannerErr u w)
      by assumption.
    unfold bind at 1 2. unfold bind at 1. rewrite Hmap. unfold ret at 1.
    rewrite scanLines_app. unfold bind at 1. rewrite Hpre.
    cbn [scanLines]. unfold bind at 1.
    destruct (scanLine_benchmark E (if verboseFlag then ToBoth else ToBuf)
                tags (time_Now E) cfg ctx1 line b w1 Hb) as [-> _].
    unfold bind at 1. rewrite encodeIndexOp_run, Hget.
    split; [reflexivity|]. split; [exact Hbuf|].
    eapply onlyAdds_trans.
    { pose proof (onlyAdds_createMapping verboseFlag cfg w) as H.
      rewrite Hmap in H. exact H. }
    eapply onlyAdds_weaken; [exact Hsub|].
    eapply onlyAdds_trans; [|exact Hreq].
    pose proof (onlyAdds_scanLines (if verboseFlag then ToBoth else ToBuf)
                  tags (time_Now E) cfg context0 pre w0) as H.
    rewrite Hpre in H. exact H.
Qed.

End Run.

(* ===================================================================== *)
(** ** The units of one record                                           *)
(* ===================================================================== *)

(** C1: what one benchmark line adds to the output is never an action and
    a document alone.  When [encodeIndexOp] returns there are three units:
    the action, the document and the JSON string of a line feed; when it
    stops the run there is nothing, or the action alone.  In passthrough
    mode, for the line [Ref.line1]: three units when the store answers the
    version check, and [log.Fatal] with no output when there is no store
    to ask. *)
Theorem record_is_not_two_units :
  (forall E encoder tags timestamp cfg ctx line b w,
      benchmarkLine E line = Some b ->
      exists out w' units,
        scanLine E encoder tags timestamp cfg ctx line w = (out, w')
        /\ written encoder w' = written encoder w ++ units
        /\ ((out = Done ctx
             /\ exists action doc, units = [action; doc; VString newline])
            \/ (exists msg, out = Fatal msg
                /\ (units = [] \/ exists action, units = [action])))
        /\ length units <> 2%nat)
  /\ (exists action doc,
        main (Ref.env (Ref.always "7.11.1")) (Ref.cfg "") "" false
          [Ref.line1] None world0
        = (Done tt,
           mkWorld [Ref.getNowhere]
             [Encoded action; Encoded (VMap doc); Encoded (VString newline)]
             [] []))
  /\ main (Ref.env Ref.never) (Ref.cfg "") "" false [Ref.line1] None world0
     = (Fatal "unsupported protocol scheme",
        mkWorld [Ref.getNowhere] [] [] []).
Proof.
  split; [|split].
  - intros E encoder tags timestamp cfg ctx line b w Hb.
    destruct (scanLine_benchmark_units E encoder tags timestamp cfg ctx line b w Hb)
      as (out & w' & units & Hrun & Hw & Hcase).
    exists out, w', units. repeat split; try assumption.
    + destruct Hcase as [[-> [action ->]] | Hf]; [left; eauto|right; exact Hf].
    + destruct Hcase as [[_ [action ->]] | (msg & _ & [-> | [action ->]])];
        discriminate.
  - eexists _, _. vm_compute. reflexivity.
  - vm_compute. reflexivity.
Qed.

(* ===================================================================== *)
(** ** The statements at work                                            *)
(* ===================================================================== *)

Lemma record_is_not_two_units_witness :
  exists out w' units,
    scanLine (Ref.env Ref.never) ToStdout ∅ 0 (Ref.cfg "")
      context0 Ref.line1 world0 = (out, w')
    /\ written ToStdout w' = written ToStdout world0 ++ units
    /\ ((out = Done context0
         /\ exists action doc, units = [action; doc; VString newline])
        \/ (exists msg, out = Fatal msg
            /\ (units = [] \/ exists action, units = [action])))
    /\ length units <> 2%nat.
Proof.
  refine (proj1 record_is_not_two_units (Ref.env Ref.never)
            ToStdout ∅ 0 (Ref.cfg "") context0 Ref.line1 Ref.bench1 world0 _).
  vm_compute. reflexivity.
Defined.

(** The store reports 6.8.0, 8.1.0 and 7.11.1. *)
Lemma version_thresholds_witness :
  (exists req,
      requests (snd (createMapping (Ref.env (Ref.always "6.8.0")) false
                       Ref.direct world0))
      = requests (snd (getEsVersion (Ref.env (Ref.always "6.8.0"))
                         Ref.direct world0)) ++ [req]
      /\ Method req = "PUT"
      /\ Body req
         = [VMap {[ "mappings" := VMap {[ "_doc" := VMap
              (<["properties" := VMap esFieldProperties]>
                 {[ "dynamic_templates" :=
                      VList [VMap esExtraMetricsDynamicTemplate] ]}) ]} ]}])
  /\ (exists rest,
      written ToBuf
        (snd (encodeIndexOp (Ref.env (Ref.always "8.1.0")) ToBuf
                (mkbenchmark Ref.bench1 None) "" "" "" ∅ 0 Ref.direct world0))
      = written ToBuf world0
          ++ VMap {[ "index" := VMap {[ "_index" := VString "gobench" ]} ]}
          :: rest)
  /\ (exists rest,
      written ToBuf
        (snd (encodeIndexOp (Ref.env (Ref.always "7.11.1")) ToBuf
                (mkbenchmark Ref.bench1 None) "" "" "" ∅ 0 Ref.direct world0))
      = written ToBuf world0
          ++ VMap {[ "index" :=
               VMap (<["_index" := VString "gobench"]>
                       {[ "_type" := VString "_doc" ]}) ]}
          :: rest).
Proof.
  split; [|split].
  - refine (proj1 (version_thresholds (Ref.env (Ref.always "6.8.0")) false
                     Ref.direct ToBuf (mkbenchmark Ref.bench1 None) "" "" "" ∅ 0
                     world0 (semver.mkVersion 6 8 0 [] []) _ _) _ _);
      vm_compute; reflexivity.
  - refine (proj1 (proj2 (version_thresholds (Ref.env (Ref.always "8.1.0")) false
                     Ref.direct ToBuf (mkbenchmark Ref.bench1 None) "" "" "" ∅ 0
                     world0 (semver.mkVersion 8 1 0 [] [])
                     (snd (getEsVersion (Ref.env (Ref.always "8.1.0"))
                             Ref.direct world0)) _)) _);
      vm_compute; reflexivity.
  - refine (proj2 (proj2 (version_thresholds (Ref.env (Ref.always "7.11.1")) false
                     Ref.direct ToBuf (mkbenchmark Ref.bench1 None) "" "" "" ∅ 0
                     world0 (semver.mkVersion 7 11 1 [] [])
                     (snd (getEsVersion (Ref.env (Ref.always "7.11.1"))
                             Ref.direct world0)) _)) _ _);
      vm_compute; reflexivity.
Defined.

(** One line with its time measured and a tag that is no field. *)
Lemma measured_fields_follow_flags_witness :
  docOf (Ref.env Ref.never) (mkbenchmark Ref.bench1 None) "" "" ""
    {[ "run" := "nightly" ]} 0 !! fieldNSPerOp
  = Some (VFloat (float64_of_Z 1234))
  /\ docOf (Ref.env Ref.never) (mkbenchmark Ref.bench1 None) "" "" ""
       {[ "run" := "nightly" ]} 0 !! fieldAllocsPerOp
     = None
  /\ docOf (Ref.env Ref.never) (mkbenchmark Ref.bench1 None) "" "" ""
       {[ "run" := "nightly" ]} 0 !! "run"
     = Some (VString "nightly").
Proof.
  destruct (measured_fields_follow_flags (Ref.env Ref.never)
              (mkbenchmark Ref.bench1 None) "" "" "" {[ "run" := "nightly" ]} 0)
    as (Hns & _ & _ & Hallocs & Htag).
  split; [|split].
  - apply Hns. vm_compute. reflexivity.
  - apply Hallocs. vm_compute. reflexivity.
  - apply Htag. vm_compute. reflexivity.
Defined.

(** C3 as written fails: with [-tag ns_per_op=5] the document of a line
    without a time measurement has the field [ns_per_op].  The run is in
    direct-send mode, and the document is in the buffer. *)
Lemma tag_named_like_a_measurement :
  exists action doc b,
    written ToBuf
      (snd (main Store.serving Ref.direct "ns_per_op=5" false [Ref.line0]
              None world0))
    = [action; VMap doc; VString newline]
    /\ ParseLine Store.serving Ref.line0 = Some b
    /\ Z.land (parse.Measured b) parse.NsPerOp = 0
    /\ doc !! fieldNSPerOp = Some (VString "5").
Proof.
  eexists _, _, _. split; [vm_compute; reflexivity|].
  split; [vm_compute; reflexivity|].
  split; vm_compute; reflexivity.
Qed.

(** A context line, then a benchmark line, in direct-send mode. *)
Lemma context_reaches_documents_witness :
  scanLine (Ref.env (Ref.always "7.11.1")) ToBuf ∅ 0 Ref.direct
    context0 "pkg: github.com/x/y " world0
  = (Done (mkContext "github.com/x/y" "" ""), world0)
  /\ exists w1 action doc,
      written ToBuf
        (snd (scanLines (Ref.env (Ref.always "7.11.1")) ToBuf ∅ 0 Ref.direct
                context0 (["pkg: github.com/x/y "; "goos: linux"] ++ [Ref.line1])
                world0))
      = written ToBuf w1 ++ [action; VMap doc; VString newline]
      /\ doc !! fieldPkg = Some (VString "github.com/x/y")
      /\ doc !! fieldGOOS = Some (VString "linux")
      /\ doc !! fieldGOARCH = Some (VString "").
Proof.
  pose proof (context_reaches_documents (Ref.env (Ref.always "7.11.1"))
                ToBuf ∅ 0 Ref.direct) as [Hctx Hdoc].
  split.
  - apply (Hctx context0 "pkg: github.com/x/y " world0). vm_compute. reflexivity.
  - destruct (Hdoc ["pkg: github.com/x/y "; "goos: linux"] Ref.line1 Ref.bench1
                world0 (mkContext "github.com/x/y" "linux" "")
                (snd (scanLines (Ref.env (Ref.always "7.11.1")) ToBuf ∅ 0
                        Ref.direct context0
                        (["pkg: github.com/x/y "; "goos: linux"] ++ [Ref.line1])
                        world0)))
      as (w1 & action & doc & _ & Hw & Hp & Ho & Ha & _);
      [vm_compute; reflexivity ..|].
    exists w1, action, doc. split; [exact Hw|].
    split; [|split]; [apply Hp|apply Ho|apply Ha]; vm_compute; reflexivity.
Defined.

(** C4 as written fails: with [-tag pkg=other] the document does not carry
    the payload of the [pkg:] line before it.  The run is in direct-send
    mode, and the document is in the buffer. *)
Lemma tag_named_like_a_context_field :
  exists action doc,
    written ToBuf
      (snd (main Store.serving Ref.direct "pkg=other" false
              ["pkg: github.com/x/y"; Ref.line0] None world0))
    = [action; VMap doc; VString newline]
    /\ lastPayload "pkg:" ["pkg: github.com/x/y"] = "github.com/x/y"
    /\ doc !! fieldPkg = Some (VString "other")
    /\ doc !! fieldPkg <> Some (VString "github.com/x/y").
Proof.
  eexists _, _. split; [vm_compute; reflexivity|].
  split; [vm_compute; reflexivity|].
  split; [vm_compute; reflexivity|].
  vm_compute. discriminate.
Qed.

Lemma parseExtraMetrics_nil_witness :
  parseExtraMetrics (Ref.env Ref.never) Ref.line0 = None
  /\ parseExtraMetrics (Ref.env Ref.never)
       ("BenchmarkFoo-8" +:+ tab +:+ "1000" +:+ tab +:+ "1234 ns/op"
          +:+ tab +:+ "17 B/op" +:+ tab +:+ "n/a txs/sec" +:+ tab +:+ "lonely")
     = None.
Proof.
  split.
  - apply (proj1 (parseExtraMetrics_nil_not_empty (Ref.env Ref.never) Ref.line0)).
    vm_compute. lia.
  - apply (proj1 (proj2 (parseExtraMetrics_nil_not_empty (Ref.env Ref.never) _))).
    apply unusable_forallb. vm_compute. reflexivity.
Defined.

Lemma native_labels_excluded_witness :
  extraEntry (Ref.env Ref.never) {[ "txs_sec" := float64_of_Z 4386 ]} "17 B/op"
  = {[ "txs_sec" := float64_of_Z 4386 ]}.
Proof.
  apply (proj1 (native_labels_excluded (Ref.env Ref.never))).
  vm_compute. apply elem_of_cons. right. apply elem_of_cons. right.
  apply elem_of_cons. now left.
Defined.

Lemma slash_to_underscore_witness :
  (exists v,
      ParseFloat (Ref.env Ref.never) (numberOf "320 errors/sec") = Some v
      /\ extraEntry (Ref.env Ref.never) ∅ "320 errors/sec"
         = <[mapBytes slashToUnderscore (labelOf "320 errors/sec") := v]> ∅)
  /\ extraEntry (Ref.env Ref.never) ∅ "4386 txs/sec"
     = <["txs_sec" := float64_of_Z 4386]> ∅
  /\ parseExtraMetrics (Ref.env Ref.never) Ref.line1
     = Some {[ "txs_sec" := float64_of_Z 4386 ]}.
Proof.
  split; [|split].
  - apply (proj1 (slash_to_underscore (Ref.env Ref.never))).
    vm_compute. reflexivity.
  - apply (proj2 (slash_to_underscore (Ref.env Ref.never))).
    vm_compute. reflexivity.
  - vm_compute. reflexivity.
Defined.

Lemma double_blank_empty_key_witness :
  (tokens " 12   allocs " !! 1%nat = Some ""
   /\ extraEntry (Ref.env Ref.never) ∅ " 12   allocs "
      = <["" := float64_of_Z 12]> ∅)
  /\ (tokens "5  x" = ["5"; ""; "x"]
      /\ extraEntry (Ref.env Ref.never) ∅ "5  x" = <["" := float64_of_Z 5]> ∅)
  /\ parseExtraMetrics (Ref.env Ref.never) Ref.line2
     = Some {[ "" := float64_of_Z 5 ]}.
Proof.
  split; [|split].
  - apply (proj1 (double_blank_empty_key (Ref.env Ref.never))
             ∅ " 12   allocs " "12" " allocs" (float64_of_Z 12));
      vm_compute; reflexivity.
  - apply (proj2 (double_blank_empty_key (Ref.env Ref.never))).
    vm_compute. reflexivity.
  - vm_compute. reflexivity.
Defined.

(** A store nobody listens at, a store that answers 401, a store whose
    version number has two parts only, and a store that answers the two
    requests of [createMapping] and is gone at the first record. *)
Lemma version_failure_is_fatal_witness :
  (exists w1,
      main (Store.leaving 0) Ref.direct "" false [Ref.line1] None world0
      = (Fatal ("error creating/updating mapping: "
                  +:+ "dial tcp 10.0.0.7:9200: connect: connection refused"),
         w1)
      /\ buf w1 = [] /\ stdout w1 = [] /\ onlyAdds ["GET"] world0 w1)
  /\ (exists w1,
      main Store.unauthorized Ref.direct "" false [Ref.line1] None world0
      = (Fatal ("error creating/updating mapping: "
                  +:+ "received unexpected 401 status code"),
         w1)
      /\ buf w1 = [] /\ stdout w1 = [] /\ onlyAdds ["GET"] world0 w1)
  /\ (exists w1,
      main (Ref.env (Ref.always "7.x")) Ref.direct "" false [Ref.line1] None
        world0
      = (Fatal ("error creating/updating mapping: "
                  +:+ "No Major.Minor.Patch elements found"),
         w1)
      /\ buf w1 = [] /\ stdout w1 = [] /\ onlyAdds ["GET"] world0 w1)
  /\ (exists w2,
      main (Store.leaving 2) Ref.direct "" false
        ["goos: linux"; Ref.line1; Ref.line0] None world0
      = (Fatal "dial tcp 10.0.0.7:9200: connect: connection refused", w2)
      /\ buf w2 = []
      /\ onlyAdds ["GET"; "PUT"] world0 w2).
Proof.
  split; [|split; [|split]].
  - refine (proj1 (version_failure_is_fatal (Store.leaving 0) Ref.direct ""
                     ∅ false [Ref.line1] None (mkUrl "" "http://es:9200")
                     world0 _ _ _)
              (Err "dial tcp 10.0.0.7:9200: connect: connection refused") _);
      try (vm_compute; reflexivity).
    apply StoreUnreachable; vm_compute; reflexivity.
  - refine (proj1 (version_failure_is_fatal Store.unauthorized Ref.direct ""
                     ∅ false [Ref.line1] None (mkUrl "" "http://es:9200")
                     world0 _ _ _)
              (Err "received unexpected 401 status code") _);
      try (vm_compute; reflexivity).
    apply (StatusNot200 Store.unauthorized Ref.direct 0
             (mkResponse 401 "401 Unauthorized" 0 "{}"));
      [reflexivity|reflexivity|discriminate].
  - refine (proj1 (version_failure_is_fatal (Ref.env (Ref.always "7.x"))
                     Ref.direct "" ∅ false [Ref.line1] None
                     (mkUrl "" "http://es:9200") world0 _ _ _)
              (Err "No Major.Minor.Patch elements found") _);
      try (vm_compute; reflexivity).
    apply (NumberUnparsable (Ref.env (Ref.always "7.x")) Ref.direct 0
             (mkResponse 200 "200 OK" 0 "7.x") "7.x");
      vm_compute; reflexivity.
  - refine (proj2 (version_failure_is_fatal (Store.leaving 2)
                     Ref.direct "" ∅ false
                     ["goos: linux"; Ref.line1; Ref.line0] None
                     (mkUrl "" "http://es:9200") world0 _ _ _)
              ["goos: linux"] Ref.line1 [Ref.line0] Ref.bench1
              (snd (createMapping (Store.leaving 2) false Ref.direct world0))
              (mkContext "" "linux" "")
              (snd (createMapping (Store.leaving 2) false Ref.direct world0))
              (Err "dial tcp 10.0.0.7:9200: connect: connection refused")
              _ _ _ _ _);
      try (vm_compute; reflexivity).
    apply StoreUnreachable; vm_compute; reflexivity.
Defined.

(** Two lines without any [goarch:] line before them, in direct-send
    mode, and a tag named like a base field. *)
Lemma base_fields_always_present_witness :
  is_Some (docOf (Ref.env Ref.never) (mkbenchmark Ref.bench0 None) "" "" ""
             {[ "name" := "renamed" ]} 0 !! fieldName)
  /\ docOf (Ref.env Ref.never) (mkbenchmark Ref.bench0 None) "" "" ""
       {[ "goarch" := "riscv64" ]} 0 !! fieldGOARCH
     = Some (VString "riscv64")
  /\ exists w1 action doc,
      written ToBuf
        (snd (scanLines (Ref.env (Ref.always "7.11.1")) ToBuf ∅ 0 Ref.direct
                context0 (["goos: linux"] ++ [Ref.line0]) world0))
      = written ToBuf w1 ++ [action; VMap doc; VString newline]
      /\ doc !! fieldPkg = Some (VString "")
      /\ doc !! fieldGOARCH = Some (VString "").
Proof.
  split; [|split].
  - apply (proj1 (base_fields_always_present (Ref.env Ref.never) ToBuf
                    {[ "name" := "renamed" ]} 0 Ref.direct)).
    vm_compute. apply elem_of_cons. right. apply elem_of_cons. now left.
  - apply (proj1 (proj2 (base_fields_always_present (Ref.env Ref.never) ToBuf
                           {[ "goarch" := "riscv64" ]} 0 Ref.direct))).
    vm_compute. reflexivity.
  - destruct (proj2 (proj2 (base_fields_always_present
                              (Ref.env (Ref.always "7.11.1"))
                              ToBuf ∅ 0 Ref.direct))
                ["goos: linux"] Ref.line0 Ref.bench0 world0
                (mkContext "" "linux" "")
                (snd (scanLines (Ref.env (Ref.always "7.11.1")) ToBuf ∅ 0
                        Ref.direct context0 (["goos: linux"] ++ [Ref.line0])
                        world0)))
      as (w1 & action & doc & _ & Hw & _ & Hp & _ & Ha & _);
      [vm_compute; reflexivity ..|].
    exists w1, action, doc. split; [exact Hw|].
    split; [apply Hp|apply Ha];
      first [repeat constructor | vm_compute; reflexivity].
Defined.

(** C10 as written fails: with [-tag goos=plan9] and no [goos:] line the
    document has [plan9] under [goos], not the empty string.  The run is
    in direct-send mode, and the document is in the buffer. *)
Lemma tag_named_like_an_unset_field :
  exists action doc,
    written ToBuf
      (snd (main Store.serving Ref.direct "goos=plan9" false [Ref.line0]
              None world0))
    = [action; VMap doc; VString newline]
    /\ doc !! fieldGOOS = Some (VString "plan9")
    /\ doc !! fieldGOOS <> Some (VString "").
Proof.
  eexists _, _. split; [vm_compute; reflexivity|].
  split; [vm_compute; reflexivity|].
  vm_compute. discriminate.
Qed.

(* ===================================================================== *)
(** ** More on the extra-metrics extractor                               *)
(* ===================================================================== *)

Section ExtraMetricsMore.

Context (E : Env).

Lemma mapBytes_no_slash s :
  strings.IndexRune (mapBytes slashToUnderscore s) "/"%char = None.
Proof.
  induction s as [|c cs IH]; [reflexivity|].
  cbn [mapBytes strings.IndexRune]. rewrite IH. unfold slashToUnderscore.
  destruct (Ascii.eqb_spec c "/") as [->|Hc]; [reflexivity|].
  destruct (Ascii.eqb_spec c "/"); [contradiction|reflexivity].
Qed.

(** One step of the loop, on a usable column, is an insertion at its key. *)
Lemma extraEntry_insert result entry v :
  usable E entry = true ->
  ParseFloat E (numberOf entry) = Some v ->
  extraEntry E result entry = <[keyOf entry := v]> result.
Proof.
  intros Hu Hv.
  destruct (extraEntry_usable E result entry Hu) as (v' & Hv' & ->).
  rewrite Hv in Hv'. injection Hv' as <-. reflexivity.
Qed.

(** The loop never takes a key away. *)
Lemma extraEntry_keeps result entry key :
  is_Some (result !! key) -> is_Some (extraEntry E result entry !! key).
Proof.
  intros H. destruct (usable E entry) eqn:Hu.
  - destruct (extraEntry_usable E result entry Hu) as (v & _ & ->).
    destruct (decide (strings.ReplaceAll (labelOf entry) "/" "_" = key))
      as [->|Hne].
    + rewrite lookup_insert_eq. eauto.
    + now rewrite lookup_insert_ne.
  - now rewrite extraEntry_unusable.
Qed.

Lemma fold_keeps entries result key :
  is_Some (result !! key) ->
  is_Some (fold_left (extraEntry E) entries result !! key).
Proof.
  revert result. induction entries as [|e es IH]; intros result H; [exact H|].
  cbn. apply IH. now apply extraEntry_keeps.
Qed.

Lemma fold_no_slash entries result :
  (forall key, is_Some (result !! key) ->
     strings.IndexRune key "/"%char = None) ->
  forall key,
    is_Some (fold_left (extraEntry E) entries result !! key) ->
    strings.IndexRune key "/"%char = None.
Proof.
  revert result. induction entries as [|e es IH]; intros result H; [exact H|].
  cbn. apply IH. intros key.
  destruct (usable E e) eqn:Hu.
  - destruct (extraEntry_usable E result e Hu) as (v & _ & ->).
    rewrite ReplaceAll_slash.
    destruct (decide (mapBytes slashToUnderscore (labelOf e) = key)) as [<-|Hne].
    + intros _. apply mapBytes_no_slash.
    + rewrite lookup_insert_ne by exact Hne. apply H.
  - rewrite extraEntry_unusable by exact Hu. apply H.
Qed.

(** X1: no key of the mapping [parseExtraMetrics] returns has a ['/'] in
    it. *)
Theorem extra_keys_have_no_slash line m key :
  parseExtraMetrics E line = Some m ->
  is_Some (m !! key) ->
  strings.IndexRune key "/"%char = None.
Proof.
  unfold parseExtraMetrics.
  destruct (_ <? 3)%nat; [discriminate|].
  destruct (0 <? size _)%nat; [|discriminate].
  intros [= <-]. apply fold_no_slash.
  intros k. rewrite lookup_empty. now intros [x Hx].
Qed.

(** X2: [parseExtraMetrics] returns a mapping exactly when one of the
    columns after the third is usable. *)
Theorem extra_metrics_iff_usable_column line :
  is_Some (parseExtraMetrics E line)
  <-> Exists (fun e => usable E e = true) (drop 3 (strings.Split line tab)).
Proof.
  split.
  - intros Hsome.
    destruct (decide (Exists (fun e => usable E e = true)
                        (drop 3 (strings.Split line tab)))) as [Hex|Hnex];
      [exact Hex|].
    exfalso.
    assert (Hall : Forall (fun e => usable E e = false)
                     (drop 3 (strings.Split line tab))).
    { apply Forall_forall. intros e He.
      destruct (usable E e) eqn:Hu; [|reflexivity].
      exfalso. apply Hnex. apply Exists_exists. exists e. now split. }
    revert Hsome. unfold parseExtraMetrics.
    destruct (_ <? 3)%nat; [intros [x Hx]; discriminate|].
    rewrite fold_unusable by exact Hall.
    intros [x Hx]. discriminate.
  - intros Hex. unfold parseExtraMetrics.
    destruct (Nat.ltb_spec (length (strings.Split line tab)) 3) as [Hlt|_].
    { rewrite drop_ge in Hex by lia. inversion Hex. }
    apply Exists_exists in Hex as (e & He & Hu).
    apply list_elem_of_split in He as (pre & post & Heq).
    rewrite Heq, fold_left_app. cbn [fold_left].
    destruct (extraEntry_usable E (fold_left (extraEntry E) pre ∅) e Hu)
      as (v & _ & Hstep).
    set (k := strings.ReplaceAll (labelOf e) "/" "_") in *.
    assert (Hk : is_Some (fold_left (extraEntry E) post
                            (extraEntry E (fold_left (extraEntry E) pre ∅) e)
                          !! k)).
    { apply fold_keeps. rewrite Hstep, lookup_insert_eq. eauto. }
    destruct (Nat.ltb_spec 0 (size (fold_left (extraEntry E) post
                (extraEntry E (fold_left (extraEntry E) pre ∅) e)))) as [_|Hz];
      [eauto|].
    exfalso. assert (Hsz : size (fold_left (extraEntry E) post
                (extraEntry E (fold_left (extraEntry E) pre ∅) e)) = 0%nat) by lia.
    apply map_size_empty_iff in Hsz. rewrite Hsz, lookup_empty in Hk.
    destruct Hk as [x Hx]. discriminate.
Qed.

Lemma fold_last_wins post result key v :
  result !! key = Some v ->
  Forall (fun e => usable E e = true -> keyOf e <> key) post ->
  fold_left (extraEntry E) post result !! key = Some v.
Proof.
  revert result. induction post as [|e es IH]; intros result Hk Hall;
    [exact Hk|].
  cbn. apply Forall_cons in Hall as [He Hes]. apply IH; [|exact Hes].
  destruct (usable E e) eqn:Hu.
  - destruct (extraEntry_usable E result e Hu) as (v' & _ & ->).
    rewrite lookup_insert_ne; [exact Hk|]. now apply He.
  - now rewrite extraEntry_unusable.
Qed.

(** X3: where two usable columns have the same key, the later one wins:
    the mapping has, under the key of a usable column, the value of that
    column, as long as no usable column after it has the same key. *)
Theorem later_column_overwrites pre entry post result v :
  usable E entry = true ->
  ParseFloat E (numberOf entry) = Some v ->
  Forall (fun e => usable E e = true -> keyOf e <> keyOf entry) post ->
  fold_left (extraEntry E) (pre ++ entry :: post) result !! keyOf entry
  = Some v.
Proof.
  intros Hu Hv Hpost. rewrite fold_left_app. cbn [fold_left].
  apply fold_last_wins; [|exact Hpost].
  rewrite (extraEntry_insert _ entry v Hu Hv). apply lookup_insert_eq.
Qed.

End ExtraMetricsMore.

(* ===================================================================== *)
(** ** More on the flags and the responses                               *)
(* ===================================================================== *)

Section Responses.

Context (E : Env).

Lemma parseTags_refuses fields tags0 f :
  parseTags fields tags0 = inl f ->
  exists field, field ∈ fields /\ badTag field = true
                /\ f = strings.TrimSpace field.
Proof.
  revert tags0. induction fields as [|field rest IH]; intros tags0;
    [discriminate|].
  cbn [parseTags]. unfold badTag.
  destruct (String.eqb (strings.TrimSpace field) "") eqn:Hblank.
  { intros H. destruct (IH _ H) as (x & Hx & Hbad).
    exists x. split; [apply elem_of_cons; now right|exact Hbad]. }
  destruct (strings.IndexRune (strings.TrimSpace field) "=") as [i|] eqn:Hi.
  { intros H. destruct (IH _ H) as (x & Hx & Hbad).
    exists x. split; [apply elem_of_cons; now right|exact Hbad]. }
  intros [= <-]. exists field. split; [apply elem_of_cons; now left|].
  rewrite Hblank, Hi. now rewrite bool_decide_eq_true_2.
Qed.

Lemma parseTags_accepts fields tags0 :
  Forall (fun field => badTag field = false) fields ->
  exists tags, parseTags fields tags0 = inr tags.
Proof.
  revert tags0. induction fields as [|field rest IH]; intros tags0 Hall;
    [now eexists|].
  apply Forall_cons in Hall as [Hf Hrest].
  cbn [parseTags]. unfold badTag in Hf.
  destruct (String.eqb (strings.TrimSpace field) "") eqn:Hblank;
    [now apply IH|].
  destruct (strings.IndexRune (strings.TrimSpace field) "=") as [i|] eqn:Hi;
    [now apply IH|].
  rewrite bool_decide_eq_true_2 in Hf by reflexivity. discriminate.
Qed.

(** X4: [main] refuses the [-tag] flag exactly when one of its
    comma-separated fields is not blank and has no ['=']; it then stops
    with [os.Exit(2)] and a message that names the field, before it has
    printed anything or made any request.  Blank fields are passed over. *)
Theorem malformed_tag_stops_main cfg tagsFlag verboseFlag stdin scannerErr w :
  (Exists (fun field => badTag field = true) (strings.Split tagsFlag ",") ->
   exists field,
     field ∈ strings.Split tagsFlag "," /\ badTag field = true
     /\ main E cfg tagsFlag verboseFlag stdin scannerErr w
        = (Exit2 ("invalid key-value pair " +:+ strings.TrimSpace field
                    +:+ " in -tags: missing '='"), w))
  /\ (Forall (fun field => badTag field = false) (strings.Split tagsFlag ",") ->
      exists tags, parseTags (strings.Split tagsFlag ",") ∅ = inr tags).
Proof.
  split; [|apply parseTags_accepts].
  intros Hex.
  destruct (parseTags (strings.Split tagsFlag ",") ∅) as [f|tags] eqn:Hp.
  - destruct (parseTags_refuses _ _ _ Hp) as (field & Hin & Hbad & ->).
    exists field. repeat split; try assumption.
    unfold main. now rewrite Hp.
  - exfalso. apply Exists_exists in Hex as (field & Hin & Hbad).
    revert Hp Hin. generalize (∅ : gmap string string) as tags0.
    induction (strings.Split tagsFlag ",") as [|x rest IH]; intros tags0 Hp Hin.
    { now apply elem_of_nil in Hin. }
    cbn [parseTags] in Hp.
    apply elem_of_cons in Hin as [<-|Hin].
    + unfold badTag in Hbad. apply andb_prop in Hbad as [Hb Hi].
      apply negb_true_iff in Hb. rewrite Hb in Hp.
      apply bool_decide_eq_true_1 in Hi. rewrite Hi in Hp. discriminate.
    + destruct (String.eqb (strings.TrimSpace x) ""); [now apply (IH _ Hp)|].
      destruct (strings.IndexRune (strings.TrimSpace x) "="); [|discriminate].
      now apply (IH _ Hp).
Qed.

(** X5: [handleResponse] takes no status but 200 for a success: with any
    other status it returns an error, panics or stops the run, and prints
    nothing.  Without [-v] a response of status 200 is a success whatever
    its body. *)
Theorem only_status_200_succeeds verboseFlag resp w :
  (StatusCode resp <> 200 ->
   fst (handleResponse E verboseFlag resp w) <> Done None
   /\ snd (handleResponse E verboseFlag resp w) = w)
  /\ (verboseFlag = false -> StatusCode resp = 200 ->
      handleResponse E verboseFlag resp w = (Done None, w)).
Proof.
  unfold handleResponse. split.
  - intros Hs. apply Z.eqb_neq in Hs. rewrite Hs, andb_false_r.
    destruct (decodeObject E (RespBody resp)) as [err|[result unread]];
      [now split|].
    destruct (result !! "error") as [[| | | | | | |errorObj]|];
      try now split.
    destruct (errorObj !! "type") as [[]|], (errorObj !! "reason") as [[]|];
      now split.
  - intros -> ->. reflexivity.
Qed.

(** X6: an error object whose [type] or [reason] is no string makes
    [handleResponse] panic. *)
Theorem error_without_strings_panics verboseFlag resp w result unread errorObj :
  StatusCode resp <> 200 ->
  decodeObject E (RespBody resp) = inr (result, unread) ->
  result !! "error" = Some (VMap errorObj) ->
  (forall s, errorObj !! "type" <> Some (VString s))
  \/ (forall s, errorObj !! "reason" <> Some (VString s)) ->
  handleResponse E verboseFlag resp w = (Panic, w).
Proof.
  intros Hs Hd He Hbad. unfold handleResponse.
  apply Z.eqb_neq in Hs. rewrite Hs, andb_false_r, Hd, He.
  destruct (errorObj !! "type") as [[]|] eqn:Ht,
           (errorObj !! "reason") as [[]|] eqn:Hr; try reflexivity.
  destruct Hbad as [Hbad|Hbad]; exfalso; eapply Hbad; reflexivity.
Qed.

(** X7: when the store answers the PUT of [createMapping] with an error
    of the type [resource_already_exists_exception], [createMapping]
    returns no error; an error of any other type it returns as it is. *)
Theorem index_already_exists_is_no_error verboseFlag cfg w v w1 resp result
    unread errorObj t reason :
  getEsVersion E cfg w = (Done (inr v), w1) ->
  http_NewRequest E "PUT" (host cfg +:+ "/" +:+ index cfg) = None ->
  http_Do E (length (requests w1)) (mappingRequest cfg v) = inr resp ->
  StatusCode resp <> 200 ->
  decodeObject E (RespBody resp) = inr (result, unread) ->
  result !! "error" = Some (VMap errorObj) ->
  errorObj !! "type" = Some (VString t) ->
  errorObj !! "reason" = Some (VString reason) ->
  fst (createMapping E verboseFlag cfg w)
  = Done (if String.eqb t exceptionResourceAlreadyExists then None
          else Some (EsError t reason)).
Proof.
  intros Hget Hnew Hdo Hs Hd He Ht Hr.
  unfold createMapping, bind at 1. rewrite Hget, marshalError_mappingBody.
  rewrite Hnew. unfold bind at 1, Do at 1.
  fold (mappingRequest cfg v). rewrite Hdo.
  unfold bind at 1, handleResponse.
  apply Z.eqb_neq in Hs. rewrite Hs, andb_false_r, Hd, He, Ht, Hr.
  unfold ret at 1.
  destruct (String.eqb t exceptionResourceAlreadyExists); [|reflexivity].
  destruct verboseFlag; reflexivity.
Qed.

(** X8: [getEsVersion] returns a version only from a response of status
    200 to its one GET of [cfg.host], whose body decodes to a number that
    semver accepts; to any other status it returns the error
    [received unexpected <status> status code], whatever the body. *)
Theorem version_only_from_status_200 cfg w :
  (forall v w1,
      getEsVersion E cfg w = (Done (inr v), w1) ->
      exists resp number,
        http_Do E (length (requests w)) (versionRequest cfg) = inr resp
        /\ StatusCode resp = 200
        /\ decodeEsVersion E (RespBody resp) = inr number
        /\ semver_New E number = inr v
        /\ requests w1 = requests w ++ [versionRequest cfg])
  /\ (forall resp,
      http_NewRequest E "GET" (host cfg) = None ->
      http_Do E (length (requests w)) (versionRequest cfg) = inr resp ->
      StatusCode resp <> 200 ->
      fst (getEsVersion E cfg w)
      = Done (inl (Err ("received unexpected " +:+ pretty (StatusCode resp)
                          +:+ " status code")))).
Proof.
  unfold getEsVersion. fold (versionRequest cfg). split.
  - intros v w1.
    destruct (http_NewRequest E "GET" (host cfg)); [discriminate|].
    unfold bind, Do.
    destruct (http_Do E _ _) as [err|resp] eqn:Hdo; [discriminate|].
    destruct (Z.eqb_spec (StatusCode resp) 200) as [H200|]; [|discriminate].
    cbn [negb].
    destruct (decodeEsVersion E (RespBody resp)) as [err|number] eqn:Hnum;
      [discriminate|].
    unfold ret. intros [= Hv <-]. exists resp, number.
    split; [reflexivity|]. split; [exact H200|]. split; [exact Hnum|].
    split; [exact Hv|reflexivity].
  - intros resp -> Hdo Hs. unfold bind, Do. rewrite Hdo.
    apply Z.eqb_neq in Hs. now rewrite Hs.
Qed.

End Responses.

(* ===================================================================== *)
(** ** More on the document                                              *)
(* ===================================================================== *)

Section DocumentMore.

Context (E : Env).

Lemma marshalError_VMap m :
  marshalError (VMap m) = None
  <-> map_Forall (fun _ v => marshalError v = None) m.
Proof.
  cbn [marshalError]. rewrite fmap_None.
  apply (map_fold_weak_ind
           (fun (r : option (string * error)) (m : gmap string value) =>
              r = None <-> map_Forall (fun _ v => marshalError v = None) m)).
  - split; [intros _; apply map_Forall_empty|reflexivity].
  - intros i x m' r Hi IH.
    rewrite map_Forall_insert by exact Hi.
    destruct (marshalError x) as [err|].
    + split; [|intros [? _]; discriminate].
      destruct r as [[k e]|]; [destruct (String.ltb i k)|]; discriminate.
    + rewrite IH. tauto.
Qed.

Lemma floatError_finite f : floatError f = None <-> isFinite f = true.
Proof. destruct f as [s|s| |s m e]; try destruct s; cbn; split; congruence. Qed.

Lemma marshalError_floats (m : gmap string float64) :
  marshalError (VMap (VFloat <$> m)) = None
  <-> map_Forall (fun _ f => isFinite f = true) m.
Proof.
  rewrite marshalError_VMap, map_Forall_fmap.
  split; intros H k f Hk; apply floatError_finite, (H k f Hk).
Qed.

(** A map with a refused value is refused. *)
Lemma refused_member (doc : gmap string value) key val :
  doc !! key = Some val -> is_Some (marshalError val) ->
  is_Some (marshalError (VMap doc)).
Proof.
  intros Hk [e He]. destruct (marshalError (VMap doc)) eqn:Hd; [eauto|].
  apply marshalError_VMap in Hd.
  apply (map_Forall_lookup_1 _ _ _ _ Hd) in Hk. cbv beta in Hk. congruence.
Qed.

(** The field [extra_metrics] of the document. *)
Lemma docOf_extra b pkg goos goarch tags timestamp :
  tags !! fieldExtraMetrics = None ->
  docOf E b pkg goos goarch tags timestamp !! fieldExtraMetrics
  = match extra b with
    | Some m => if (0 <? size m)%nat then Some (VMap (VFloat <$> m)) else None
    | None => None
    end.
Proof. own_key addTags_lookup docOf_lookup addVCS_lookup addHost_lookup. Qed.

(** The two measurement fields that are floats. *)
Lemma docOf_float_fields b pkg goos goarch tags timestamp :
  (tags !! fieldNSPerOp = None ->
     docOf E b pkg goos goarch tags timestamp !! fieldNSPerOp
     = if measured (Benchmark b) parse.NsPerOp
       then Some (VFloat (parse.NsPerOp_ (Benchmark b))) else None)
  /\ (tags !! fieldMBPerS = None ->
     docOf E b pkg goos goarch tags timestamp !! fieldMBPerS
     = if measured (Benchmark b) parse.MBPerS
       then Some (VFloat (parse.MBPerS_ (Benchmark b))) else None).
Proof.
  split; own_key addTags_lookup docOf_lookup addVCS_lookup addHost_lookup.
Qed.

Lemma size_pos_lookup (m : gmap string float64) key f :
  m !! key = Some f -> (0 <? size m)%nat = true.
Proof.
  intros H. apply Nat.ltb_lt.
  destruct (size m) eqn:Hs; [|lia].
  apply map_size_empty_iff in Hs. rewrite Hs, lookup_empty in H. discriminate.
Qed.

(** When the version check succeeds and the encoder refuses the
    document, the action alone is written and [log.Fatal] has the error of
    the encoder. *)
Lemma refused_document_stops_the_run encoder b pkg goos goarch tags timestamp
    cfg w v w1 :
  getEsVersion E cfg w = (Done (inr v), w1) ->
  is_Some (marshalError (VMap (docOf E b pkg goos goarch tags timestamp))) ->
  exists err w',
    marshalError (VMap (docOf E b pkg goos goarch tags timestamp)) = Some err
    /\ encodeIndexOp E encoder b pkg goos goarch tags timestamp cfg w
       = (Fatal (errorString err), w')
    /\ written encoder w' = written encoder w ++ [actionFor cfg v].
Proof.
  intros Hget [err Herr]. rewrite encodeIndexOp_run, Hget. cbv zeta.
  rewrite Herr. eexists _, _. split; [reflexivity|]. split; [reflexivity|].
  rewrite written_emit. now rewrite (written_getEsVersion E encoder cfg w _ _ Hget).
Qed.

(** X9: when the version check of a record succeeds, a measured time, a
    measured throughput or an extra metric that is NaN or infinite, and
    that no tag is named like, stops the run at the record: the action is
    written, the document is not, and [log.Fatal] has the error of the
    encoder. *)
Theorem not_a_number_stops_the_run encoder b pkg goos goarch tags timestamp
    cfg w v w1 :
  getEsVersion E cfg w = (Done (inr v), w1) ->
  (measured (Benchmark b) parse.NsPerOp = true
   /\ isFinite (parse.NsPerOp_ (Benchmark b)) = false
   /\ tags !! fieldNSPerOp = None)
  \/ (measured (Benchmark b) parse.MBPerS = true
      /\ isFinite (parse.MBPerS_ (Benchmark b)) = false
      /\ tags !! fieldMBPerS = None)
  \/ (exists m key f,
        extra b = Some m /\ m !! key = Some f /\ isFinite f = false
        /\ tags !! fieldExtraMetrics = None) ->
  exists err w',
    marshalError (VMap (docOf E b pkg goos goarch tags timestamp)) = Some err
    /\ encodeIndexOp E encoder b pkg goos goarch tags timestamp cfg w
       = (Fatal (errorString err), w')
    /\ written encoder w' = written encoder w ++ [actionFor cfg v].
Proof.
  intros Hget Hcase.
  apply (refused_document_stops_the_run _ _ _ _ _ _ _ _ _ _ _ Hget).
  assert (Hfloat : forall f, isFinite f = false ->
                             is_Some (marshalError (VFloat f))).
  { intros f Hf. destruct (marshalError (VFloat f)) eqn:Hm; [eauto|].
    apply floatError_finite in Hm. congruence. }
  destruct (docOf_float_fields b pkg goos goarch tags timestamp)
    as (Hns & Hmb).
  destruct Hcase as [(Hm & Hf & Ht) | [(Hm & Hf & Ht) | (m & key & f & He & Hk & Hf & Ht)]].
  - apply (refused_member _ fieldNSPerOp
             (VFloat (parse.NsPerOp_ (Benchmark b)))); [|now apply Hfloat].
    rewrite (Hns Ht). now rewrite Hm.
  - apply (refused_member _ fieldMBPerS
             (VFloat (parse.MBPerS_ (Benchmark b)))); [|now apply Hfloat].
    rewrite (Hmb Ht). now rewrite Hm.
  - apply (refused_member _ fieldExtraMetrics (VMap (VFloat <$> m))).
    + rewrite (docOf_extra _ _ _ _ _ _ Ht), He.
      now rewrite (size_pos_lookup m key f Hk).
    + apply (refused_member _ key (VFloat f)); [|now apply Hfloat].
      now rewrite lookup_fmap, Hk.
Qed.

Local Abbreviation good :=
  (fun (_ : string) (v : value) => marshalError v = None).

Lemma addTags_good tags (doc : gmap string value) :
  map_Forall good doc -> map_Forall good (addTags tags doc).
Proof.
  intros Hdoc. unfold addTags.
  apply (map_fold_weak_ind
           (fun (r : gmap string value) (_ : gmap string string) =>
              map_Forall good r)); [exact Hdoc|].
  intros i x m r _ IH. now apply map_Forall_insert_2.
Qed.

Lemma addHost_good (doc : gmap string value) :
  map_Forall good doc -> map_Forall good (addHost E doc).
Proof.
  intros Hdoc. unfold addHost.
  destruct (String.eqb (runtime_GOOS E) "linux"), (exec_uname_r E),
    (os_Hostname E); map_values; auto.
Qed.

(** [addVCS], by what it finds. *)
Lemma addVCS_unfold pkgpath (doc : gmap string value) :
  addVCS E pkgpath doc
  = match vcs_FromDir E pkgpath with
    | None => doc
    | Some cmd =>
        if String.eqb cmd "git" then
          match exec_git_log E pkgpath with
          | None => doc
          | Some output =>
              match strings.SplitN (strings.TrimSpace output) " " 3 with
              | [f0; f1; f2] =>
                  <[fieldGit := VMap (gitFieldsOf f0 f2 (ParseInt E f1))]> doc
              | _ => doc
              end
          end
        else doc
    end.
Proof.
  unfold addVCS, gitFieldsOf.
  destruct (vcs_FromDir E pkgpath) as [cmd|]; [|reflexivity].
  destruct (String.eqb cmd "git"); [|reflexivity].
  destruct (exec_git_log E pkgpath) as [output|]; [|reflexivity].
  destruct (strings.SplitN _ " " 3) as [|f0 [|f1 [|f2 [|f3 l]]]];
    reflexivity.
Qed.

(** The committer date of [gitFields]. *)
Lemma gitFieldsOf_date commit subject unixSec :
  match gitFieldsOf commit subject unixSec !! fieldGitCommitter with
  | Some (VMap committer) =>
      match committer !! fieldGitCommitterDate with
      | Some (VTime t) => Some t
      | _ => None
      end
  | _ => None
  end = unixSec.
Proof. destruct unixSec; reflexivity. Qed.

(** The committer date, by what [addVCS] finds. *)
Lemma committerDate_unfold pkgpath :
  committerDate E pkgpath
  = match vcs_FromDir E pkgpath with
    | None => None
    | Some cmd =>
        if String.eqb cmd "git" then
          match exec_git_log E pkgpath with
          | None => None
          | Some output =>
              match strings.SplitN (strings.TrimSpace output) " " 3 with
              | [f0; f1; f2] => ParseInt E f1
              | _ => None
              end
          end
        else None
    end.
Proof.
  unfold committerDate. rewrite addVCS_unfold.
  destruct (vcs_FromDir E pkgpath) as [cmd|]; [|reflexivity].
  destruct (String.eqb cmd "git"); [|reflexivity].
  destruct (exec_git_log E pkgpath) as [output|]; [|reflexivity].
  destruct (strings.SplitN _ " " 3) as [|f0 [|f1 [|f2 [|f3 l]]]];
    try reflexivity.
  rewrite lookup_insert_eq. apply gitFieldsOf_date.
Qed.

Lemma gitFields_good commit subject unixSec :
  (forall t, unixSec = Some t -> marshalsYear t = true) ->
  marshalError (VMap (gitFieldsOf commit subject unixSec)) = None.
Proof.
  intros Hdate. apply marshalError_VMap. unfold gitFieldsOf.
  destruct unixSec as [t|]; map_values; try reflexivity.
  apply marshalError_VMap. map_values.
  cbn [marshalError]. now rewrite Hdate.
Qed.

Lemma addVCS_good pkgpath (doc : gmap string value) :
  (forall t, committerDate E pkgpath = Some t -> marshalsYear t = true) ->
  map_Forall good doc -> map_Forall good (addVCS E pkgpath doc).
Proof.
  intros Hdate Hdoc. rewrite committerDate_unfold in Hdate.
  rewrite addVCS_unfold.
  destruct (vcs_FromDir E pkgpath) as [cmd|]; [|exact Hdoc].
  destruct (String.eqb cmd "git"); [|exact Hdoc].
  destruct (exec_git_log E pkgpath) as [output|]; [|exact Hdoc].
  destruct (strings.SplitN _ " " 3) as [|f0 [|f1 [|f2 [|f3 l]]]];
    try exact Hdoc.
  apply map_Forall_insert_2; [now apply gitFields_good|exact Hdoc].
Qed.

Lemma docOf_good b pkg goos goarch tags timestamp :
  finiteRecord b -> datedRecord E pkg timestamp ->
  marshalError (VMap (docOf E b pkg goos goarch tags timestamp)) = None.
Proof.
  intros (Hns & Hmb & Hex) (Hnow & Hdate).
  apply marshalError_VMap. unfold docOf.
  apply addTags_good, addVCS_good, addHost_good; [exact Hdate|].
  assert (Hextra : forall doc : gmap string value,
    map_Forall good doc ->
    map_Forall good
      match extra b with
      | Some apmbench =>
          if (0 <? size apmbench)%nat
          then <[fieldExtraMetrics := VMap (VFloat <$> apmbench)]> doc
          else doc
      | None => doc
      end).
  { intros doc Hdoc. destruct (extra b) as [m|] eqn:He; [|exact Hdoc].
    destruct (0 <? size m)%nat; [|exact Hdoc].
    apply map_Forall_insert_2; [|exact Hdoc].
    apply marshalError_floats. now apply Hex. }
  apply Hextra. unfold measured in Hns, Hmb.
  repeat match goal with
    | |- map_Forall _ (if ?c then _ else _) => destruct c eqn:?
    | |- map_Forall _ (<[_ := _]> _) => apply map_Forall_insert_2
    end;
    try reflexivity;
    try (apply floatError_finite; auto; fail).
  all: cbn [list_to_map foldr fst snd uncurry]; map_values;
    try reflexivity; cbn [marshalError]; now rewrite Hnow.
Qed.

(** X10: when the version check succeeds, the floats of a record are
    finite, and the time of the run and the committer date, if there is
    one, have a year from 0 to 9999, [encodeIndexOp] returns, and has
    written the action, the document and the string of a line feed, in
    this order, whatever the tags and the host add. *)
Theorem finite_record_is_written encoder b pkg goos goarch tags timestamp
    cfg w v w1 :
  getEsVersion E cfg w = (Done (inr v), w1) ->
  finiteRecord b ->
  datedRecord E pkg timestamp ->
  exists w',
    encodeIndexOp E encoder b pkg goos goarch tags timestamp cfg w
    = (Done tt, w')
    /\ written encoder w'
       = written encoder w
           ++ [actionFor cfg v;
               VMap (docOf E b pkg goos goarch tags timestamp);
               VString newline]
    /\ requests w' = requests w1.
Proof.
  intros Hget Hfin Hdated.
  rewrite encodeIndexOp_run, Hget. cbv zeta.
  rewrite (docOf_good _ _ _ _ _ _ Hfin Hdated).
  eexists. split; [reflexivity|]. split.
  - rewrite written_emit.
    now rewrite (written_getEsVersion E encoder cfg w _ _ Hget).
  - apply requests_emit.
Qed.

(** The field [git] of the document is the one [addVCS] makes. *)
Lemma docOf_git b pkg goos goarch tags timestamp gitFields :
  tags !! fieldGit = None ->
  addVCS E pkg ∅ !! fieldGit = Some gitFields ->
  docOf E b pkg goos goarch tags timestamp !! fieldGit = Some gitFields.
Proof.
  intros Ht. unfold docOf. rewrite addTags_lookup, Ht.
  rewrite !addVCS_unfold.
  destruct (vcs_FromDir E pkg) as [cmd|]; [|now rewrite lookup_empty].
  destruct (String.eqb cmd "git"); [|now rewrite lookup_empty].
  destruct (exec_git_log E pkg) as [output|]; [|now rewrite lookup_empty].
  destruct (strings.SplitN _ " " 3) as [|f0 [|f1 [|f2 [|f3 l]]]];
    try now rewrite lookup_empty.
  now rewrite !lookup_insert_eq.
Qed.

(** X20: when the version check of a record succeeds, a time of the run
    or a committer date whose year is not from 0 to 9999, and that no tag
    takes the place of, stops the run at the record: the action is
    written, the document is not, and [log.Fatal] has the error of the
    encoder. *)
Theorem date_out_of_range_stops_the_run encoder b pkg goos goarch tags
    timestamp cfg w v w1 :
  getEsVersion E cfg w = (Done (inr v), w1) ->
  (marshalsYear timestamp = false /\ tags !! fieldExecutedAt = None)
  \/ (exists unixSec,
        committerDate E pkg = Some unixSec
        /\ marshalsYear unixSec = false
        /\ tags !! fieldGit = None) ->
  exists err w',
    marshalError (VMap (docOf E b pkg goos goarch tags timestamp)) = Some err
    /\ encodeIndexOp E encoder b pkg goos goarch tags timestamp cfg w
       = (Fatal (errorString err), w')
    /\ written encoder w' = written encoder w ++ [actionFor cfg v].
Proof.
  intros Hget Hcase.
  apply (refused_document_stops_the_run _ _ _ _ _ _ _ _ _ _ _ Hget).
  assert (Htime : forall t, marshalsYear t = false ->
                            is_Some (marshalError (VTime t))).
  { intros t Ht. cbn [marshalError]. rewrite Ht. eauto. }
  destruct Hcase as [(Hnow & Ht) | (unixSec & Hdate & Hyear & Ht)].
  - apply (refused_member _ fieldExecutedAt (VTime timestamp));
      [|now apply Htime].
    destruct (docOf_base E b pkg goos goarch tags timestamp)
      as (_ & _ & _ & H4 & _).
    now apply H4.
  - unfold committerDate in Hdate.
    destruct (addVCS E pkg ∅ !! fieldGit) as [[| | | | | | |gitFields]|] eqn:Hgit;
      try discriminate.
    destruct (gitFields !! fieldGitCommitter) as [[| | | | | | |committer]|]
      eqn:Hcommitter; try discriminate.
    destruct (committer !! fieldGitCommitterDate) as [[| | | | |t| |]|]
      eqn:Hstamp; try discriminate.
    injection Hdate as ->.
    apply (refused_member _ fieldGit (VMap gitFields));
      [now apply docOf_git|].
    apply (refused_member _ fieldGitCommitter (VMap committer));
      [exact Hcommitter|].
    apply (refused_member _ fieldGitCommitterDate (VTime unixSec));
      [exact Hstamp|now apply Htime].
Qed.

(** X11: the document of a line has the field [extra_metrics] exactly
    when [parseExtraMetrics] returns a mapping for the line, and then the
    field is that mapping; a tag named [extra_metrics] apart. *)
Theorem extra_metrics_field_is_the_mapping B line pkg goos goarch tags
    timestamp :
  tags !! fieldExtraMetrics = None ->
  docOf E (mkbenchmark B (parseExtraMetrics E line)) pkg goos goarch tags
    timestamp !! fieldExtraMetrics
  = (fun m => VMap (VFloat <$> m)) <$> parseExtraMetrics E line.
Proof.
  intros Ht. rewrite (docOf_extra _ _ _ _ _ _ Ht). cbn [extra].
  unfold parseExtraMetrics.
  destruct (_ <? 3)%nat; [reflexivity|].
  destruct (0 <? size _)%nat eqn:Hs; [|reflexivity].
  cbv beta iota. rewrite Hs. reflexivity.
Qed.

(** Splitting at blanks into a bounded number of pieces. *)
Lemma splitNGo_blank n cur piece rest :
  strings.IndexRune piece " "%char = None ->
  strings.splitNGo " " (S (S n)) O cur (piece +:+ " " +:+ rest)
  = string_of_list_ascii (rev cur ++ list_ascii_of_string piece)
      :: strings.splitNGo " " (S n) O [] rest.
Proof.
  revert cur. induction piece as [|c cs IH]; intros cur Hp.
  - change ("" +:+ " " +:+ rest) with (String " " rest).
    cbn [strings.splitNGo strings.HasPrefix list_ascii_of_string].
    rewrite HasPrefix_empty, app_nil_r. reflexivity.
  - cbn in Hp. destruct (Ascii.eqb c " ") eqn:Hc; [discriminate|].
    destruct (strings.IndexRune cs " ") eqn:Hcs; [discriminate|].
    change (String c cs +:+ " " +:+ rest) with (String c (cs +:+ " " +:+ rest)).
    cbn [strings.splitNGo strings.HasPrefix].
    rewrite Hc. cbn [andb]. rewrite IH by reflexivity.
    cbn [rev list_ascii_of_string]. now rewrite <- app_assoc.
Qed.

Lemma splitNGo_last rest : strings.splitNGo " " 1 O [] rest = [rest].
Proof. now destruct rest. Qed.

Lemma SplitN_three commit stamp subject :
  strings.IndexRune commit " "%char = None ->
  strings.IndexRune stamp " "%char = None ->
  strings.SplitN (commit +:+ " " +:+ stamp +:+ " " +:+ subject) " " 3
  = [commit; stamp; subject].
Proof.
  intros Hc Hs. unfold strings.SplitN.
  rewrite splitNGo_blank by exact Hc.
  rewrite splitNGo_blank by exact Hs.
  rewrite splitNGo_last. cbn [rev app].
  now rewrite !string_of_list_ascii_of_string.
Qed.

(** X12: for a package in a git work tree whose last commit [git log]
    prints as [<commit> <seconds> <subject>], [addVCS] sets the field
    [git] to the commit, the subject with all its blanks, and the
    committer date when [<seconds>] is a number; without a number the
    date alone is left out. *)
Theorem git_subject_keeps_its_blanks pkgpath (doc : gmap string value)
    output commit stamp subject :
  vcs_FromDir E pkgpath = Some "git" ->
  exec_git_log E pkgpath = Some output ->
  strings.TrimSpace output = commit +:+ " " +:+ stamp +:+ " " +:+ subject ->
  strings.IndexRune commit " "%char = None ->
  strings.IndexRune stamp " "%char = None ->
  addVCS E pkgpath doc
  = <[fieldGit := VMap (gitFieldsOf commit subject (ParseInt E stamp))]> doc.
Proof.
  intros Hvcs Hlog Hout Hc Hs.
  rewrite addVCS_unfold, Hvcs, Hlog, Hout. cbn [String.eqb].
  change (String.eqb "git" "git") with true. cbv iota.
  now rewrite SplitN_three.
Qed.

End DocumentMore.

(* ===================================================================== *)
(** ** More on the versions                                              *)
(* ===================================================================== *)

Section VersionsMore.

Context (E : Env).

(** Below 8.0.0, by the numbers. *)
Lemma LT_8_before8 v :
  0 <= semver.Minor v -> 0 <= semver.Patch v ->
  semver.LT v semver.v8_0_0 = before8 v.
Proof.
  destruct v as [M m p pre bld]. cbn [semver.Minor semver.Patch].
  intros Hm Hp.
  unfold semver.LT, semver.Compare, before8, semver.v8_0_0.
  cbn [semver.Major semver.Minor semver.Patch semver.Pre].
  destruct (Z.eqb_spec M 8) as [->|HM]; cbn [negb andb orb].
  - change (8 <? 8) with false. cbn [orb].
    destruct (Z.eqb_spec m 0) as [->|Hm0]; cbn [negb andb].
    + destruct (Z.eqb_spec p 0) as [->|Hp0]; cbn [negb andb].
      * destruct pre; reflexivity.
      * destruct (Z.gtb_spec p 0); [reflexivity|lia].
    + destruct (Z.gtb_spec m 0); [reflexivity|lia].
  - destruct (Z.gtb_spec M 8), (Z.ltb_spec M 8); try reflexivity; lia.
Qed.

Lemma LT_7_LT_8 v :
  semver.LT v semver.v7_0_0 = true -> semver.LT v semver.v8_0_0 = true.
Proof.
  destruct v as [M m p pre bld].
  unfold semver.LT, semver.Compare, semver.v7_0_0, semver.v8_0_0.
  cbn [semver.Major semver.Minor semver.Patch semver.Pre].
  destruct (Z.eqb_spec M 7) as [->|HM7]; [reflexivity|]. cbn [negb].
  destruct (Z.gtb_spec M 7); [discriminate|]. intros _.
  destruct (Z.eqb_spec M 8); [lia|]. cbn [negb].
  destruct (Z.gtb_spec M 8); [lia|reflexivity].
Qed.

(** X13: the index action of a record has the [_type] [_doc] for the
    versions before 8 and for the pre-releases of 8.0.0, and no [_type]
    for every other version. *)
Theorem prerelease_of_8_keeps_type encoder b pkg goos goarch tags timestamp
    cfg w v w1 :
  getEsVersion E cfg w = (Done (inr v), w1) ->
  0 <= semver.Minor v -> 0 <= semver.Patch v ->
  exists rest,
    written encoder
      (snd (encodeIndexOp E encoder b pkg goos goarch tags timestamp cfg w))
    = written encoder w
        ++ VMap {[ "index" :=
             VMap (<["_index" := VString (index cfg)]>
                     (if before8 v then {[ "_type" := VString "_doc" ]}
                      else ∅)) ]}
        :: rest.
Proof.
  intros Hget Hm Hp.
  rewrite encodeIndexOp_run, Hget. cbv zeta.
  rewrite <- (written_getEsVersion E encoder cfg w _ _ Hget).
  assert (Hact : actionFor cfg v
                 = VMap {[ "index" :=
                      VMap (<["_index" := VString (index cfg)]>
                              (if before8 v then {[ "_type" := VString "_doc" ]}
                               else ∅)) ]}).
  { unfold actionFor. rewrite (LT_8_before8 v Hm Hp).
    now destruct (before8 v). }
  rewrite Hact.
  destruct (marshalError _); cbn [snd]; rewrite written_emit; eauto.
Qed.

Lemma VMap_inj (a b : gmap string value) : VMap a = VMap b -> a = b.
Proof. intros H. now injection H. Qed.

Lemma Some_VMap_inj (a b : gmap string value) :
  Some (VMap a) = Some (VMap b) -> a = b.
Proof. intros H. now injection H. Qed.

(** X14: a version for which [createMapping] puts the properties under
    [_doc] is a version for which [encodeIndexOp] gives every action the
    [_type] [_doc]. *)
Theorem nested_mapping_goes_with_type cfg v properties :
  mappingBody v = VMap {[ "mappings" := VMap {[ "_doc" := properties ]} ]} ->
  actionFor cfg v
  = VMap {[ "index" :=
       VMap (<["_index" := VString (index cfg)]>
               {[ "_type" := VString "_doc" ]}) ]}.
Proof.
  intros Hbody.
  assert (Hlt : semver.LT v semver.v7_0_0 = true).
  { unfold mappingBody in Hbody.
    destruct (semver.LT v semver.v7_0_0); [reflexivity|].
    exfalso. apply VMap_inj in Hbody.
    apply (f_equal (fun m : gmap string value => m !! "mappings")) in Hbody.
    rewrite !lookup_singleton_eq in Hbody. apply Some_VMap_inj in Hbody.
    apply (f_equal (fun m : gmap string value => m !! "properties")) in Hbody.
    rewrite lookup_insert_eq, lookup_singleton_ne in Hbody by discriminate.
    discriminate. }
  unfold actionFor. now rewrite (LT_7_LT_8 v Hlt).
Qed.

End VersionsMore.

(* ===================================================================== *)
(** ** More on the stream driver                                         *)
(* ===================================================================== *)

Section DriverMore.

Context (E : Env).
Context (tags : gmap string string) (timestamp : Z)
        (cfg : elasticsearchConfig).

Lemma benchmarkLine_relevant line b :
  benchmarkLine E line = Some b -> relevant E line = true.
Proof.
  unfold benchmarkLine, relevant, contextLine.
  destruct (_ || _ || _); [discriminate|]. intros H. cbn [orb].
  rewrite H. now apply bool_decide_eq_true_2.
Qed.

(** X15: the lines that are neither context lines nor accepted by
    [parse.ParseLine] leave no trace: the run over the lines is the run
    over the lines without them. *)
Theorem other_lines_are_dropped encoder ctx lines w :
  scanLines E encoder tags timestamp cfg ctx lines w
  = scanLines E encoder tags timestamp cfg ctx
      (List.filter (relevant E) lines) w.
Proof.
  revert ctx w. induction lines as [|line rest IH]; intros ctx w;
    [reflexivity|].
  cbn [List.filter]. destruct (relevant E line) eqn:Hr.
  - cbn [scanLines]. unfold bind.
    destruct (scanLine E encoder tags timestamp cfg ctx line w)
      as [[ctx1| | |] w1]; try reflexivity.
    apply IH.
  - unfold relevant in Hr. apply orb_false_elim in Hr as [Hc Hp].
    assert (Hnone : ParseLine E line = None).
    { destruct (ParseLine E line); [|reflexivity].
      rewrite bool_decide_eq_true_2 in Hp by eauto. discriminate. }
    cbn [scanLines]. unfold bind.
    destruct (scanLine_other E encoder tags timestamp cfg ctx line w Hc Hnone)
      as [-> _].
    apply IH.
Qed.

Lemma requests_getEsVersion w :
  http_NewRequest E "GET" (host cfg) = None ->
  requests (snd (getEsVersion E cfg w)) = requests w ++ [versionRequest cfg].
Proof.
  intros Hnew. unfold getEsVersion. rewrite Hnew. unfold bind, Do.
  fold (versionRequest cfg).
  destruct (http_Do E _ _) as [err|resp]; [reflexivity|].
  destruct (negb (StatusCode resp =? 200)); [reflexivity|].
  destruct (decodeEsVersion E (RespBody resp)); reflexivity.
Qed.

Lemma requests_encodeIndexOp encoder b pkg goos goarch w :
  http_NewRequest E "GET" (host cfg) = None ->
  requests (snd (encodeIndexOp E encoder b pkg goos goarch tags timestamp cfg w))
  = requests w ++ [versionRequest cfg].
Proof.
  intros Hnew. rewrite encodeIndexOp_run.
  pose proof (requests_getEsVersion w Hnew) as Hreq.
  destruct (getEsVersion E cfg w) as [[[err|v]|msg|msg|] w1]; cbn [snd] in *;
    try exact Hreq.
  cbv zeta. destruct (marshalError _); cbn [snd]; now rewrite requests_emit.
Qed.

(** X16: every record costs one version check: when the lines have been
    read, the loop has made one GET of [cfg.host] for each benchmark
    line, and no other request. *)
Theorem one_version_check_per_record encoder ctx lines w ctx' w' :
  http_NewRequest E "GET" (host cfg) = None ->
  scanLines E encoder tags timestamp cfg ctx lines w = (Done ctx', w') ->
  requests w'
  = requests w ++ replicate (records E lines) (versionRequest cfg).
Proof.
  intros Hnew. revert ctx w.
  induction lines as [|line rest IH]; intros ctx w.
  - cbn. unfold ret. intros [= _ <-]. now rewrite app_nil_r.
  - cbn [scanLines]. unfold bind, records. cbn [List.filter].
    destruct (scanLine E encoder tags timestamp cfg ctx line w)
      as [[ctx1| | |] w1] eqn:Hline; try discriminate.
    intros Hrest. apply IH in Hrest. rewrite Hrest. unfold records.
    destruct (benchmarkLine E line) as [b|] eqn:Hb.
    + rewrite bool_decide_eq_true_2 by eauto. cbn [length replicate].
      destruct (scanLine_benchmark E encoder tags timestamp cfg ctx line b w Hb)
        as [Hrun _].
      rewrite Hrun in Hline. unfold bind in Hline.
      pose proof (requests_encodeIndexOp encoder
                    (mkbenchmark b (parseExtraMetrics E line))
                    (pkg ctx) (goos ctx) (goarch ctx) w Hnew) as Hreq.
      destruct (encodeIndexOp E _ _ _ _ _ _ _ _ w) as [[[]| | |] w2];
        try discriminate.
      injection Hline as _ <-. cbn [snd] in Hreq.
      rewrite Hreq, <- app_assoc. reflexivity.
    + rewrite bool_decide_eq_false_2 by (intros [x Hx]; discriminate).
      assert (Hw : w1 = w).
      { destruct (contextLine line) eqn:Hc.
        - rewrite scanLine_context in Hline by exact Hc. congruence.
        - assert (Hp : ParseLine E line = None).
          { unfold benchmarkLine in Hb. unfold contextLine in Hc.
            now rewrite Hc in Hb. }
          destruct (scanLine_other E encoder tags timestamp cfg ctx line w Hc Hp)
            as [Hrun _].
          congruence. }
      now rewrite Hw.
Qed.

End DriverMore.

(* ===================================================================== *)
(** ** More on the run as a whole                                        *)
(* ===================================================================== *)

Section RunMore.

Context (E : Env).

Lemma sinks_emit encoder units w :
  (encoder = ToStdout -> buf (emit encoder units w) = buf w)
  /\ (encoder = ToBuf -> stdout (emit encoder units w) = stdout w).
Proof.
  revert w. induction units as [|v vs IH]; intros w; [now split|].
  rewrite emit_cons. destruct (IH (snd (write encoder v w))) as [Hb Hs].
  split; intros ->; [rewrite Hb|rewrite Hs]; reflexivity.
Qed.

Lemma sinks_encodeIndexOp encoder b pkg goos goarch tags timestamp cfg w :
  (encoder = ToStdout ->
   buf (snd (encodeIndexOp E encoder b pkg goos goarch tags timestamp cfg w))
   = buf w)
  /\ (encoder = ToBuf ->
      stdout (snd (encodeIndexOp E encoder b pkg goos goarch tags timestamp
                     cfg w))
      = stdout w).
Proof.
  rewrite encodeIndexOp_run.
  destruct (getEsVersion_returns E cfg w) as (r & w1 & Hget & Hs & Hb & _).
  rewrite Hget. destruct r as [err|v]; cbn [snd]; [now split|].
  cbv zeta. destruct (marshalError _); cbn [snd];
    match goal with
    | |- context [emit encoder ?units w1] =>
        destruct (sinks_emit encoder units w1) as [Hb' Hs']
    end;
    split; intros Henc; [rewrite Hb'| rewrite Hs' | rewrite Hb' | rewrite Hs'];
    auto.
Qed.

(** X17: in passthrough mode the loop over the lines leaves the buffer as
    it is, and in direct-send mode without [-v] it prints nothing:  the
    units of the records go to one place only. *)
Theorem records_go_to_one_place tags timestamp cfg ctx lines w :
  buf (snd (scanLines E ToStdout tags timestamp cfg ctx lines w)) = buf w
  /\ stdout (snd (scanLines E ToBuf tags timestamp cfg ctx lines w)) = stdout w.
Proof.
  assert (Hline : forall encoder ctx line w,
    (encoder = ToStdout ->
     buf (snd (scanLine E encoder tags timestamp cfg ctx line w)) = buf w)
    /\ (encoder = ToBuf ->
        stdout (snd (scanLine E encoder tags timestamp cfg ctx line w))
        = stdout w)).
  { intros encoder c line w0. unfold scanLine.
    repeat match goal with
      | |- context [if ?c then _ else _] => destruct c; [now split|]
      end.
    destruct (ParseLine E line) as [b|]; [|now split].
    unfold bind.
    pose proof (sinks_encodeIndexOp encoder
                  (mkbenchmark b (parseExtraMetrics E line))
                  (pkg c) (goos c) (goarch c) tags timestamp cfg w0) as H.
    destruct (encodeIndexOp E _ _ _ _ _ _ _ _ w0) as [[[]| | |] w2]; exact H. }
  assert (Hall : forall encoder ctx w,
    (encoder = ToStdout ->
     buf (snd (scanLines E encoder tags timestamp cfg ctx lines w)) = buf w)
    /\ (encoder = ToBuf ->
        stdout (snd (scanLines E encoder tags timestamp cfg ctx lines w))
        = stdout w)).
  { intros encoder. induction lines as [|line rest IH]; intros c w0;
      [now split|].
    cbn [scanLines]. unfold bind.
    pose proof (Hline encoder c line w0) as [Hb Hs].
    destruct (scanLine E encoder tags timestamp cfg c line w0)
      as [[ctx1| | |] w1]; cbn [snd] in *; try (split; assumption).
    destruct (IH ctx1 w1) as [Hb' Hs'].
    split; intros Henc; [rewrite Hb'|rewrite Hs']; auto. }
  split; [apply (Hall ToStdout)|apply (Hall ToBuf)]; reflexivity.
Qed.

(** X18: a read error of the scanner is fatal after the lines before it
    have been dealt with: in passthrough mode their units are on standard
    output; in direct-send mode the buffer is never sent. *)
Theorem read_error_is_fatal cfg tagsFlag tags verboseFlag stdin err w :
  parseTags (strings.Split tagsFlag ",") ∅ = inr tags ->
  (forall ctx w1,
      host cfg = "" ->
      scanLines E ToStdout tags (time_Now E) cfg context0 stdin w
      = (Done ctx, w1) ->
      main E cfg tagsFlag verboseFlag stdin (Some err) w
      = (Fatal (errorString err), w1))
  /\ (forall u w0 ctx w1,
      nonEmpty (host cfg) = true ->
      url_Parse E (host cfg) = inr u ->
      createMapping E verboseFlag cfg w = (Done None, w0) ->
      scanLines E (if verboseFlag then ToBoth else ToBuf) tags (time_Now E) cfg
        context0 stdin w0 = (Done ctx, w1) ->
      main E cfg tagsFlag verboseFlag stdin (Some err) w
      = (Fatal (errorString err), w1)
      /\ onlyAdds ["GET"; "PUT"] w w1).
Proof.
  intros Htags. split.
  - intros ctx w1 Hhost Hrun.
    rewrite (main_passthrough E cfg tagsFlag tags) by assumption.
    unfold bind. now rewrite Hrun.
  - intros u w0 ctx w1 Hhost Hurl Hmap Hrun.
    rewrite (main_direct E cfg tagsFlag tags verboseFlag stdin _ u)
      by assumption.
    unfold bind at 1 2. unfold bind at 1. rewrite Hmap. unfold ret at 1.
    rewrite Hrun. split; [reflexivity|].
    eapply onlyAdds_trans.
    { pose proof (onlyAdds_createMapping E verboseFlag cfg w) as H.
      rewrite Hmap in H. exact H. }
    eapply onlyAdds_weaken.
    2:{ pose proof (onlyAdds_scanLines E (if verboseFlag then ToBoth else ToBuf)
                      tags (time_Now E) cfg context0 stdin w0) as H.
        rewrite Hrun in H. exact H. }
    intros x Hx. rewrite !elem_of_cons in *. tauto.
Qed.

Lemma requests_pretty_Println v w :
  requests (snd (pretty_Println v w)) = requests w.
Proof. reflexivity. Qed.

(** The requests of [sendBulk]. *)
Lemma requests_sendBulk verboseFlag cfg u w :
  http_NewRequest E "POST" (URL (bulkRequest E cfg u (buf w))) = None ->
  requests (snd (sendBulk E verboseFlag cfg u w))
  = requests w ++ [bulkRequest E cfg u (buf w)].
Proof.
  intros Hnew. unfold sendBulk. cbn [URL bulkRequest] in Hnew. rewrite Hnew.
  fold (bulkRequest E cfg u (buf w)).
  unfold bind at 1, Do at 1.
  destruct (http_Do E _ _) as [e|resp]; [reflexivity|].
  unfold decodeBody at 1.
  destruct (decodeObject E (RespBody resp)) as [e|[respbod unread]];
    [reflexivity|].
  unfold bind at 1 2 3, pretty_Println at 1 2 3. cbn [fst snd].
  unfold decodeBody. cbn [RespBody StatusCode Status ContentLength].
  destruct (decodeObject E unread) as [e|[result unread2]]; [reflexivity|].
  unfold bind at 1, pretty_Println at 1.
  unfold bind at 1.
  match goal with
  | |- context [handleResponse E verboseFlag ?r ?w'] =>
      pose proof (requests_handleResponse E verboseFlag r w') as Hh;
      destruct (handleResponse E verboseFlag r w') as [[[err|]|?|?|] w2]
  end; cbn [snd requests] in Hh |- *; exact Hh.
Qed.

(** X19: in direct-send mode, when the mapping is there and the lines are
    read without a fatal record, [main] makes one more request: the POST
    of [<url>/_bulk] with the content type [application/x-ndjson], whose
    body is what the encoder has written, unit by unit.  When
    [http.NewRequest] refuses the request, the run panics instead. *)
Theorem bulk_request_carries_the_buffer cfg tagsFlag tags verboseFlag stdin
    u w w0 ctx w1 :
  nonEmpty (host cfg) = true ->
  parseTags (strings.Split tagsFlag ",") ∅ = inr tags ->
  url_Parse E (host cfg) = inr u ->
  createMapping E verboseFlag cfg w = (Done None, w0) ->
  scanLines E (if verboseFlag then ToBoth else ToBuf) tags (time_Now E) cfg
    context0 stdin w0 = (Done ctx, w1) ->
  let req :=
    bulkRequest E cfg u
      (written (if verboseFlag then ToBoth else ToBuf) w1) in
  (http_NewRequest E "POST" (URL req) = None ->
   requests (snd (main E cfg tagsFlag verboseFlag stdin None w))
   = requests w1 ++ [req])
  /\ (forall e, http_NewRequest E "POST" (URL req) = Some e ->
      main E cfg tagsFlag verboseFlag stdin None w = (Panic, w1)).
Proof.
  intros Hhost Htags Hurl Hmap Hrun req.
  assert (Hbody : written (if verboseFlag then ToBoth else ToBuf) w1 = buf w1)
    by now destruct verboseFlag.
  subst req. rewrite Hbody.
  assert (Hmain : main E cfg tagsFlag verboseFlag stdin None w
                  = sendBulk E verboseFlag cfg u w1).
  { rewrite (main_direct E cfg tagsFlag tags verboseFlag stdin _ u)
      by assumption.
    unfold bind at 1 2. unfold bind at 1. rewrite Hmap. unfold ret at 1.
    now rewrite Hrun. }
  rewrite Hmain. split.
  - intros Hnew. now apply requests_sendBulk.
  - intros e Hnew. unfold sendBulk. cbn [URL bulkRequest] in Hnew.
    now rewrite Hnew.
Qed.

End RunMore.

(* ===================================================================== *)
(** ** The further statements at work                                    *)
(* ===================================================================== *)

Lemma extra_keys_have_no_slash_witness :
  strings.IndexRune "txs_sec" "/"%char = None.
Proof.
  apply (extra_keys_have_no_slash (Ref.env Ref.never) Ref.line1
           {[ "txs_sec" := float64_of_Z 4386 ]} "txs_sec").
  - vm_compute. reflexivity.
  - vm_compute. eauto.
Defined.

Lemma later_column_overwrites_witness :
  fold_left (extraEntry (Ref.env Ref.never))
    (["7 B/op"] ++ "2 txs/sec" :: ["9 spans/sec"; "oops txs/sec"])
    {[ "txs_sec" := float64_of_Z 1 ]} !! keyOf "2 txs/sec"
  = Some (float64_of_Z 2).
Proof.
  apply (later_column_overwrites (Ref.env Ref.never)).
  - vm_compute. reflexivity.
  - vm_compute. reflexivity.
  - constructor; [intros _; vm_compute; discriminate|].
    constructor; [vm_compute; discriminate|]. constructor.
Defined.

Lemma malformed_tag_stops_main_witness :
  (exists field,
      field ∈ strings.Split "team=apm, ,nightly" "," /\ badTag field = true
      /\ main (Ref.env Ref.never) Ref.direct "team=apm, ,nightly" false
           [Ref.line1] None world0
         = (Exit2 ("invalid key-value pair " +:+ strings.TrimSpace field
                     +:+ " in -tags: missing '='"), world0))
  /\ exists tags,
      parseTags (strings.Split "team=apm, , run = 7 " ",") ∅ = inr tags.
Proof.
  split.
  - apply (proj1 (malformed_tag_stops_main (Ref.env Ref.never) Ref.direct
                    "team=apm, ,nightly" false [Ref.line1] None world0)).
    replace (strings.Split "team=apm, ,nightly" ",")
      with ["team=apm"; " "; "nightly"] by (vm_compute; reflexivity).
    apply Exists_cons. right. apply Exists_cons. right. apply Exists_cons. left.
    vm_compute. reflexivity.
  - apply (proj2 (malformed_tag_stops_main (Ref.env Ref.never) Ref.direct
                    "team=apm, , run = 7 " false [] None world0)).
    replace (strings.Split "team=apm, , run = 7 " ",")
      with ["team=apm"; " "; " run = 7 "] by (vm_compute; reflexivity).
    repeat (constructor; [vm_compute; reflexivity|]). constructor.
Defined.

Lemma only_status_200_succeeds_witness :
  (fst (handleResponse Store.unauthorized true
          (mkResponse 401 "401 Unauthorized" 0 "{}") world0) <> Done None
   /\ snd (handleResponse Store.unauthorized true
             (mkResponse 401 "401 Unauthorized" 0 "{}") world0) = world0)
  /\ handleResponse Store.vague false (mkResponse 200 "200 OK" 0 "{") world0
     = (Done None, world0).
Proof.
  split.
  - apply (proj1 (only_status_200_succeeds Store.unauthorized true
                    (mkResponse 401 "401 Unauthorized" 0 "{}") world0)).
    discriminate.
  - apply (proj2 (only_status_200_succeeds Store.vague false
                    (mkResponse 200 "200 OK" 0 "{") world0)); reflexivity.
Defined.

Lemma error_without_strings_panics_witness :
  handleResponse Store.vague false
    (mkResponse 500 "500 Internal Server Error" 0 "{}") world0
  = (Panic, world0).
Proof.
  apply (error_without_strings_panics Store.vague false
           (mkResponse 500 "500 Internal Server Error" 0 "{}") world0
           {[ "error" := VMap {[ "reason" := VString "boom" ]} ]} ""
           {[ "reason" := VString "boom" ]}).
  - discriminate.
  - reflexivity.
  - reflexivity.
  - left. intros s. vm_compute. discriminate.
Defined.

Lemma index_already_exists_is_no_error_witness :
  fst (createMapping (Store.refusing exceptionResourceAlreadyExists) false
         Ref.direct world0) = Done None
  /\ fst (createMapping (Store.refusing "mapper_parsing_exception") false
            Ref.direct world0)
     = Done (Some (EsError "mapper_parsing_exception"
                     "index [gobench] already exists")).
Proof.
  split.
  - refine (index_already_exists_is_no_error
              (Store.refusing exceptionResourceAlreadyExists) false
              Ref.direct world0 (semver.mkVersion 7 11 1 [] []) _ _ _ _ _
              exceptionResourceAlreadyExists "index [gobench] already exists"
              _ _ _ _ _ _ _ _);
      try (vm_compute; reflexivity).
    vm_compute. discriminate.
  - refine (index_already_exists_is_no_error
              (Store.refusing "mapper_parsing_exception") false
              Ref.direct world0 (semver.mkVersion 7 11 1 [] []) _ _ _ _ _
              "mapper_parsing_exception" "index [gobench] already exists"
              _ _ _ _ _ _ _ _);
      try (vm_compute; reflexivity).
    vm_compute. discriminate.
Defined.

Lemma version_only_from_status_200_witness :
  (exists resp number,
      http_Do (Ref.env (Ref.always "7.11.1")) 0 (versionRequest Ref.direct)
      = inr resp
      /\ StatusCode resp = 200
      /\ decodeEsVersion (Ref.env (Ref.always "7.11.1")) (RespBody resp)
         = inr number
      /\ semver_New (Ref.env (Ref.always "7.11.1")) number
         = inr (semver.mkVersion 7 11 1 [] [])
      /\ requests (snd (getEsVersion (Ref.env (Ref.always "7.11.1"))
                          Ref.direct world0))
         = [] ++ [versionRequest Ref.direct])
  /\ fst (getEsVersion Store.unauthorized Ref.direct world0)
     = Done (inl (Err "received unexpected 401 status code")).
Proof.
  split.
  - apply (proj1 (version_only_from_status_200 (Ref.env (Ref.always "7.11.1"))
                    Ref.direct world0)).
    vm_compute. reflexivity.
  - apply (proj2 (version_only_from_status_200 Store.unauthorized
                    Ref.direct world0)
             (mkResponse 401 "401 Unauthorized" 0 "{}"));
      [reflexivity|reflexivity|discriminate].
Defined.

(** A record with an extra metric that is no number, in direct-send
    mode. *)
Lemma not_a_number_stops_the_run_witness :
  exists w',
    encodeIndexOp (Ref.env (Ref.always "7.11.1")) ToBuf Store.undefined
      "" "" "" ∅ 1700000000 Ref.direct world0
    = (Fatal "json: unsupported value: NaN", w')
    /\ written ToBuf w'
       = written ToBuf world0
           ++ [actionFor Ref.direct (semver.mkVersion 7 11 1 [] [])].
Proof.
  destruct (not_a_number_stops_the_run (Ref.env (Ref.always "7.11.1")) ToBuf
              Store.undefined "" "" "" ∅ 1700000000 Ref.direct world0
              (semver.mkVersion 7 11 1 [] [])
              (snd (getEsVersion (Ref.env (Ref.always "7.11.1")) Ref.direct
                      world0)))
    as (err & w' & Herr & Hrun & Hw).
  - vm_compute. reflexivity.
  - right. right. exists {[ "ratio" := S754_nan ]}, "ratio", S754_nan.
    repeat split; vm_compute; reflexivity.
  - vm_compute in Herr. injection Herr as <-.
    exists w'. split; [exact Hrun|exact Hw].
Defined.

(** A record of a package in a git work tree, in direct-send mode. *)
Lemma finite_record_is_written_witness :
  exists w',
    encodeIndexOp (Store.plain (Some "4f2a9c1 1700000000 Fix the parser"))
      ToBuf
      (mkbenchmark Ref.bench1 (Some {[ "txs_sec" := float64_of_Z 4386 ]}))
      "github.com/x/y" "" "" {[ "run" := "nightly" ]} 1700000000 Ref.direct
      world0
    = (Done tt, w')
    /\ written ToBuf w'
       = written ToBuf world0
           ++ [actionFor Ref.direct (semver.mkVersion 7 11 1 [] []);
               VMap (docOf (Store.plain (Some "4f2a9c1 1700000000 Fix the parser"))
                       (mkbenchmark Ref.bench1
                          (Some {[ "txs_sec" := float64_of_Z 4386 ]}))
                       "github.com/x/y" "" "" {[ "run" := "nightly" ]}
                       1700000000);
               VString newline]
    /\ requests w' = [versionRequest Ref.direct].
Proof.
  refine (finite_record_is_written
            (Store.plain (Some "4f2a9c1 1700000000 Fix the parser")) ToBuf
            (mkbenchmark Ref.bench1 (Some {[ "txs_sec" := float64_of_Z 4386 ]}))
            "github.com/x/y" "" "" {[ "run" := "nightly" ]} 1700000000
            Ref.direct world0
            (semver.mkVersion 7 11 1 [] [])
            (mkWorld [versionRequest Ref.direct] [] [] []) _ _ _).
  - vm_compute. reflexivity.
  - split; [|split].
    + intros _. reflexivity.
    + intros H. vm_compute in H. discriminate.
    + intros m [= <-]. apply map_Forall_singleton. reflexivity.
  - split; [reflexivity|].
    intros t H. vm_compute in H. injection H as <-. reflexivity.
Defined.

(** A package whose last commit has a committer date far after the year
    9999, in direct-send mode. *)
Lemma date_out_of_range_stops_the_run_witness :
  exists w',
    encodeIndexOp (Store.plain (Some "4f2a9c1 999999999999999 Fix the parser"))
      ToBuf (mkbenchmark Ref.bench1 None) "github.com/x/y" "" "" ∅ 1700000000
      Ref.direct world0
    = (Fatal ("json: error calling MarshalJSON for type time.Time: "
                +:+ "Time.MarshalJSON: year outside of range [0,9999]"), w')
    /\ written ToBuf w'
       = written ToBuf world0
           ++ [actionFor Ref.direct (semver.mkVersion 7 11 1 [] [])].
Proof.
  destruct (date_out_of_range_stops_the_run
              (Store.plain (Some "4f2a9c1 999999999999999 Fix the parser"))
              ToBuf (mkbenchmark Ref.bench1 None) "github.com/x/y" "" "" ∅
              1700000000 Ref.direct world0
              (semver.mkVersion 7 11 1 [] [])
              (snd (getEsVersion
                      (Store.plain (Some "4f2a9c1 999999999999999 Fix the parser"))
                      Ref.direct world0)))
    as (err & w' & Herr & Hrun & Hw).
  - vm_compute. reflexivity.
  - right. exists 999999999999999.
    repeat split; vm_compute; reflexivity.
  - vm_compute in Herr. injection Herr as <-.
    exists w'. split; [exact Hrun|exact Hw].
Defined.

Lemma extra_metrics_field_is_the_mapping_witness :
  docOf (Ref.env Ref.never)
    (mkbenchmark Ref.bench1 (parseExtraMetrics (Ref.env Ref.never) Ref.line1))
    "" "" "" {[ "run" := "nightly" ]} 0 !! fieldExtraMetrics
  = (fun m => VMap (VFloat <$> m))
      <$> parseExtraMetrics (Ref.env Ref.never) Ref.line1.
Proof.
  apply (extra_metrics_field_is_the_mapping (Ref.env Ref.never)).
  vm_compute. reflexivity.
Defined.

Lemma git_subject_keeps_its_blanks_witness :
  addVCS (Store.plain (Some "4f2a9c1 1700000000 Fix the parser  again "))
    "github.com/x/y" ∅
  = <[fieldGit :=
        VMap (gitFieldsOf "4f2a9c1" "Fix the parser  again" (Some 1700000000))]>
      ∅
  /\ addVCS (Store.plain (Some "4f2a9c1 yesterday Fix the parser"))
       "github.com/x/y" ∅
     = <[fieldGit := VMap (gitFieldsOf "4f2a9c1" "Fix the parser" None)]> ∅.
Proof.
  split.
  - apply (git_subject_keeps_its_blanks
             (Store.plain (Some "4f2a9c1 1700000000 Fix the parser  again "))
             "github.com/x/y" ∅
             "4f2a9c1 1700000000 Fix the parser  again "
             "4f2a9c1" "1700000000" "Fix the parser  again");
      vm_compute; reflexivity.
  - apply (git_subject_keeps_its_blanks
             (Store.plain (Some "4f2a9c1 yesterday Fix the parser"))
             "github.com/x/y" ∅ "4f2a9c1 yesterday Fix the parser"
             "4f2a9c1" "yesterday" "Fix the parser");
      vm_compute; reflexivity.
Defined.

Lemma prerelease_of_8_keeps_type_witness :
  exists rest,
    written ToBuf
      (snd (encodeIndexOp (Store.reporting Store.rc1) ToBuf
              (mkbenchmark Ref.bench1 None) "" "" "" ∅ 0 Ref.direct world0))
    = written ToBuf world0
        ++ VMap {[ "index" :=
             VMap (<["_index" := VString (index Ref.direct)]>
                     (if before8 Store.rc1
                      then {[ "_type" := VString "_doc" ]} else ∅)) ]}
        :: rest.
Proof.
  refine (prerelease_of_8_keeps_type (Store.reporting Store.rc1) ToBuf
            (mkbenchmark Ref.bench1 None) "" "" "" ∅ 0 Ref.direct world0
            Store.rc1
            (snd (getEsVersion (Store.reporting Store.rc1) Ref.direct world0))
            _ _ _).
  - vm_compute. reflexivity.
  - vm_compute. discriminate.
  - vm_compute. discriminate.
Defined.

Lemma nested_mapping_goes_with_type_witness :
  actionFor Ref.direct (semver.mkVersion 6 8 0 [] [])
  = VMap {[ "index" :=
       VMap (<["_index" := VString (index Ref.direct)]>
               {[ "_type" := VString "_doc" ]}) ]}.
Proof.
  apply (nested_mapping_goes_with_type Ref.direct (semver.mkVersion 6 8 0 [] [])
           (VMap (<["properties" := VMap esFieldProperties]>
                    {[ "dynamic_templates" :=
                         VList [VMap esExtraMetricsDynamicTemplate] ]}))).
  vm_compute. reflexivity.
Defined.

Lemma one_version_check_per_record_witness :
  requests
    (snd (scanLines (Ref.env (Ref.always "7.11.1")) ToBuf ∅ 0 Ref.direct
            context0 ["goos: linux"; Ref.line1; "PASS"; Ref.line0] world0))
  = [] ++ replicate 2 (versionRequest Ref.direct).
Proof.
  apply (one_version_check_per_record (Ref.env (Ref.always "7.11.1")) ∅ 0
           Ref.direct ToBuf context0
           ["goos: linux"; Ref.line1; "PASS"; Ref.line0] world0
           (mkContext "" "linux" "")).
  - reflexivity.
  - vm_compute. reflexivity.
Defined.

(** Passthrough mode with lines that are no benchmark lines, and
    direct-send mode with a record. *)
Lemma read_error_is_fatal_witness :
  main (Ref.env Ref.never) (Ref.cfg "") "" false ["goos: linux"; "PASS"]
    (Some (Err "bufio.Scanner: token too long")) world0
  = (Fatal "bufio.Scanner: token too long", world0)
  /\ main (Ref.env (Ref.always "7.11.1")) Ref.direct "" false [Ref.line1]
       (Some (Err "bufio.Scanner: token too long")) world0
     = (Fatal "bufio.Scanner: token too long",
        snd (scanLines (Ref.env (Ref.always "7.11.1")) ToBuf ∅ 1700000000
               Ref.direct context0 [Ref.line1]
               (snd (createMapping (Ref.env (Ref.always "7.11.1")) false
                       Ref.direct world0)))).
Proof.
  split.
  - refine (proj1 (read_error_is_fatal (Ref.env Ref.never) (Ref.cfg "") "" ∅
                     false ["goos: linux"; "PASS"]
                     (Err "bufio.Scanner: token too long") world0 _)
              (mkContext "" "linux" "") _ _ _);
      vm_compute; reflexivity.
  - refine (proj1 (proj2 (read_error_is_fatal (Ref.env (Ref.always "7.11.1"))
                     Ref.direct "" ∅ false [Ref.line1]
                     (Err "bufio.Scanner: token too long") world0 _)
              (mkUrl "" "http://es:9200") _ context0 _ _ _ _ _));
      vm_compute; reflexivity.
Defined.

Lemma bulk_request_carries_the_buffer_witness :
  requests (snd (main (Ref.env (Ref.always "7.11.1")) Ref.direct "" false
                   [Ref.line1] None world0))
  = requests
      (snd (scanLines (Ref.env (Ref.always "7.11.1")) ToBuf ∅ 1700000000
              Ref.direct context0 [Ref.line1]
              (snd (createMapping (Ref.env (Ref.always "7.11.1")) false
                      Ref.direct world0))))
      ++ [bulkRequest (Ref.env (Ref.always "7.11.1")) Ref.direct
            (mkUrl "" "http://es:9200")
            (written ToBuf
               (snd (scanLines (Ref.env (Ref.always "7.11.1")) ToBuf ∅
                       1700000000 Ref.direct context0 [Ref.line1]
                       (snd (createMapping (Ref.env (Ref.always "7.11.1"))
                               false Ref.direct world0)))))].
Proof.
  refine (proj1 (bulk_request_carries_the_buffer
                   (Ref.env (Ref.always "7.11.1")) Ref.direct "" ∅ false
                   [Ref.line1] (mkUrl "" "http://es:9200") world0
                   (snd (createMapping (Ref.env (Ref.always "7.11.1")) false
                           Ref.direct world0))
                   context0
                   (snd (scanLines (Ref.env (Ref.always "7.11.1")) ToBuf ∅
                           1700000000 Ref.direct context0 [Ref.line1]
                           (snd (createMapping (Ref.env (Ref.always "7.11.1"))
                                   false Ref.direct world0))))
                   _ _ _ _ _) _);
    vm_compute; reflexivity.
Defined.
